(** * Column profiler of Project_MuonEDA (src/data_loading.py)

    A shallow embedding of the schema-profiling functions of
    [Project_MuonEDA/src/data_loading.py] - [_monotonic_hint],
    [_zero_fraction], [_constant_hint], [possible_role],
    [build_schema_report] and [basic_structural_clean] -, of its loader
    [load_munra_raw] and of [basic_clean] of
    [Project_AirQuality/src/cleaning.py], together with the part of the
    Python / pandas run time they rely on:

    - float64 scalars are IEEE-754 binary64 values ([spec_float] with
      precision 53 and maximal exponent 1024), NaN being the missing marker
      of a float column; int64 scalars are integers (the program does no
      arithmetic on them);
    - the format specifications [.2f] and [.4g] are computed from the exact
      binary value, rounding half to even, and [str] of a float is the
      shortest decimal that reads back as the float;
    - a Series is a typed column: int64, float64 or object, an object column
      holding text; labels are text. The other dtypes of pandas (uint64 for
      integers from 2^63 on, bool, and the dtype [str] that pandas 3 gives
      to text it reads from a file) are outside the model;
    - an exception is the result [None];
    - DataFrame objects live in a store indexed by object identity, so that
      [df.copy()] and the item assignment [out[c] = ...] are visible;
    - what pandas does and the program only calls is a parameter:
      [pd.to_numeric] stands under its contract, and the text that
      [astype(str)] writes for a missing entry, on which the versions of
      pandas differ, is left open. *)

From Stdlib Require Import ZArith Lia Ascii String.
From Stdlib Require Import Floats.SpecFloat.
From stdpp Require Import base numbers list strings gmap.

Local Open Scope Z_scope.

(** ** Python strings *)

Definition digit_char (d : Z) : ascii :=
  Ascii.ascii_of_N (48 + Z.to_N d).

Fixpoint digits_fuel (fuel : nat) (n : Z) (acc : string) : string :=
  match fuel with
  | O => acc
  | S fuel' =>
      let acc' := String (digit_char (n mod 10)) acc in
      if n <? 10 then acc' else digits_fuel fuel' (n / 10) acc'
  end.

(** Decimal digits of a non-negative integer, most significant first. *)
Definition digits_of (n : Z) : string :=
  digits_fuel (S (Z.to_nat (Z.log2 n))) n "".

(** [str(n)] of a Python integer. *)
Definition str_int (n : Z) : string :=
  if n <? 0 then "-" +:+ digits_of (- n) else digits_of n.

Fixpoint zeros (n : nat) : string :=
  match n with
  | O => ""
  | S n' => String "0" (zeros n')
  end.

Fixpoint str_take (n : nat) (s : string) : string :=
  match n, s with
  | S n', String c s' => String c (str_take n' s')
  | _, _ => ""
  end.

Fixpoint str_drop (n : nat) (s : string) : string :=
  match n, s with
  | S n', String _ s' => str_drop n' s'
  | _, _ => s
  end.

(** Removes the zeros that end a digit string. *)
Fixpoint strip_zeros (s : string) : string :=
  match s with
  | "" => ""
  | String c s' =>
      match strip_zeros s' with
      | "" => if Ascii.eqb c "0" then "" else String c ""
      | t => String c t
      end
  end.

(** [sep.join(parts)] *)
Fixpoint join (sep : string) (parts : list string) : string :=
  match parts with
  | [] => ""
  | [p] => p
  | p :: rest => p +:+ sep +:+ join sep rest
  end.

(** Code points below 256 for which [str.isspace] holds. *)
Definition is_space (c : ascii) : bool :=
  let n := Z.of_N (Ascii.N_of_ascii c) in
  ((9 <=? n) && (n <=? 13)) || ((28 <=? n) && (n <=? 32))
  || (n =? 133) || (n =? 160).

Fixpoint lstrip (s : string) : string :=
  match s with
  | String c s' => if is_space c then lstrip s' else s
  | "" => ""
  end.

Fixpoint rstrip (s : string) : string :=
  match s with
  | "" => ""
  | String c s' =>
      match rstrip s' with
      | "" => if is_space c then "" else String c ""
      | t => String c t
      end
  end.

(** [s.strip()] *)
Definition strip (s : string) : string := rstrip (lstrip s).

(** ** float64 *)

Definition float64 := spec_float.
Definition prec : Z := 53.
Definition emax : Z := 1024.

Definition f64_of_int (n : Z) : float64 := binary_normalize prec emax n 0 false.
Definition f64_sub : float64 -> float64 -> float64 := SFsub prec emax.
Definition f64_mul : float64 -> float64 -> float64 := SFmul prec emax.
Definition f64_div : float64 -> float64 -> float64 := SFdiv prec emax.
Definition f64_eqb : float64 -> float64 -> bool := SFeqb.
Definition f64_ltb : float64 -> float64 -> bool := SFltb.
Definition f64_leb : float64 -> float64 -> bool := SFleb.

Definition is_nan (x : float64) : bool :=
  match x with S754_nan => true | _ => false end.

Definition nan : float64 := S754_nan.

(** The literals of the source: [0.5], [0.95] and [100]. *)
Definition f64_0_5 : float64 := S754_finite false 4503599627370496 (-53).
Definition f64_0_95 : float64 := S754_finite false 8556839292003942 (-53).
Definition f64_100 : float64 := f64_of_int 100.

(** Correctly rounded value of the positive fraction [p / q]: how Python
    reads a decimal literal. *)
Definition f64_of_frac (p q : positive) : float64 :=
  f64_div (S754_finite false p 0) (S754_finite false q 0).

(** Magnitude of a finite float [m * 2^e] as a fraction [(p, q)]. *)
Definition magnitude (m : positive) (e : Z) : Z * Z :=
  if 0 <=? e then (Z.pos m * 2 ^ e, 1) else (Z.pos m, 2 ^ (- e)).

(** [p / q] rounded to the nearest integer, ties to even. *)
Definition round_half_even (p q : Z) : Z :=
  let d := p / q in
  match (2 * (p mod q)) ?= q with
  | Lt => d
  | Gt => d + 1
  | Eq => if Z.even d then d else d + 1
  end.

Definition sign_str (s : bool) : string := if s then "-" else "".

(** *** Fixed notation: [format(x, ".2f")] *)

Definition two_digits (k : Z) : string :=
  String (digit_char (k / 10)) (String (digit_char (k mod 10)) "").

Definition format_2f (x : float64) : string :=
  match x with
  | S754_nan => "nan"
  | S754_infinity s => sign_str s +:+ "inf"
  | S754_zero s => sign_str s +:+ "0.00"
  | S754_finite s m e =>
      let '(p, q) := magnitude m e in
      let n := round_half_even (p * 100) q in
      sign_str s +:+ digits_of (n / 100) +:+ "." +:+ two_digits (n mod 100)
  end.

(** *** Significant digits *)

Fixpoint log10_up (fuel : nat) (p q k : Z) : Z :=
  match fuel with
  | O => k
  | S fuel' => if q * 10 <=? p then log10_up fuel' p (q * 10) (k + 1) else k
  end.

Fixpoint log10_down (fuel : nat) (p q k : Z) : Z :=
  match fuel with
  | O => k
  | S fuel' => if q <=? p then k else log10_down fuel' (p * 10) q (k - 1)
  end.

(** Decimal exponent [X] of the positive fraction [p / q]:
    [10^X <= p / q < 10^(X+1)]. *)
Definition floor_log10 (p q : Z) : Z :=
  let fuel := S (S (Z.to_nat (Z.log2 p + Z.log2 q))) in
  if q <=? p then log10_up fuel p q 0 else log10_down fuel p q 0.

(** [p / q * 10^s] rounded half to even. *)
Definition round_scaled (p q s : Z) : Z :=
  if 0 <=? s then round_half_even (p * 10 ^ s) q
  else round_half_even p (q * 10 ^ (- s)).

(** The [nd] significant digits of [p / q], as an integer [D] with
    [10^(nd-1) <= D < 10^nd], and the decimal exponent of the rounded value. *)
Definition sig_digits (nd : Z) (p q : Z) : Z * Z :=
  let X := floor_log10 p q in
  let D := round_scaled p q (nd - 1 - X) in
  if D =? 10 ^ nd then (10 ^ (nd - 1), X + 1) else (D, X).

Definition exponent_str (X : Z) : string :=
  let a := Z.abs X in
  "e" +:+ (if X <? 0 then "-" else "+")
      +:+ (if a <? 10 then "0" else "") +:+ digits_of a.

(** Scientific notation of the digit string [ds] (no trailing zeros). *)
Definition sci_str (ds : string) (X : Z) : string :=
  match ds with
  | "" => ""
  | String c "" => String c "" +:+ exponent_str X
  | String c rest => String c "" +:+ "." +:+ rest +:+ exponent_str X
  end.

(** Positional notation of the digit string [ds]; [dot0] appends [.0] to
    an integral value, as [repr] does. *)
Definition fixed_str (ds : string) (X : Z) (dot0 : bool) : string :=
  if X <? 0 then "0." +:+ zeros (Z.to_nat (- X - 1)) +:+ ds
  else
    let il := Z.to_nat (X + 1) in
    let len := String.length ds in
    if (len <=? il)%nat then
      ds +:+ zeros (il - len) +:+ (if dot0 then ".0" else "")
    else str_take il ds +:+ "." +:+ str_drop il ds.

(** [format(x, ".<nd>g")] *)
Definition format_g (nd : Z) (x : float64) : string :=
  match x with
  | S754_nan => "nan"
  | S754_infinity s => sign_str s +:+ "inf"
  | S754_zero s => sign_str s +:+ "0"
  | S754_finite s m e =>
      let '(p, q) := magnitude m e in
      let '(D, X) := sig_digits nd p q in
      let ds := strip_zeros (digits_of D) in
      sign_str s +:+
        (if (X <? -4) || (nd <=? X) then sci_str ds X else fixed_str ds X false)
  end.

Definition format_4g : float64 -> string := format_g 4.

(** *** [str(x)]: the shortest digit string that reads back as [x] *)

Definition reads_back (m : positive) (e : Z) (D X nd : Z) : bool :=
  let s := X - nd + 1 in
  let y :=
    if 0 <=? s then f64_of_frac (Z.to_pos (D * 10 ^ s)) 1
    else f64_of_frac (Z.to_pos D) (Z.to_pos (10 ^ (- s))) in
  f64_eqb y (S754_finite false m e).

(** [p / q * 10^s] rounded down. *)
Definition floor_scaled (p q s : Z) : Z :=
  if 0 <=? s then (p * 10 ^ s) / q else p / (q * 10 ^ (- s)).

(** The other neighbour of [p / q] among the numbers of [nd] significant
    digits: the one that rounding half to even does not choose. *)
Definition other_digits (nd : Z) (p q : Z) : Z * Z :=
  let X := floor_log10 p q in
  let lo := floor_scaled p q (nd - 1 - X) in
  let D := if round_scaled p q (nd - 1 - X) =? lo then lo + 1 else lo in
  if D =? 10 ^ nd then (10 ^ (nd - 1), X + 1) else (D, X).

(** The digits of the shortest decimal that reads back as [m * 2^e]. Only
    the two neighbours of the value can read back among the decimals of a
    given length; the nearer one is preferred. *)
Fixpoint shortest_digits (fuel : nat) (nd : Z) (m : positive) (e : Z) : Z * Z :=
  let '(p, q) := magnitude m e in
  let '(D, X) := sig_digits nd p q in
  match fuel with
  | O => (D, X)
  | S fuel' =>
      if reads_back m e D X nd then (D, X)
      else
        let '(D', X') := other_digits nd p q in
        if reads_back m e D' X' nd then (D', X')
        else shortest_digits fuel' (nd + 1) m e
  end.

Definition str_float (x : float64) : string :=
  match x with
  | S754_nan => "nan"
  | S754_infinity s => sign_str s +:+ "inf"
  | S754_zero s => sign_str s +:+ "0.0"
  | S754_finite s m e =>
      let '(D, X) := shortest_digits 16 1 m e in
      let ds := strip_zeros (digits_of D) in
      sign_str s +:+
        (if (X <? -4) || (16 <=? X) then sci_str ds X else fixed_str ds X true)
  end.

(** ** pandas Series *)

(** A column and its dtype. An int64 column has no missing entry; the
    missing entry of a float64 column is NaN; an object column holds text,
    [None] standing for a missing entry, whichever marker (NaN or None) the
    column holds for it. *)
Inductive Series :=
  | Int64 (xs : list Z)
  | Float64 (xs : list float64)
  | Object (xs : list (option string)).

(** A scalar read from a column. *)
Inductive scalar :=
  | IntVal (n : Z)
  | FloatVal (x : float64)
  | StrVal (s : string).

(** [str(s.dtype)] *)
Definition dtype (s : Series) : string :=
  match s with
  | Int64 _ => "int64"
  | Float64 _ => "float64"
  | Object _ => "object"
  end.

(** [pd.api.types.is_numeric_dtype(s)] *)
Definition is_numeric_dtype (s : Series) : bool :=
  match s with
  | Int64 _ | Float64 _ => true
  | Object _ => false
  end.

(** [len(s)] *)
Definition size (s : Series) : nat :=
  match s with
  | Int64 xs => length xs
  | Float64 xs => length xs
  | Object xs => length xs
  end.

(** [s.empty] *)
Definition empty (s : Series) : bool := (size s =? 0)%nat.

(** [s.dropna()] *)
Definition dropna (s : Series) : Series :=
  match s with
  | Int64 xs => Int64 xs
  | Float64 xs => Float64 (List.filter (fun x => negb (is_nan x)) xs)
  | Object xs => Object (List.filter (fun o => bool_decide (is_Some o)) xs)
  end.

(** Values in order of first appearance, one per class of [eqb]. *)
Fixpoint unique_by {A : Type} (eqb : A -> A -> bool) (xs : list A) : list A :=
  match xs with
  | [] => []
  | x :: rest => x :: List.filter (fun y => negb (eqb x y)) (unique_by eqb rest)
  end.

Definition option_eqb (a b : option string) : bool :=
  match a, b with
  | Some x, Some y => String.eqb x y
  | None, None => true
  | _, _ => false
  end.

(** [s.nunique()]: the number of distinct non-missing values. *)
Definition nunique (s : Series) : nat :=
  match dropna s with
  | Int64 xs => length (unique_by Z.eqb xs)
  | Float64 xs => length (unique_by f64_eqb xs)
  | Object xs => length (unique_by option_eqb xs)
  end.

(** Every entry is at most its successor. *)
Fixpoint ascending {A : Type} (leb : A -> A -> bool) (xs : list A) : bool :=
  match xs with
  | x :: (y :: _) as rest => leb x y && ascending leb rest
  | _ => true
  end.

Definition str_leb (a b : option string) : bool :=
  match a, b with
  | Some x, Some y => String.leb x y
  | _, _ => false
  end.

Definition no_nan (xs : list float64) : bool :=
  forallb (fun x => negb (is_nan x)) xs.

(** [s.is_monotonic_increasing]: non-decreasing from the first row to the
    last; a NaN or a [None] anywhere makes it false. *)
Definition is_monotonic_increasing (s : Series) : bool :=
  match s with
  | Int64 xs => ascending Z.leb xs
  | Float64 xs => no_nan xs && ascending f64_leb xs
  | Object xs => forallb (fun o => bool_decide (is_Some o)) xs && ascending str_leb xs
  end.

(** [s.is_monotonic_decreasing] *)
Definition is_monotonic_decreasing (s : Series) : bool :=
  match s with
  | Int64 xs => ascending (fun a b => Z.leb b a) xs
  | Float64 xs => no_nan xs && ascending (fun a b => f64_leb b a) xs
  | Object xs =>
      forallb (fun o => bool_decide (is_Some o)) xs
      && ascending (fun a b => str_leb b a) xs
  end.

(** [s.eq(0)]: a missing entry and a text entry are not equal to 0. *)
Definition eq0 (s : Series) : list bool :=
  match s with
  | Int64 xs => map (fun n => n =? 0) xs
  | Float64 xs => map (fun x => f64_eqb x (S754_zero false)) xs
  | Object xs => map (fun _ => false) xs
  end.

Definition count_true (bs : list bool) : nat :=
  length (List.filter (fun b => b) bs).

(** [.mean()] of a boolean column: the float64 sum of the entries divided
    by their float64 count; NaN when there is no entry. *)
Definition mean (bs : list bool) : float64 :=
  f64_div (f64_of_int (Z.of_nat (count_true bs)))
          (f64_of_int (Z.of_nat (length bs))).

(** Least element for [ltb], as the reduction of numpy finds it: the value
    kept so far gives way unless it is smaller, so that among equal values
    the last one is returned. This tells apart the zeros [0.0] and [-0.0]
    only: the minimum and the maximum of [-0.0, 0.0] are both [0.0]. *)
Definition least_by {A : Type} (ltb : A -> A -> bool) (x : A) (rest : list A) : A :=
  fold_left (fun m y => if ltb m y then m else y) rest x.

Definition strings_of (xs : list (option string)) : list string :=
  omap (fun o => o) xs.

(** [s.min()], missing entries skipped; NaN for a column without values. *)
Definition series_min (s : Series) : scalar :=
  match dropna s with
  | Int64 (x :: rest) => IntVal (least_by Z.ltb x rest)
  | Float64 (x :: rest) => FloatVal (least_by f64_ltb x rest)
  | Object xs =>
      match strings_of xs with
      | x :: rest => StrVal (least_by String.ltb x rest)
      | [] => FloatVal nan
      end
  | _ => FloatVal nan
  end.

(** [s.max()] *)
Definition series_max (s : Series) : scalar :=
  match dropna s with
  | Int64 (x :: rest) => IntVal (least_by (fun a b => Z.ltb b a) x rest)
  | Float64 (x :: rest) => FloatVal (least_by (fun a b => f64_ltb b a) x rest)
  | Object xs =>
      match strings_of xs with
      | x :: rest => StrVal (least_by (fun a b => String.ltb b a) x rest)
      | [] => FloatVal nan
      end
  | _ => FloatVal nan
  end.

(** [s.iloc[0]]; [None] is the IndexError of an empty column. *)
Definition iloc0 (s : Series) : option scalar :=
  match s with
  | Int64 (x :: _) => Some (IntVal x)
  | Float64 (x :: _) => Some (FloatVal x)
  | Object (Some x :: _) => Some (StrVal x)
  | Object (None :: _) => Some (FloatVal nan)
  | _ => None
  end.

(** [float(v)] of a numeric scalar. Text is left unconverted ([None], an
    exception in the program): every call site is guarded by
    [is_numeric_dtype]. *)
Definition float_ (v : scalar) : option float64 :=
  match v with
  | IntVal n => Some (f64_of_int n)
  | FloatVal x => Some x
  | StrVal _ => None
  end.

(** [format(v, ".4g")]; an integer is formatted through its float value,
    and the format code is an error for text. *)
Definition format_scalar_4g (v : scalar) : option string :=
  option_map format_4g (float_ v).

(** [str(v)] *)
Definition str_scalar (v : scalar) : string :=
  match v with
  | IntVal n => str_int n
  | FloatVal x => str_float x
  | StrVal s => s
  end.

Definition str_nat (n : nat) : string := str_int (Z.of_nat n).

(** ** Schema / functional profiling *)

Definition _monotonic_hint (s : Series) : string :=
  let s := dropna s in
  if empty s then "empty"
  else if negb (is_numeric_dtype s) then "n/a"
  else
    let inc := is_monotonic_increasing s in
    let dec := is_monotonic_decreasing s in
    if inc && negb dec then "monotonic_increasing"
    else if dec && negb inc then "monotonic_decreasing"
    else "not_monotonic".

Definition _zero_fraction (s : Series) : string :=
  let s := dropna s in
  if empty s || negb (is_numeric_dtype s) then "n/a"
  else format_2f (f64_mul (mean (eq0 s)) f64_100) +:+ "%".

Definition near_constant_str (nun : nat) (rng : float64) : string :=
  "near_constant(nunique=" +:+ str_nat nun +:+ ", range=" +:+ format_4g rng +:+ ")".

Definition low_cardinality_str (nun : nat) : string :=
  "low_cardinality(nunique=" +:+ str_nat nun +:+ ")".

Definition _constant_hint (s : Series) : option string :=
  let s2 := dropna s in
  if empty s2 then Some "empty"
  else
    let nun := nunique s2 in
    if (nun =? 1)%nat then
      option_map (fun v => "constant(" +:+ str_scalar v +:+ ")") (iloc0 s2)
    else
      let otherwise :=
        if (nun <=? 3)%nat then Some (low_cardinality_str nun)
        else Some "varies" in
      if is_numeric_dtype s2 && (nun <=? 5)%nat then
        match float_ (series_min s2) with
        | None => None
        | Some mn =>
            match float_ (series_max s2) with
            | None => None
            | Some mx =>
                let rng := f64_sub mx mn in
                if f64_leb rng f64_0_5 then Some (near_constant_str nun rng)
                else otherwise
            end
        end
      else otherwise.

(** The condition of the near-constant role,
    [s_num.nunique() <= 5 and float(s_num.max()) - float(s_num.min()) <= 0.5];
    the range is evaluated only when the first conjunct holds. *)
Definition few_and_close (s_num : Series) : option bool :=
  if (nunique s_num <=? 5)%nat then
    match float_ (series_max s_num) with
    | None => None
    | Some mx =>
        match float_ (series_min s_num) with
        | None => None
        | Some mn => Some (f64_leb (f64_sub mx mn) f64_0_5)
        end
    end
  else Some false.

(** The enclosed function [possible_role] of [build_schema_report]. *)
Definition possible_role (col : string) (s : Series) : option string :=
  if String.eqb col "col_9" && (nunique s =? 1)%nat then
    Some "label/type (constant category)"
  else if is_numeric_dtype s then
    if (nunique s =? 1)%nat then
      Some "constant sensor/setting (e.g., fixed parameter)"
    else
      let s_num := dropna s in
      match few_and_close s_num with
      | None => None
      | Some true => Some "near-constant reading (low variation)"
      | Some false =>
          if negb (String.eqb (_zero_fraction s) "n/a")
             && f64_ltb f64_0_95 (mean (eq0 s)) then
            Some "flag/status/unused channel (mostly zeros)"
          else if String.eqb (_monotonic_hint s) "monotonic_increasing" then
            Some "counter or time-like variable (monotonic)"
          else Some "unknown"
      end
  else Some "unknown".

(** ** DataFrame *)

(** A table: the length of its index and its labelled columns, in order. *)
Record DataFrame := mkFrame {
  index_len : nat;
  frame_columns : list (string * Series)
}.

(** [df.columns] *)
Definition columns (df : DataFrame) : list string := map fst (frame_columns df).

(** [df.shape] *)
Definition shape (df : DataFrame) : nat * nat :=
  (index_len df, length (frame_columns df)).

(** [df[col]] as the program uses it, a Series: the label has to name
    exactly one column ([None]: KeyError for an absent label, and a repeated
    label selects a DataFrame, which has no [dtype]). *)
Definition getitem (df : DataFrame) (col : string) : option Series :=
  match List.filter (fun cs => String.eqb (fst cs) col) (frame_columns df) with
  | [cs] => Some (snd cs)
  | _ => None
  end.

(** The lines before the rows of the table, for the shape [sh] of [df]. *)
Definition header_lines (sh : nat * nat) : list string :=
  [ "# MuNRa dataset schema report";
    "";
    "**Important:** This report is *functional/technical* profiling only.";
    "It does **not** assign physical meaning definitively. Any 'possible role' is a hypothesis.";
    "";
    "- Rows: **" +:+ str_nat (fst sh) +:+ "**";
    "- Columns: **" +:+ str_nat (snd sh) +:+ "**";
    "";
    "## Column summary";
    "";
    "| column | dtype | nunique | min | max | % zeros | monotonic | const/low-card | possible role (hypothesis) |";
    "|---|---:|---:|---:|---:|---:|---:|---:|---|" ].

Definition report_header (df : DataFrame) : list string := header_lines (shape df).

Definition report_notes : list string :=
  [ "";
    "## Notes / next steps";
    "";
    "- If a column is monotonic increasing, it is often a counter or timestamp-like field.";
    "- If a column is constant (or low-cardinality), it may be a fixed sensor reading or a configuration parameter.";
    "- If a column is mostly zeros, it may be a flag/channel not used in this measurement setup.";
    "- Definitive physical mapping should be done by comparing with device documentation and checking expected units/ranges.";
    "" ].

(** The cells of one summary row, as the loop body computes them. *)
Record ColumnSummary := mkSummary {
  cs_column : string;
  cs_dtype : string;
  cs_nunique : nat;
  cs_min : string;
  cs_max : string;
  cs_zero_fraction : string;
  cs_monotonic : string;
  cs_constant_hint : string;
  cs_possible_role : string
}.

Definition numeric_cells (s : Series) : option (string * string) :=
  let s_num := dropna s in
  if empty s_num then Some ("", "")
  else
    match format_scalar_4g (series_min s_num), format_scalar_4g (series_max s_num) with
    | Some mn, Some mx => Some (mn, mx)
    | _, _ => None
    end.

Definition summarize (col : string) (s : Series) : option ColumnSummary :=
  let dt := dtype s in
  let nun := nunique (dropna s) in
  match (if is_numeric_dtype s then
           option_map (fun mm => (mm, _zero_fraction s, _monotonic_hint s))
                      (numeric_cells s)
         else Some (("", ""), "n/a", "n/a")),
        _constant_hint s, possible_role col s with
  | Some (mn, mx, zf, mono), Some const_hint, Some role =>
      Some (mkSummary col dt nun mn mx zf mono const_hint role)
  | _, _, _ => None
  end.

Definition render_row (r : ColumnSummary) : string :=
  "| " +:+ cs_column r +:+ " | " +:+ cs_dtype r +:+ " | " +:+ str_nat (cs_nunique r)
  +:+ " | " +:+ cs_min r +:+ " | " +:+ cs_max r +:+ " | " +:+ cs_zero_fraction r
  +:+ " | " +:+ cs_monotonic r +:+ " | " +:+ cs_constant_hint r
  +:+ " | " +:+ cs_possible_role r +:+ " |".

(** The loop [for col in df.columns], appending one line per column to
    [lines]. *)
Fixpoint summary_loop (df : DataFrame) (cols : list string) (lines : list string)
  : option (list string) :=
  match cols with
  | [] => Some lines
  | col :: rest =>
      match getitem df col with
      | None => None
      | Some s =>
          match summarize col s with
          | None => None
          | Some r => summary_loop df rest (lines ++ [render_row r])
          end
      end
  end.

Definition newline : string := String (Ascii.ascii_of_N 10) "".

Definition build_schema_report (df : DataFrame) : option string :=
  option_map (fun lines => join newline (lines ++ report_notes))
             (summary_loop df (columns df) (report_header df)).

(** ** Objects and the store *)

(** A DataFrame is a mutable object: a variable holds its identity, the
    store holds its current contents. [None] is a raised exception. *)
Definition loc := positive.

Definition Py (A : Type) : Type := gmap loc DataFrame -> option (A * gmap loc DataFrame).

Definition ret {A : Type} (a : A) : Py A := fun σ => Some (a, σ).

Definition raise {A : Type} : Py A := fun _ => None.

Definition bind {A B : Type} (m : Py A) (k : A -> Py B) : Py B :=
  fun σ =>
    match m σ with
    | None => None
    | Some (a, σ') => k a σ'
    end.

Notation "'do' x <- m ; k" := (bind m (fun x => k))
  (at level 10, x name, m at level 100, k at level 200).

(** [df.copy()]: a new object with the same contents. *)
Definition copy (df : loc) : Py loc :=
  fun σ =>
    match σ !! df with
    | None => None
    | Some d => let out := fresh (dom σ) in Some (out, <[out := d]> σ)
    end.

(** [df.columns] of the object [df]. *)
Definition columns_of (df : loc) : Py (list string) :=
  fun σ => option_map (fun d => (columns d, σ)) (σ !! df).

(** [df[col]] of the object [df]. *)
Definition getitem_of (df : loc) (col : string) : Py Series :=
  fun σ =>
    match σ !! df with
    | None => None
    | Some d => option_map (fun s => (s, σ)) (getitem d col)
    end.

Definition has_label (col : string) (cs : string * Series) : bool :=
  String.eqb (fst cs) col.

(** The contents after [df[col] = v]: the columns labelled [col] are
    replaced in place, and a new label is appended. *)
Definition set_column (d : DataFrame) (col : string) (v : Series) : DataFrame :=
  if existsb (has_label col) (frame_columns d) then
    mkFrame (index_len d)
            (map (fun cs => if has_label col cs then (col, v) else cs) (frame_columns d))
  else mkFrame (index_len d) (frame_columns d ++ [(col, v)]).

(** [df[col] = v]: the object [df] is updated in place. *)
Definition setitem (df : loc) (col : string) (v : Series) : Py unit :=
  fun σ =>
    match σ !! df with
    | None => None
    | Some d => Some (tt, <[df := set_column d col v]> σ)
    end.

(** ** Basic structural cleaning *)

(** [s.astype(str)]: a number becomes its text and a text stays. What a
    missing entry becomes is not the same everywhere: pandas 2 writes the
    text of the marker, [nan] for NaN and [None] for None, and pandas 3
    leaves the entry missing. [str_missing i] is the text written for the
    missing entry of row [i], when one is written. *)
Definition astype_str (str_missing : nat -> option string) (s : Series) : Series :=
  match s with
  | Int64 xs => Object (map (fun n => Some (str_int n)) xs)
  | Float64 xs =>
      Object (imap (fun i x => if is_nan x then str_missing i
                               else Some (str_float x)) xs)
  | Object xs =>
      Object (imap (fun i o => match o with
                               | Some t => Some t
                               | None => str_missing i
                               end) xs)
  end.

(** [s.str.strip()]; the accessor [.str] exists on text columns only, and
    a missing entry stays missing. *)
Definition str_strip (s : Series) : option Series :=
  match s with
  | Object xs => Some (Object (map (option_map strip) xs))
  | _ => None
  end.

Section Cleaning.

(** [pd.to_numeric(s, errors="coerce")], a function of pandas: the
    properties below rest on its contract, [to_numeric_contract]. *)
Variable to_numeric : Series -> Series.

(** What [astype(str)] writes for the missing entries of the column
    [col_9]. *)
Variable str_missing : nat -> option string.

(** The body of the loop [for c in out.columns]. *)
Definition clean_step (out : loc) (c : string) : Py unit :=
  do s <- getitem_of out c;
  if String.eqb c "col_9" then
    match str_strip (astype_str str_missing s) with
    | Some v => setitem out c v
    | None => raise
    end
  else setitem out c (to_numeric s).

Fixpoint clean_loop (out : loc) (cols : list string) : Py unit :=
  match cols with
  | [] => ret tt
  | c :: rest => do _ <- clean_step out c; clean_loop out rest
  end.

Definition basic_structural_clean (df : loc) : Py loc :=
  do out <- copy df;
  do cols <- columns_of out;
  do _ <- clean_loop out cols;
  ret out.

End Cleaning.

(** ** The report builder on an object *)

(** [df.shape] of the object [df]. *)
Definition shape_of (df : loc) : Py (nat * nat) :=
  fun σ => option_map (fun d => (shape d, σ)) (σ !! df).

(** The loop [for col in df.columns] of [build_schema_report], reading the
    object [df]. *)
Fixpoint summary_loop_on (df : loc) (cols : list string) (lines : list string)
  : Py (list string) :=
  match cols with
  | [] => ret lines
  | col :: rest =>
      do s <- getitem_of df col;
      match summarize col s with
      | None => raise
      | Some r => summary_loop_on df rest (lines ++ [render_row r])
      end
  end.

(** [build_schema_report(df)] as a run on the store: [df.shape],
    [df.columns] and one [df[col]] for each label. *)
Definition build_schema_report_on (df : loc) : Py string :=
  do sh <- shape_of df;
  do cols <- columns_of df;
  do lines <- summary_loop_on df cols (header_lines sh);
  ret (join newline (lines ++ report_notes)).

(** ** Vocabulary of the specification *)

(** The label the specification names [not_applicable] is the text the
    program writes for it, the one its data model quotes for the zero
    fraction of a text column. *)
Definition not_applicable : string := "n/a".

(** Every value of the column is missing. *)
Definition all_missing (s : Series) : Prop := empty (dropna s) = true.

(** The column has at least one value that is not missing. *)
Definition has_values (s : Series) : Prop := empty (dropna s) = false.

Definition is_zero (x : float64) : bool :=
  match x with S754_zero _ => true | _ => false end.

(** Number of entries that are the number zero. *)
Definition zeros_in (s : Series) : nat :=
  match s with
  | Int64 xs => count_occ Z.eq_dec xs 0
  | Float64 xs => length (List.filter is_zero xs)
  | Object _ => 0%nat
  end.

(** The values that are not missing are all the same number, and there is
    at least one. *)
Definition constant_values (s : Series) : Prop :=
  match dropna s with
  | Int64 (x :: rest) => Forall (fun y => y = x) rest
  | Float64 (x :: rest) => Forall (fun y => f64_eqb y x = true) rest
  | _ => False
  end.

(** The values that are not missing are all zero (there may be none). *)
Definition all_zero (s : Series) : Prop :=
  match dropna s with
  | Int64 xs => Forall (fun y => y = 0) xs
  | Float64 xs => Forall (fun y => is_zero y = true) xs
  | Object _ => False
  end.

(** The range [max - min] of the values that are not missing, in float64;
    none for a text column. *)
Definition value_range (s : Series) : option float64 :=
  match float_ (series_max (dropna s)), float_ (series_min (dropna s)) with
  | Some mx, Some mn => Some (f64_sub mx mn)
  | _, _ => None
  end.

Definition range_within_half (s : Series) : bool :=
  match value_range s with
  | Some rng => f64_leb rng f64_0_5
  | None => false
  end.

(** The near-constant rule of the constant hint: numeric, at most five
    distinct values, and a range of at most 0.5. *)
Definition near_constant_rule (s : Series) : bool :=
  is_numeric_dtype s && (nunique s <=? 5)%nat && range_within_half s.

(** The low-cardinality rule: at most three distinct values. *)
Definition low_cardinality_rule (s : Series) : bool := (nunique s <=? 3)%nat.

(** A rule of the role chain: a test on the column and the label it gives. *)
Record rule := mkRule {
  applies : string -> Series -> bool;
  label : string
}.

(** The first rule that applies decides; [default] when none does. *)
Definition first_match (rules : list rule) (default : string)
    (col : string) (s : Series) : string :=
  match List.find (fun r => applies r col s) rules with
  | Some r => label r
  | None => default
  end.

Definition near_constant_test (s : Series) : bool :=
  match few_and_close (dropna s) with
  | Some b => b
  | None => false
  end.

Definition mostly_zeros_test (s : Series) : bool :=
  negb (String.eqb (_zero_fraction s) "n/a") && f64_ltb f64_0_95 (mean (eq0 s)).

Definition counter_test (s : Series) : bool :=
  String.eqb (_monotonic_hint s) "monotonic_increasing".

(** The role chain, in priority order. *)
Definition role_rules : list rule :=
  [ mkRule (fun col s => String.eqb col "col_9" && (nunique s =? 1)%nat)
           "label/type (constant category)";
    mkRule (fun _ s => is_numeric_dtype s && (nunique s =? 1)%nat)
           "constant sensor/setting (e.g., fixed parameter)";
    mkRule (fun _ s => is_numeric_dtype s && near_constant_test s)
           "near-constant reading (low variation)";
    mkRule (fun _ s => is_numeric_dtype s && mostly_zeros_test s)
           "flag/status/unused channel (mostly zeros)";
    mkRule (fun _ s => is_numeric_dtype s && counter_test s)
           "counter or time-like variable (monotonic)" ].

(** A float that is a number of finite size. *)
Definition is_finite (x : float64) : bool :=
  match x with
  | S754_zero _ | S754_finite _ _ _ => true
  | _ => false
  end.

Definition is_digit (c : ascii) : bool :=
  let n := Ascii.N_of_ascii c in ((48 <=? n) && (n <=? 57))%N.

(** The text starts, or ends, with a white-space character. *)
Definition starts_with_space (s : string) : bool :=
  match s with
  | String c _ => is_space c
  | "" => false
  end.

Fixpoint ends_with_space (s : string) : bool :=
  match s with
  | "" => false
  | String c "" => is_space c
  | String _ s' => ends_with_space s'
  end.

Definition stripped (s : string) : Prop :=
  starts_with_space s = false /\ ends_with_space s = false.

(** What pandas reads in a text that is a number: its value as a float,
    and its value as an integer when the text is an integer. *)
Record reading := mkReading {
  as_float : float64;
  as_int : option Z
}.

(** The reading of one entry of a text column; a missing entry is no
    number. *)
Definition read_entry (read_number : string -> option reading)
    (o : option string) : option reading :=
  match o with
  | Some t => read_number t
  | None => None
  end.

(** [s'] is [s] made numeric, for the reader [read_number] of single texts:
    [s'] is a numeric column with one entry per entry of [s]; a numeric
    column is kept as it is; in a text column an entry that is no number
    has become NaN, the missing marker, and an entry that is a number has
    become this number, the integer in an integer column and the float in a
    float column. *)
Definition coerced (read_number : string -> option reading) (s s' : Series) : Prop :=
  is_numeric_dtype s' = true
  /\ size s' = size s
  /\ match s with
     | Object xs =>
         forall (i : nat) (o : option string),
           xs !! i = Some o ->
           match read_entry read_number o with
           | None => exists ys, s' = Float64 ys /\ ys !! i = Some nan
           | Some rd =>
               (exists ns n, s' = Int64 ns /\ ns !! i = Some n /\ as_int rd = Some n)
               \/ (exists ys, s' = Float64 ys /\ ys !! i = Some (as_float rd))
           end
     | _ => s' = s
     end.

(** The contract of [pd.to_numeric(s, errors="coerce")]. *)
Definition to_numeric_contract (read_number : string -> option reading)
    (to_numeric : Series -> Series) : Prop :=
  forall s : Series, coerced read_number s (to_numeric s).

Fixpoint all_ints (vs : list (option Z)) : option (list Z) :=
  match vs with
  | [] => Some []
  | v :: rest =>
      match v, all_ints rest with
      | Some n, Some ns => Some (n :: ns)
      | _, _ => None
      end
  end.

Definition int_reading (read_number : string -> option reading)
    (o : option string) : option Z :=
  match read_entry read_number o with
  | Some rd => as_int rd
  | None => None
  end.

Definition float_reading (read_number : string -> option reading)
    (o : option string) : float64 :=
  match read_entry read_number o with
  | Some rd => as_float rd
  | None => nan
  end.

(** A function with this contract, for the examples: a text column
    becomes int64 when every entry reads as an integer, and float64
    otherwise. *)
Definition to_numeric_by (read_number : string -> option reading) (s : Series) : Series :=
  match s with
  | Object xs =>
      match all_ints (map (int_reading read_number) xs) with
      | Some ns => Int64 ns
      | None => Float64 (map (float_reading read_number) xs)
      end
  | _ => s
  end.

(** The two treatments of a missing entry by [astype(str)]: the text [nan]
    (pandas 2, for the marker NaN), or the entry left missing (pandas 3). *)
Definition nan_text : nat -> option string := fun _ => Some "nan".
Definition stays_missing : nat -> option string := fun _ => None.

(** The value of row [i] of a column; none when the entry is missing, or
    when the column has no row [i]. *)
Definition value_at (s : Series) (i : nat) : option scalar :=
  match s with
  | Int64 xs => option_map IntVal (xs !! i)
  | Float64 xs =>
      match xs !! i with
      | Some x => if is_nan x then None else Some (FloatVal x)
      | None => None
      end
  | Object xs =>
      match xs !! i with
      | Some (Some t) => Some (StrVal t)
      | _ => None
      end
  end.

Definition only_spaces (s : string) : Prop :=
  Forall (fun c => is_space c = true) (list_ascii_of_string s).

(** [y] is the text [t] without the white space at its two ends. *)
Definition stripped_of (t y : string) : Prop :=
  stripped y
  /\ exists l r : string, t = l +:+ y +:+ r /\ only_spaces l /\ only_spaces r.

(** [s'] is the column [s] as stripped text: a text column with one entry
    per entry of [s]; an entry with a value has become the text of this
    value, stripped; a missing entry has become the stripped text that
    [astype(str)] writes for it, and is still missing when none is
    written. *)
Definition stripped_entries (str_missing : nat -> option string) (s s' : Series) : Prop :=
  exists ys : list (option string),
    s' = Object ys
    /\ length ys = size s
    /\ forall i : nat, (i < size s)%nat ->
         match value_at s i with
         | Some v => exists y, ys !! i = Some (Some y) /\ stripped_of (str_scalar v) y
         | None =>
             match str_missing i with
             | Some t => exists y, ys !! i = Some (Some y) /\ stripped_of t y
             | None => ys !! i = Some None
             end
         end.

(** What the cleaning leaves in the column labelled [c]. *)
Definition clean_column (to_numeric : Series -> Series)
    (str_missing : nat -> option string) (c : string) (s : Series) : Series :=
  if String.eqb c "col_9" then
    match str_strip (astype_str str_missing s) with
    | Some v => v
    | None => s
    end
  else to_numeric s.

(** One column after the cleaning, under its label. *)
Definition clean_entry (to_numeric : Series -> Series)
    (str_missing : nat -> option string) (cs : string * Series) : string * Series :=
  (fst cs, clean_column to_numeric str_missing (fst cs) (snd cs)).

(** The table the cleaning returns for the table [d]. *)
Definition clean_frame (to_numeric : Series -> Series)
    (str_missing : nat -> option string) (d : DataFrame) : DataFrame :=
  mkFrame (index_len d) (map (clean_entry to_numeric str_missing) (frame_columns d)).

(** [s'] is a text column without missing entry whose texts neither start
    nor end with white space. *)
Definition stripped_text (s' : Series) : Prop :=
  exists ts : list string, s' = Object (map Some ts) /\ Forall stripped ts.

(** A table for the examples. *)
Definition sample_frame : DataFrame :=
  mkFrame 3
    [ ("col_0", Int64 [1; 2; 3]);
      ("col_1", Float64 [f64_of_frac 1 2; nan; f64_of_frac 1 2]);
      ("col_9", Object [Some "COSMIC"; Some "COSMIC"; Some "COSMIC"]) ].

(** A raw table, as the loader returns it, and a reader of numbers for it. *)
Definition raw_frame : DataFrame :=
  mkFrame 2
    [ ("col_0", Object [Some "7"; Some "x"]);
      ("col_9", Object [Some " COSMIC "; None]) ].

Definition sample_read (t : string) : option reading :=
  if String.eqb t "7" then Some (mkReading (f64_of_int 7) (Some 7)) else None.

(** A table in which one label names two columns. *)
Definition repeated_frame : DataFrame :=
  mkFrame 1 [("col_0", Int64 [1]); ("col_0", Int64 [2])].

(** ** Loading (Project_MuonEDA) *)

(** The exceptions that leave the loader: the two it raises itself, and
    an exception of [pd.read_csv], which it lets through. *)
Inductive exception :=
  | FileNotFoundError
  | ValueError
  | ReadCsvError.

(** What [pd.read_csv(raw_path, sep=r"\s+", header=None, ...)] returns:
    the length of the index and the columns, known by position. *)
Record RawTable := mkRaw {
  raw_index_len : nat;
  raw_columns : list Series
}.

(** [s.notna()] *)
Definition notna (s : Series) : list bool :=
  match s with
  | Int64 xs => map (fun _ => true) xs
  | Float64 xs => map (fun x => negb (is_nan x)) xs
  | Object xs => map (fun o => bool_decide (is_Some o)) xs
  end.

(** The rows that hold a value in one column at least. *)
Definition rows_with_value (t : RawTable) : list bool :=
  fold_left (fun mask s => zip_with orb mask (notna s)) (raw_columns t)
            (replicate (raw_index_len t) false).

(** The entries of [xs] on the rows that [mask] keeps. *)
Fixpoint select_rows {A : Type} (mask : list bool) (xs : list A) : list A :=
  match mask, xs with
  | b :: mask', x :: xs' =>
      if b then x :: select_rows mask' xs' else select_rows mask' xs'
  | _, _ => []
  end.

Definition select_series (mask : list bool) (s : Series) : Series :=
  match s with
  | Int64 xs => Int64 (select_rows mask xs)
  | Float64 xs => Float64 (select_rows mask xs)
  | Object xs => Object (select_rows mask xs)
  end.

(** [df.dropna(how="all")] *)
Definition dropna_all (t : RawTable) : RawTable :=
  let mask := rows_with_value t in
  mkRaw (count_true mask) (map (select_series mask) (raw_columns t)).

(** [[f"col_{i}" for i in range(10)]] *)
Definition neutral_names : list string :=
  map (fun i => "col_" +:+ str_nat i) (seq 0 10).

(** What is found at [raw_path]: nothing; something on which [pd.read_csv]
    raises an exception of its own (EmptyDataError for a file without a
    single field, an error of the operating system for a directory); or a
    file that is read as a table. *)
Inductive RawFile :=
  | Absent
  | Unreadable
  | Readable (t : RawTable).

Definition load_munra_raw (file : RawFile) : exception + DataFrame :=
  match file with
  | Absent => inl FileNotFoundError
  | Unreadable => inl ReadCsvError
  | Readable t =>
      let df := dropna_all t in
      if negb (length (raw_columns df) =? 10)%nat then inl ValueError
      else inr (mkFrame (raw_index_len df) (combine neutral_names (raw_columns df)))
  end.

(** ** Cleaning (Project_AirQuality) *)

(** A column of the air-quality table: one of the columns pandas reads from
    the CSV file, or a column of timestamps (nanoseconds; [None] is NaT). *)
Inductive Column :=
  | Plain (s : Series)
  | Datetime64 (xs : list (option Z)).

Record AirFrame := mkAir {
  air_index_len : nat;
  air_columns : list (string * Column)
}.

(** [df.copy()] of the table read from the CSV file. *)
Definition air_of_frame (df : DataFrame) : AirFrame :=
  mkAir (index_len df) (map (fun cs => (fst cs, Plain (snd cs))) (frame_columns df)).

Definition air_labels (df : AirFrame) : list string := map fst (air_columns df).

(** [df[col]], a single column. *)
Definition air_getitem (df : AirFrame) (col : string) : option Column :=
  match List.filter (fun cs => String.eqb (fst cs) col) (air_columns df) with
  | [cs] => Some (snd cs)
  | _ => None
  end.

(** [df[col] = v] for a label that [df] has. *)
Definition air_setitem (df : AirFrame) (col : string) (v : Column) : AirFrame :=
  mkAir (air_index_len df)
        (map (fun cs => if String.eqb (fst cs) col then (col, v) else cs)
             (air_columns df)).

(** [c.isna()] *)
Definition isna (c : Column) : list bool :=
  match c with
  | Plain s => map negb (notna s)
  | Datetime64 xs => map (fun o => negb (bool_decide (is_Some o))) xs
  end.

Definition column_size (c : Column) : nat :=
  match c with
  | Plain s => size s
  | Datetime64 xs => length xs
  end.

(** The literal [0.60]. *)
Definition f64_0_6 : float64 := f64_of_frac 6 10.

(** One entry of [df.isna().mean()]. *)
Definition missing_ratio (c : Column) : float64 := mean (isna c).

(** [missing_ratio[missing_ratio > 0.60].index.tolist()] *)
Definition cols_to_drop (df : AirFrame) : list string :=
  map fst (List.filter (fun cs => f64_ltb f64_0_6 (missing_ratio (snd cs)))
                       (air_columns df)).

(** [df.drop(columns=labels)]: every column under one of the labels goes. *)
Definition air_drop (df : AirFrame) (labels : list string) : AirFrame :=
  mkAir (air_index_len df)
        (List.filter (fun cs => negb (existsb (String.eqb (fst cs)) labels))
                     (air_columns df)).

Section AirQuality.

(** [pd.to_datetime(s, errors="coerce")] on a column read from the file:
    the timestamps, NaT where the entry is no date. The grammar of dates is
    left open. *)
Variable to_datetime : Series -> list (option Z).

(** [str] of a timestamp. *)
Variable str_timestamp : option Z -> string.

(** What [astype(str)] writes for the missing entries of the column under
    a label; see [astype_str]. *)
Variable str_missing : string -> nat -> option string.

(** [c.astype(str)] *)
Definition column_astype_str (na : nat -> option string) (c : Column) : Series :=
  match c with
  | Plain s => astype_str na s
  | Datetime64 xs =>
      Object (imap (fun i o => match o with
                               | Some _ => Some (str_timestamp o)
                               | None => na i
                               end) xs)
  end.

(** [pd.to_datetime(c, errors="coerce")] *)
Definition column_to_datetime (c : Column) : Column :=
  match c with
  | Plain s => Datetime64 (to_datetime s)
  | Datetime64 xs => Datetime64 xs
  end.

(** [df[col] = df[col].astype(str).str.strip()] *)
Definition strip_text_column (df : AirFrame) (col : string) : option AirFrame :=
  match air_getitem df col with
  | None => None
  | Some c =>
      match str_strip (column_astype_str (str_missing col) c) with
      | None => None
      | Some v => Some (air_setitem df col (Plain v))
      end
  end.

(** [basic_clean]; [None] is a raised exception. *)
Definition basic_clean (df : DataFrame) : option AirFrame :=
  let df := air_of_frame df in
  match air_getitem df "Date" with
  | None => None
  | Some date =>
      let df := air_setitem df "Date" (column_to_datetime date) in
      match strip_text_column df "City" with
      | None => None
      | Some df =>
          match strip_text_column df "AQI_Bucket" with
          | None => None
          | Some df =>
              let labels := cols_to_drop df in
              match labels with
              | [] => Some df
              | _ :: _ => Some (air_drop df labels)
              end
          end
      end
  end.

End AirQuality.

(** ** Vocabulary of the added properties *)

(** The column read from the last row to the first. *)
Definition reverse (s : Series) : Series :=
  match s with
  | Int64 xs => Int64 (rev xs)
  | Float64 xs => Float64 (rev xs)
  | Object xs => Object (rev xs)
  end.

(** Every column of the raw table has one entry per row. *)
Definition raw_well_formed (t : RawTable) : Prop :=
  Forall (fun s => size s = raw_index_len t) (raw_columns t).

(** Row [i] holds a value in one column at least. *)
Definition row_has_value (t : RawTable) (i : nat) : bool :=
  existsb (fun s => bool_decide (is_Some (value_at s i))) (raw_columns t).

(** The rows of the file that hold a value, in their order. *)
Definition rows_kept (t : RawTable) : list nat :=
  List.filter (row_has_value t) (seq 0 (raw_index_len t)).

(** The hint of the column read backwards. *)
Definition mirror_hint (hint : string) : string :=
  if String.eqb hint "monotonic_increasing" then "monotonic_decreasing"
  else if String.eqb hint "monotonic_decreasing" then "monotonic_increasing"
  else hint.

(** A file of two rows and ten columns, and the table loaded from it. *)
Definition sample_raw_table : RawTable :=
  mkRaw 2 (replicate 9 (Object [Some "7"; Some "x"])
           ++ [Object [Some " COSMIC "; Some "COSMIC"]]).

Definition sample_loaded : DataFrame :=
  mkFrame 2 (combine neutral_names (raw_columns sample_raw_table)).

(** What [basic_clean] leaves in the column [s] labelled [c], before the
    columns with too many missing entries are dropped. *)
Definition air_clean_column (to_datetime : Series -> list (option Z))
    (str_missing : string -> nat -> option string)
    (c : string) (s : Series) : Column :=
  if String.eqb c "Date" then Datetime64 (to_datetime s)
  else if String.eqb c "City" || String.eqb c "AQI_Bucket" then
    Plain (default s (str_strip (astype_str (str_missing c) s)))
  else Plain s.

(** The column is not dropped: its ratio of missing entries is not above
    0.60. *)
Definition kept_column (c : Column) : bool :=
  negb (f64_ltb f64_0_6 (missing_ratio c)).

(** The number of missing entries of a column. *)
Definition missing_count (c : Column) : nat := count_true (isna c).

(** An air-quality table for the examples, with readers of dates. *)
Definition sample_air_frame : DataFrame :=
  mkFrame 3
    [ ("City", Object [Some " Delhi"; Some "Delhi "; None]);
      ("Date", Object [Some "2020-01-01"; Some "?"; Some "2020-01-03"]);
      ("PM2.5", Float64 [nan; nan; f64_of_int 81]);
      ("NO", Float64 [f64_of_int 7; nan; f64_of_int 9]);
      ("AQI_Bucket", Object [Some "Poor"; None; None]) ].

Definition sample_to_datetime (s : Series) : list (option Z) :=
  match s with
  | Object xs =>
      map (fun o => if option_eqb o (Some "?") then None
                    else option_map (fun t => Z.of_nat (String.length t)) o) xs
  | _ => replicate (size s) None
  end.

Definition sample_str_timestamp (o : option Z) : string :=
  match o with
  | Some n => str_int n
  | None => "NaT"
  end.

(** A table with a column that has every entry and one that has none. *)
Definition sample_gas_frame : DataFrame :=
  mkFrame 2
    [ ("Date", Object [Some "a"; Some "b"]);
      ("City", Object [Some "x"; Some "y"]);
      ("AQI_Bucket", Object [None; None]);
      ("CO", Float64 [f64_of_int 1; f64_of_int 2]);
      ("Xylene", Float64 [nan; nan]) ].

(** * Properties *)

(** ** Columns without missing entries *)

Lemma filter_idem {A : Type} (f : A -> bool) (l : list A) :
  List.filter f (List.filter f l) = List.filter f l.
Proof.
  induction l as [|a l IH]; simpl; [reflexivity|].
  destruct (f a) eqn:E; simpl; [rewrite E, IH|]; auto.
Qed.

Lemma dropna_idem (s : Series) : dropna (dropna s) = dropna s.
Proof. destruct s; simpl; try rewrite filter_idem; reflexivity. Qed.

Lemma nunique_dropna (s : Series) : nunique (dropna s) = nunique s.
Proof. unfold nunique. rewrite dropna_idem. reflexivity. Qed.

Lemma is_numeric_dropna (s : Series) :
  is_numeric_dtype (dropna s) = is_numeric_dtype s.
Proof. destruct s; reflexivity. Qed.

Lemma size_dropna (s : Series) : (size (dropna s) <= size s)%nat.
Proof.
  destruct s as [xs|xs|xs]; simpl; [lia| |]; apply List.filter_length_le.
Qed.

Lemma empty_dropna_cases (s : Series) :
  all_missing s ->
  dropna s = Int64 [] \/ dropna s = Float64 [] \/ dropna s = Object [].
Proof.
  unfold all_missing, empty.
  destruct (dropna s) as [[|x xs]|[|x xs]|[|x xs]]; simpl; intros H;
    try discriminate; auto.
Qed.

Lemma all_missing_nunique (s : Series) : all_missing s -> nunique s = 0%nat.
Proof.
  intros H. unfold nunique.
  destruct (empty_dropna_cases s H) as [E|[E|E]]; rewrite E; reflexivity.
Qed.

(** ** The numeric branch raises no exception *)

Lemma float_min_numeric (s : Series) :
  is_numeric_dtype s = true -> exists x, float_ (series_min s) = Some x.
Proof.
  destruct s as [xs|xs|xs]; simpl; try discriminate; intros _.
  - unfold series_min; simpl. destruct xs; simpl; eauto.
  - unfold series_min; simpl. destruct (List.filter _ xs); simpl; eauto.
Qed.

Lemma float_max_numeric (s : Series) :
  is_numeric_dtype s = true -> exists x, float_ (series_max s) = Some x.
Proof.
  destruct s as [xs|xs|xs]; simpl; try discriminate; intros _.
  - unfold series_max; simpl. destruct xs; simpl; eauto.
  - unfold series_max; simpl. destruct (List.filter _ xs); simpl; eauto.
Qed.

Lemma few_and_close_numeric (s : Series) :
  is_numeric_dtype s = true -> exists b, few_and_close s = Some b.
Proof.
  intros H. unfold few_and_close.
  destruct (nunique s <=? 5)%nat; [|eauto].
  destruct (float_max_numeric s H) as [mx ->].
  destruct (float_min_numeric s H) as [mn ->]. eauto.
Qed.

(** ** Comparison of floats *)

Lemma SFcompare_refl (a : float64) : is_nan a = false -> SFcompare a a = Some Eq.
Proof.
  destruct a as [s|s| |s m e]; simpl; intros H; try discriminate.
  - reflexivity.
  - destruct s; reflexivity.
  - rewrite Z.compare_refl.
    replace (Pos.compare_cont Eq m m) with Eq
      by (symmetry; apply Pos.compare_refl).
    destruct s; reflexivity.
Qed.

Lemma SFcompare_finite_Eq (s s' : bool) (m m' : positive) (e e' : Z) :
  SFcompare (S754_finite s m e) (S754_finite s' m' e') = Some Eq ->
  s = s' /\ m = m' /\ e = e'.
Proof.
  simpl. intros H.
  assert (He : (e ?= e') = Eq /\ Pos.compare_cont Eq m m' = Eq /\ s = s').
  { destruct s, s'; try discriminate;
      destruct (e ?= e'); try discriminate;
      destruct (Pos.compare_cont Eq m m'); try discriminate; auto. }
  destruct He as (He & Hm & ->).
  apply Z.compare_eq in He. apply Pos.compare_eq in Hm. auto.
Qed.

Lemma SFcompare_Eq_inv (a b : float64) :
  SFcompare a b = Some Eq -> (is_zero a = true /\ is_zero b = true) \/ a = b.
Proof.
  destruct a as [s|s| |s m e], b as [s'|s'| |s' m' e'];
    try (intros H; apply SFcompare_finite_Eq in H;
         destruct H as (-> & -> & ->); right; reflexivity);
    simpl; intros H;
    repeat match goal with b : bool |- _ => destruct b end;
    try discriminate H; auto.
Qed.

Lemma SFcompare_zeros (a b : float64) :
  is_zero a = true -> is_zero b = true -> SFcompare a b = Some Eq.
Proof. destruct a, b; simpl; try discriminate; reflexivity. Qed.

Lemma SFcompare_not_nan (a b : float64) (c : comparison) :
  SFcompare a b = Some c -> is_nan a = false /\ is_nan b = false.
Proof. destruct a, b; simpl; try discriminate; auto. Qed.

(** Two floats equal to a third one are equal. *)
Lemma f64_eqb_common (a b x : float64) :
  f64_eqb a x = true -> f64_eqb b x = true -> SFcompare a b = Some Eq.
Proof.
  unfold f64_eqb, SFeqb. intros Ha Hb.
  destruct (SFcompare a x) as [[]|] eqn:Ea; try discriminate.
  destruct (SFcompare b x) as [[]|] eqn:Eb; try discriminate.
  destruct (SFcompare_not_nan _ _ _ Ea) as [Na _].
  destruct (SFcompare_Eq_inv _ _ Ea) as [[Za Zx]| ->];
    destruct (SFcompare_Eq_inv _ _ Eb) as [[Zb Zx']| ->].
  - apply SFcompare_zeros; assumption.
  - apply SFcompare_zeros; assumption.
  - apply SFcompare_zeros; assumption.
  - apply SFcompare_refl. destruct (SFcompare_not_nan _ _ _ Eb); assumption.
Qed.

Lemma f64_eqb_zero (x : float64) : f64_eqb x (S754_zero false) = is_zero x.
Proof. destruct x as [s|s| |s m e]; try reflexivity; destruct s; reflexivity. Qed.

Lemma ascending_related {A : Type} (leb : A -> A -> bool) (P : A -> Prop)
    (x : A) (rest : list A) :
  (forall a b, P a -> P b -> leb a b = true) ->
  P x -> Forall P rest -> ascending leb (x :: rest) = true.
Proof.
  intros Hleb. revert x.
  induction rest as [|y rest IH]; intros x Hx Hrest; [reflexivity|].
  inversion Hrest; subst.
  change (leb x y && ascending leb (y :: rest) = true).
  rewrite Hleb by assumption. rewrite IH by assumption. reflexivity.
Qed.

Lemma no_nan_filter (xs : list float64) :
  no_nan (List.filter (fun x => negb (is_nan x)) xs) = true.
Proof.
  unfold no_nan. apply forallb_forall. intros x Hx.
  apply filter_In in Hx. tauto.
Qed.

Lemma dropna_float_head (xs : list float64) (x : float64) (rest : list float64) :
  List.filter (fun x => negb (is_nan x)) xs = x :: rest -> is_nan x = false.
Proof.
  intros H.
  assert (Hin : In x (List.filter (fun x => negb (is_nan x)) xs))
    by (rewrite H; left; reflexivity).
  apply filter_In in Hin. destruct Hin as [_ Hn].
  destruct (is_nan x); [discriminate|reflexivity].
Qed.

(** A constant numeric column is both non-decreasing and non-increasing. *)
Lemma constant_both_ways (s : Series) :
  is_numeric_dtype s = true -> constant_values s ->
  empty (dropna s) = false
  /\ is_monotonic_increasing (dropna s) = true
  /\ is_monotonic_decreasing (dropna s) = true.
Proof.
  unfold constant_values. intros Hnum Hc.
  destruct s as [xs|xs|xs]; try discriminate; simpl in *.
  - destruct xs as [|x rest]; [contradiction|].
    split; [reflexivity|]. split.
    + apply (ascending_related Z.leb (fun y => y = x)); auto.
      intros a b -> ->. apply Z.leb_refl.
    + apply (ascending_related (fun a b => Z.leb b a) (fun y => y = x)); auto.
      intros a b -> ->. apply Z.leb_refl.
  - pose proof (no_nan_filter xs) as Hnn.
    destruct (List.filter _ xs) as [|x rest] eqn:E; [contradiction|].
    pose proof (dropna_float_head xs x rest E) as Hx.
    assert (Hxx : f64_eqb x x = true)
      by (unfold f64_eqb, SFeqb; rewrite SFcompare_refl; auto).
    split; [reflexivity|]. rewrite Hnn. simpl. split.
    + apply (ascending_related f64_leb (fun y => f64_eqb y x = true)); auto.
      intros a b Ha Hb. unfold f64_leb, SFleb.
      rewrite (f64_eqb_common a b x Ha Hb). reflexivity.
    + apply (ascending_related (fun a b => f64_leb b a)
                               (fun y => f64_eqb y x = true)); auto.
      intros a b Ha Hb. unfold f64_leb, SFleb.
      rewrite (f64_eqb_common b a x Hb Ha). reflexivity.
Qed.

(** ** Integers as floats *)

Lemma digits2_pos_iter (p k : positive) :
  digits2_pos (Pos.iter xO p k) = (digits2_pos p + k)%positive.
Proof.
  induction k as [|k IH] using Pos.peano_ind.
  - simpl. lia.
  - rewrite Pos.iter_succ. simpl. rewrite IH. lia.
Qed.

Lemma digits2_pos_lower (p : positive) : 2 ^ (Z.pos (digits2_pos p) - 1) <= Z.pos p.
Proof.
  induction p as [p IH|p IH|]; simpl digits2_pos.
  - rewrite Pos2Z.inj_succ.
    replace (Z.succ (Z.pos (digits2_pos p)) - 1) with (Z.succ (Z.pos (digits2_pos p) - 1)) by lia.
    rewrite Z.pow_succ_r by lia. lia.
  - rewrite Pos2Z.inj_succ.
    replace (Z.succ (Z.pos (digits2_pos p)) - 1) with (Z.succ (Z.pos (digits2_pos p) - 1)) by lia.
    rewrite Z.pow_succ_r by lia. lia.
  - simpl. lia.
Qed.

Lemma digits2_pos_small (p : positive) :
  Z.pos p < 2 ^ 53 -> Z.pos (digits2_pos p) <= 53.
Proof.
  intros H. pose proof (digits2_pos_lower p) as L.
  destruct (Z_le_gt_dec (Z.pos (digits2_pos p)) 53) as [|G]; [assumption|].
  exfalso.
  assert (2 ^ 53 <= 2 ^ (Z.pos (digits2_pos p) - 1))
    by (apply Z.pow_le_mono_r; lia).
  lia.
Qed.

(** A mantissa of 53 bits with an exponent in range is left as it is. *)
Lemma binary_round_aux_canonical (s : bool) (m : positive) (e : Z) :
  Z.pos (digits2_pos m) = 53 -> -1074 <= e <= 971 ->
  binary_round_aux prec emax s (Z.pos m) e loc_Exact = S754_finite s m e.
Proof.
  intros Hd He.
  assert (Hshift : fexp prec emax (Zdigits2 (Z.pos m) + e) - e = 0).
  { unfold fexp, emin, prec, emax. simpl Zdigits2. rewrite Hd. lia. }
  unfold binary_round_aux, shr_fexp.
  rewrite Hshift.
  lazy beta iota zeta delta
    [shr shr_record_of_loc shr_m loc_of_shr_record round_nearest_even].
  rewrite Hshift.
  lazy beta iota zeta delta [shr_m].
  replace (e <=? emax - prec) with true; [reflexivity|].
  symmetry. apply Z.leb_le. unfold emax, prec. lia.
Qed.

(** An integer below 2^53 is a finite float, with a mantissa of 53 bits. *)
Lemma f64_of_int_canonical (n : Z) :
  0 < n < 2 ^ 53 ->
  exists m e, f64_of_int n = S754_finite false m e
    /\ Z.pos (digits2_pos m) = 53 /\ -52 <= e <= 0.
Proof.
  intros [Hpos Hlt]. destruct n as [|p|p]; try lia.
  unfold f64_of_int, binary_normalize, binary_round.
  pose proof (digits2_pos_small p Hlt) as Hd.
  assert (Hf : fexp prec emax (Z.pos (digits2_pos p) + 0) = Z.pos (digits2_pos p) - 53).
  { unfold fexp, emin, prec, emax. lia. }
  rewrite Hf. unfold shl_align.
  destruct (Z.pos (digits2_pos p) - 53 - 0) as [|k|k] eqn:Ek.
  - exists p, 0. rewrite binary_round_aux_canonical by lia.
    split; [reflexivity|]. lia.
  - lia.
  - exists (Pos.iter xO p k), (Z.pos (digits2_pos p) - 53).
    assert (Hk : Z.pos (digits2_pos (Pos.iter xO p k)) = 53)
      by (rewrite digits2_pos_iter; lia).
    rewrite binary_round_aux_canonical by lia.
    split; [reflexivity|]. lia.
Qed.

Lemma f64_of_int_finite (n : Z) :
  0 < n < 2 ^ 53 -> exists m e, f64_of_int n = S754_finite false m e.
Proof.
  intros H. destruct (f64_of_int_canonical n H) as (m & e & E & _). eauto.
Qed.

(** A finite float divided by itself is 1. *)
Lemma f64_div_self (s : bool) (m : positive) (e : Z) :
  f64_div (S754_finite s m e) (S754_finite s m e)
  = S754_finite false 4503599627370496 (-52).
Proof.
  unfold f64_div, SFdiv, SFdiv_core_binary.
  replace (Zdigits2 (Z.pos m) + e - (Zdigits2 (Z.pos m) + e)) with 0 by lia.
  replace (e - e) with 0 by lia.
  change (Z.min (fexp prec emax 0) 0) with (-53).
  change (0 - -53) with 53. lazy iota.
  assert (Hdiv : Z.div_eucl (Z.shiftl (Z.pos m) 53) (Z.pos m) = (2 ^ 53, 0)).
  { rewrite Z.shiftl_mul_pow2 by lia.
    pose proof (Z.div_mul (2 ^ 53) (Z.pos m) ltac:(lia)) as Hq.
    pose proof (Z.mod_mul (2 ^ 53) (Z.pos m) ltac:(lia)) as Hr.
    rewrite (Z.mul_comm (Z.pos m)).
    unfold Z.div, Z.modulo in Hq, Hr.
    destruct (Z.div_eucl (2 ^ 53 * Z.pos m) (Z.pos m)) as [q r].
    simpl in Hq, Hr. congruence. }
  rewrite Hdiv.
  assert (Hloc : new_location (Z.pos m) 0 = loc_Exact).
  { unfold new_location. destruct (Z.even (Z.pos m)); reflexivity. }
  rewrite Hloc. destruct s; vm_compute; reflexivity.
Qed.

(** ** Rounding stays within the finite range *)

Lemma digits2_pos_upper (p : positive) : Z.pos p < 2 ^ Z.pos (digits2_pos p).
Proof.
  induction p as [p IH|p IH|]; simpl digits2_pos.
  - rewrite Pos2Z.inj_succ, Z.pow_succ_r by lia. lia.
  - rewrite Pos2Z.inj_succ, Z.pow_succ_r by lia. lia.
  - simpl. lia.
Qed.

Lemma Zdigits2_nonneg (m : Z) : 0 <= Zdigits2 m.
Proof. destruct m; simpl; lia. Qed.

Lemma Zdigits2_upper (m : Z) : 0 <= m -> m < 2 ^ Zdigits2 m.
Proof.
  destruct m as [|p|p]; simpl; intros H; try lia. apply digits2_pos_upper.
Qed.

Lemma Zdigits2_le (m k : Z) : 0 <= m -> 0 <= k -> m < 2 ^ k -> Zdigits2 m <= k.
Proof.
  intros Hm Hk Hlt. destruct m as [|p|p]; simpl; try lia.
  pose proof (digits2_pos_lower p) as L.
  destruct (Z_le_gt_dec (Z.pos (digits2_pos p)) k) as [|G]; [assumption|].
  exfalso.
  assert (2 ^ k <= 2 ^ (Z.pos (digits2_pos p) - 1)) by (apply Z.pow_le_mono_r; lia).
  lia.
Qed.

Lemma Zdigits2_mono (a b : Z) : 0 <= a <= b -> Zdigits2 a <= Zdigits2 b.
Proof.
  intros H. apply Zdigits2_le; [lia|apply Zdigits2_nonneg|].
  pose proof (Zdigits2_upper b ltac:(lia)). lia.
Qed.

Lemma Zdigits2_succ (m : Z) : 0 <= m -> Zdigits2 (m + 1) <= Zdigits2 m + 1.
Proof.
  intros H. pose proof (Zdigits2_nonneg m) as Hd.
  pose proof (Zdigits2_upper m H) as Hu.
  apply Zdigits2_le; [lia|lia|].
  rewrite Z.pow_add_r by lia. simpl (2 ^ 1). lia.
Qed.

Lemma Zdigits2_mul (a b : Z) :
  0 <= a -> 0 <= b -> Zdigits2 (a * b) <= Zdigits2 a + Zdigits2 b.
Proof.
  intros Ha Hb.
  pose proof (Zdigits2_nonneg a). pose proof (Zdigits2_nonneg b).
  pose proof (Zdigits2_upper a Ha). pose proof (Zdigits2_upper b Hb).
  apply Zdigits2_le; [nia|lia|].
  rewrite Z.pow_add_r by lia. nia.
Qed.

Lemma shr_1_halves (mrs : shr_record) :
  0 <= shr_m mrs -> 0 <= shr_m (shr_1 mrs) /\ 2 * shr_m (shr_1 mrs) <= shr_m mrs.
Proof.
  destruct mrs as [m r s]. simpl.
  destruct m as [|[p|p|]|p]; simpl; lia.
Qed.

Lemma iter_shr_1_halves (p : positive) :
  forall mrs : shr_record,
    0 <= shr_m mrs ->
    0 <= shr_m (SpecFloat.iter_pos shr_1 p mrs)
    /\ 2 ^ Z.pos p * shr_m (SpecFloat.iter_pos shr_1 p mrs) <= shr_m mrs.
Proof.
  induction p as [p IH|p IH|]; intros mrs H; simpl SpecFloat.iter_pos.
  - destruct (shr_1_halves mrs H) as [H1 L1].
    destruct (IH _ H1) as [H2 L2]. destruct (IH _ H2) as [H3 L3].
    split; [exact H3|].
    replace (Z.pos p~1) with (1 + Z.pos p + Z.pos p) by lia.
    rewrite !Z.pow_add_r by lia. simpl (2 ^ 1).
    pose proof (Z.pow_pos_nonneg 2 (Z.pos p) ltac:(lia) ltac:(lia)). nia.
  - destruct (IH _ H) as [H2 L2]. destruct (IH _ H2) as [H3 L3].
    split; [exact H3|].
    replace (Z.pos p~0) with (Z.pos p + Z.pos p) by lia.
    rewrite !Z.pow_add_r by lia.
    pose proof (Z.pow_pos_nonneg 2 (Z.pos p) ltac:(lia) ltac:(lia)). nia.
  - destruct (shr_1_halves mrs H) as [H1 L1]. split; [exact H1|].
    simpl (2 ^ 1). lia.
Qed.

(** The shift to the exponent [fexp]: the exponent does not decrease, the
    mantissa does not grow, and no bit appears above the leading one. *)
Lemma shr_fexp_bounds (m e : Z) (l : location) :
  0 <= m ->
  exists (mrs : shr_record) (e' : Z),
    shr_fexp prec emax m e l = (mrs, e')
    /\ e' = Z.max e (fexp prec emax (Zdigits2 m + e))
    /\ 0 <= shr_m mrs <= m
    /\ Zdigits2 (shr_m mrs) + e' <= Z.max e' (Zdigits2 m + e).
Proof.
  intros Hm. unfold shr_fexp, shr.
  assert (Hrec : shr_m (shr_record_of_loc m l) = m)
    by (destruct l as [|[]]; reflexivity).
  destruct (fexp prec emax (Zdigits2 m + e) - e) as [|n|n] eqn:En.
  - eexists _, _. split; [reflexivity|]. rewrite Hrec. lia.
  - destruct (iter_shr_1_halves n (shr_record_of_loc m l)) as [H0 Hle];
      [rewrite Hrec; exact Hm|].
    rewrite Hrec in Hle.
    pose proof (Z.pow_pos_nonneg 2 (Z.pos n) ltac:(lia) ltac:(lia)) as Hpow.
    eexists _, _. split; [reflexivity|].
    split; [lia|]. split; [nia|].
    set (m' := shr_m (SpecFloat.iter_pos shr_1 n (shr_record_of_loc m l))) in *.
    pose proof (Zdigits2_nonneg m). pose proof (Zdigits2_upper m Hm) as Hu.
    destruct (Z_le_gt_dec (Zdigits2 m) (Z.pos n)) as [Hsmall|Hbig].
    + assert (m' = 0).
      { assert (2 ^ Zdigits2 m <= 2 ^ Z.pos n) by (apply Z.pow_le_mono_r; lia). nia. }
      replace m' with 0 by lia. simpl. lia.
    + assert (Zdigits2 m' <= Zdigits2 m - Z.pos n); [|lia].
      apply Zdigits2_le; [lia|lia|].
      assert (E : 2 ^ Zdigits2 m = 2 ^ Z.pos n * 2 ^ (Zdigits2 m - Z.pos n)).
      { rewrite <- Z.pow_add_r by lia. f_equal. lia. }
      nia.
  - eexists _, _. split; [reflexivity|]. rewrite Hrec. lia.
Qed.

Lemma round_nearest_even_bounds (m : Z) (l : location) :
  m <= round_nearest_even m l <= m + 1.
Proof. destruct l as [|[]]; simpl; try lia. destruct (Z.even m); lia. Qed.

(** Rounding a mantissa whose leading bit is low enough gives a zero or a
    finite float. *)
Lemma binary_round_aux_finite (s : bool) (mx ex : Z) (lx : location) :
  0 <= mx -> ex <= 971 -> Zdigits2 mx + ex <= 1023 ->
  binary_round_aux prec emax s mx ex lx = S754_zero s
  \/ exists (m : positive) (e : Z),
       binary_round_aux prec emax s mx ex lx = S754_finite s m e
       /\ e <= Z.max ex (Z.max (Zdigits2 mx + ex - 52) (-1074))
       /\ Z.pos (digits2_pos m) <= Zdigits2 mx + 1.
Proof.
  intros Hmx Hex Hd. unfold binary_round_aux.
  destruct (shr_fexp_bounds mx ex lx Hmx) as (mrs1 & e1 & -> & He1 & Hm1 & Hd1).
  pose proof (round_nearest_even_bounds (shr_m mrs1) (loc_of_shr_record mrs1)) as Hr.
  set (m1 := round_nearest_even (shr_m mrs1) (loc_of_shr_record mrs1)) in *.
  destruct (shr_fexp_bounds m1 e1 loc_Exact ltac:(lia))
    as (mrs2 & e2 & -> & He2 & Hm2 & Hd2).
  assert (Hdm1 : Zdigits2 m1 <= Zdigits2 (shr_m mrs1) + 1).
  { transitivity (Zdigits2 (shr_m mrs1 + 1)).
    - apply Zdigits2_mono. lia.
    - apply Zdigits2_succ. lia. }
  assert (Hdm1' : Zdigits2 m1 <= Zdigits2 mx + 1).
  { pose proof (Zdigits2_mono (shr_m mrs1) mx ltac:(lia)). lia. }
  unfold fexp, emin, prec, emax in *.
  destruct (shr_m mrs2) as [|m|m] eqn:Em; [left; reflexivity| |lia].
  right. exists m, e2.
  replace (e2 <=? 1024 - 53) with true by (symmetry; apply Z.leb_le; lia).
  split; [reflexivity|]. split; [lia|].
  pose proof (Zdigits2_mono (Z.pos m) m1 ltac:(lia)) as Hmm. simpl in Hmm. lia.
Qed.

(** The quotient of two integers below 2^53, as floats, is zero or finite. *)
Lemma f64_div_canonical_finite (s1 s2 : bool) (m1 m2 : positive) (e1 e2 : Z) :
  Z.pos (digits2_pos m1) = 53 -> -52 <= e1 <= 0 ->
  Z.pos (digits2_pos m2) = 53 -> -52 <= e2 <= 0 ->
  f64_div (S754_finite s1 m1 e1) (S754_finite s2 m2 e2) = S754_zero (xorb s1 s2)
  \/ exists (m : positive) (e : Z),
       f64_div (S754_finite s1 m1 e1) (S754_finite s2 m2 e2)
       = S754_finite (xorb s1 s2) m e
       /\ e <= 53 /\ Z.pos (digits2_pos m) <= 107.
Proof.
  intros Hd1 He1 Hd2 He2.
  unfold f64_div, SFdiv, SFdiv_core_binary. simpl Zdigits2. rewrite Hd1, Hd2.
  assert (He : Z.min (fexp prec emax (53 + e1 - (53 + e2))) (e1 - e2) = e1 - e2 - 53)
    by (unfold fexp, emin, prec, emax; lia).
  rewrite He. replace (e1 - e2 - (e1 - e2 - 53)) with 53 by lia. lazy iota.
  pose proof (Z_div_mod (Z.shiftl (Z.pos m1) 53) (Z.pos m2) ltac:(lia)) as Hdm.
  destruct (Z.div_eucl (Z.shiftl (Z.pos m1) 53) (Z.pos m2)) as [q r].
  rewrite Z.shiftl_mul_pow2 in Hdm by lia. destruct Hdm as [Hq Hr].
  pose proof (digits2_pos_upper m1) as Hu. rewrite Hd1 in Hu.
  assert (Hq0 : 0 <= q) by nia.
  assert (Hq1 : q < 2 ^ 106).
  { change (2 ^ 106) with (2 ^ 53 * 2 ^ 53). nia. }
  pose proof (Zdigits2_le q 106 Hq0 ltac:(lia) Hq1) as Hdq.
  destruct (binary_round_aux_finite (xorb s1 s2) q (e1 - e2 - 53)
              (new_location (Z.pos m2) r) Hq0 ltac:(lia) ltac:(lia))
    as [Hz|(m & e & Hf & Hle & Hdm)].
  - left. exact Hz.
  - right. exists m, e. split; [exact Hf|]. lia.
Qed.

(** Such a quotient times 100 is zero or finite. *)
Lemma f64_mul_100_finite (s : bool) (m : positive) (e : Z) :
  e <= 53 -> Z.pos (digits2_pos m) <= 107 ->
  is_finite (f64_mul (S754_finite s m e) f64_100) = true.
Proof.
  intros He Hd.
  change f64_100 with (S754_finite false 7036874417766400 (-46)).
  unfold f64_mul, SFmul.
  assert (Hdm : Zdigits2 (Z.pos (m * 7036874417766400)) <= 107 + 53).
  { rewrite Pos2Z.inj_mul.
    pose proof (Zdigits2_mul (Z.pos m) (Z.pos 7036874417766400)
                  ltac:(lia) ltac:(lia)) as H.
    change (Zdigits2 (Z.pos 7036874417766400)) with 53 in H.
    simpl (Zdigits2 (Z.pos m)) in H. lia. }
  destruct (binary_round_aux_finite (xorb s false)
              (Z.pos (m * 7036874417766400)) (e + -46) loc_Exact
              ltac:(lia) ltac:(lia) ltac:(lia))
    as [->|(m' & e' & -> & _)]; reflexivity.
Qed.

(** The percentage of [k] zeros among [n] values is a finite float. *)
Lemma percentage_finite (k n : Z) :
  0 <= k < 2 ^ 53 -> 0 < n < 2 ^ 53 ->
  is_finite (f64_mul (f64_div (f64_of_int k) (f64_of_int n)) f64_100) = true.
Proof.
  intros Hk Hn.
  destruct (f64_of_int_canonical n Hn) as (m2 & e2 & -> & Hd2 & He2).
  destruct (Z.eq_dec k 0) as [->|Hk0].
  - reflexivity.
  - destruct (f64_of_int_canonical k ltac:(lia)) as (m1 & e1 & -> & Hd1 & He1).
    destruct (f64_div_canonical_finite false false m1 m2 e1 e2 Hd1 He1 Hd2 He2)
      as [->|(m & e & -> & He & Hd)].
    + reflexivity.
    + apply f64_mul_100_finite; assumption.
Qed.

(** ** The monotonicity hint *)

(** C3. A numeric column whose values that are not missing are all equal,
    with at least one of them, is non-decreasing and non-increasing at once:
    neither monotonic label is given, and the hint is [not_monotonic]. *)
Theorem monotonic_hint_constant_column (s : Series) :
  is_numeric_dtype s = true ->
  constant_values s ->
  _monotonic_hint s = "not_monotonic"
  /\ _monotonic_hint s <> "monotonic_increasing"
  /\ _monotonic_hint s <> "monotonic_decreasing".
Proof.
  intros Hnum Hc.
  destruct (constant_both_ways s Hnum Hc) as (Hne & Hinc & Hdec).
  assert (E : _monotonic_hint s = "not_monotonic").
  { unfold _monotonic_hint.
    rewrite Hne, is_numeric_dropna, Hnum, Hinc, Hdec. reflexivity. }
  rewrite E. repeat split; discriminate.
Qed.

Lemma monotonic_hint_constant_column_witness :
  is_numeric_dtype (Float64 [f64_of_int 5; nan; f64_of_int 5; f64_of_int 5]) = true
  /\ constant_values (Float64 [f64_of_int 5; nan; f64_of_int 5; f64_of_int 5])
  /\ _monotonic_hint (Float64 [f64_of_int 5; nan; f64_of_int 5; f64_of_int 5])
     = "not_monotonic".
Proof.
  split; [reflexivity|]. split.
  - unfold constant_values. simpl. repeat constructor.
  - apply (monotonic_hint_constant_column
             (Float64 [f64_of_int 5; nan; f64_of_int 5; f64_of_int 5])).
    + reflexivity.
    + unfold constant_values. simpl. repeat constructor.
Defined.

(** C4. The monotonicity hint of a text column with at least one value
    that is not missing is the label [not_applicable]. *)
Theorem monotonic_hint_text_column (s : Series) :
  is_numeric_dtype s = false ->
  has_values s ->
  _monotonic_hint s = not_applicable.
Proof.
  unfold has_values, _monotonic_hint. intros Hnum Hne.
  rewrite Hne, is_numeric_dropna, Hnum. reflexivity.
Qed.

Lemma monotonic_hint_text_column_witness :
  is_numeric_dtype (Object [Some "COSMIC"; None; Some "BEAM"]) = false
  /\ has_values (Object [Some "COSMIC"; None; Some "BEAM"])
  /\ _monotonic_hint (Object [Some "COSMIC"; None; Some "BEAM"]) = not_applicable.
Proof.
  split; [reflexivity|]. split; [reflexivity|].
  apply (monotonic_hint_text_column (Object [Some "COSMIC"; None; Some "BEAM"]));
    reflexivity.
Defined.

(** ** Columns whose values are all missing *)

Lemma all_missing_zero_fraction (s : Series) :
  all_missing s -> _zero_fraction s = not_applicable.
Proof. unfold all_missing, _zero_fraction. intros ->. reflexivity. Qed.

Lemma all_missing_monotonic_hint (s : Series) :
  all_missing s -> _monotonic_hint s = "empty".
Proof. unfold all_missing, _monotonic_hint. intros ->. reflexivity. Qed.

Lemma all_missing_few_and_close (s : Series) :
  all_missing s -> few_and_close (dropna s) = Some false.
Proof.
  intros H. unfold few_and_close. rewrite nunique_dropna, all_missing_nunique by assumption.
  unfold series_max, series_min. rewrite dropna_idem.
  destruct (empty_dropna_cases s H) as [E|[E|E]]; rewrite E; reflexivity.
Qed.

Lemma all_missing_possible_role (col : string) (s : Series) :
  all_missing s -> possible_role col s = Some "unknown".
Proof.
  intros H. unfold possible_role.
  rewrite (all_missing_nunique s H), (all_missing_few_and_close s H).
  rewrite (all_missing_zero_fraction s H), (all_missing_monotonic_hint s H).
  rewrite andb_false_r. destruct (is_numeric_dtype s); reflexivity.
Qed.

(** The summary row of a column whose values are all missing. *)
Lemma all_missing_summary (col : string) (s : Series) :
  all_missing s ->
  summarize col s
  = Some (mkSummary col (dtype s) 0 "" ""
            not_applicable
            (if is_numeric_dtype s then "empty" else not_applicable)
            "empty" "unknown").
Proof.
  intros H. unfold summarize, numeric_cells.
  rewrite (all_missing_possible_role col s H), (all_missing_zero_fraction s H).
  rewrite (all_missing_monotonic_hint s H), nunique_dropna, (all_missing_nunique s H).
  assert (Hc : _constant_hint s = Some "empty")
    by (unfold _constant_hint; rewrite H; reflexivity).
  rewrite Hc. unfold all_missing in H. rewrite H.
  destruct (is_numeric_dtype s); reflexivity.
Qed.

(** C6, with the cell that the report writes for a text column. On a
    column whose values are all missing, of any dtype and under any label,
    the helper functions return [empty] for the monotonicity hint,
    [not_applicable] for the zero fraction, [empty] for the constant hint
    and [unknown] for the possible role. The summary row of the column has
    these fields, except that the monotonicity hint of a column that is not
    numeric is [not_applicable]: for such a column the report builder does
    not ask the helper. *)
Theorem all_missing_column_fields (col : string) (s : Series) :
  all_missing s ->
  (_monotonic_hint s = "empty"
   /\ _zero_fraction s = not_applicable
   /\ _constant_hint s = Some "empty"
   /\ possible_role col s = Some "unknown")
  /\ exists r : ColumnSummary,
       summarize col s = Some r
       /\ cs_monotonic r = (if is_numeric_dtype s then "empty" else not_applicable)
       /\ cs_zero_fraction r = not_applicable
       /\ cs_constant_hint r = "empty"
       /\ cs_possible_role r = "unknown"
       /\ cs_nunique r = 0%nat /\ cs_min r = "" /\ cs_max r = "".
Proof.
  intros H. split.
  - split; [|split; [|split]].
    + apply all_missing_monotonic_hint, H.
    + apply all_missing_zero_fraction, H.
    + unfold _constant_hint. rewrite H. reflexivity.
    + apply all_missing_possible_role, H.
  - eexists. split; [apply all_missing_summary, H|].
    simpl. repeat split; reflexivity.
Qed.

Lemma all_missing_column_fields_witness :
  all_missing (Float64 [nan; nan; nan])
  /\ all_missing (Object [None; None])
  /\ (exists r : ColumnSummary,
        summarize "col_3" (Float64 [nan; nan; nan]) = Some r
        /\ cs_monotonic r = "empty" /\ cs_zero_fraction r = "n/a"
        /\ cs_constant_hint r = "empty" /\ cs_possible_role r = "unknown")
  /\ (exists r : ColumnSummary,
        summarize "col_9" (Object [None; None]) = Some r
        /\ cs_monotonic r = "n/a" /\ cs_zero_fraction r = "n/a"
        /\ cs_constant_hint r = "empty" /\ cs_possible_role r = "unknown").
Proof.
  assert (H1 : all_missing (Float64 [nan; nan; nan])) by reflexivity.
  assert (H2 : all_missing (Object [None; None])) by reflexivity.
  split; [exact H1|]. split; [exact H2|]. split.
  - destruct (all_missing_column_fields "col_3" (Float64 [nan; nan; nan]) H1)
      as (_ & r & Hr & Hm & Hz & Hc & Hp & _).
    exists r. auto.
  - destruct (all_missing_column_fields "col_9" (Object [None; None]) H2)
      as (_ & r & Hr & Hm & Hz & Hc & Hp & _).
    exists r. auto.
Defined.

(** C6, as worded, fails on the monotonicity hint of a text column: in the
    summary row of the text column [None, None] the hint is [n/a], not
    [empty], and this is the row of the report. *)
Lemma all_missing_text_column_hint_differs :
  all_missing (Object [None; None])
  /\ (exists r : ColumnSummary,
        summarize "col_3" (Object [None; None]) = Some r
        /\ cs_monotonic r = "n/a" /\ cs_monotonic r <> "empty")
  /\ option_map (skipn 12)
       (summary_loop (mkFrame 2 [("col_3", Object [None; None])]) ["col_3"]
          (report_header (mkFrame 2 [("col_3", Object [None; None])])))
     = Some ["| col_3 | object | 0 |  |  | n/a | n/a | empty | unknown |"].
Proof.
  split; [reflexivity|]. split.
  - eexists. split; [reflexivity|]. split; [reflexivity|discriminate].
  - vm_compute. reflexivity.
Qed.

(** ** The role chain *)

Lemma possible_role_chain (col : string) (s : Series) :
  possible_role col s = Some (first_match role_rules "unknown" col s).
Proof.
  unfold possible_role, first_match, role_rules, List.find, applies, label.
  destruct (String.eqb col "col_9" && (nunique s =? 1)%nat); [reflexivity|].
  destruct (is_numeric_dtype s) eqn:Hnum; [|reflexivity].
  simpl andb.
  destruct (nunique s =? 1)%nat; [reflexivity|].
  unfold near_constant_test, mostly_zeros_test, counter_test.
  assert (Hn : is_numeric_dtype (dropna s) = true)
    by (rewrite is_numeric_dropna; exact Hnum).
  destruct (few_and_close_numeric (dropna s) Hn) as [b ->].
  destruct b; [reflexivity|].
  destruct (negb (String.eqb (_zero_fraction s) "n/a")
            && f64_ltb f64_0_95 (mean (eq0 s))); [reflexivity|].
  destruct (String.eqb (_monotonic_hint s) "monotonic_increasing"); reflexivity.
Qed.

(** C1, with the label the program writes. The possible role is decided
    by the first rule of [role_rules] that applies and is [unknown] when
    none does; a numeric column with exactly one distinct value that is not
    missing, and which is not the trailing column [col_9], has the role
    [constant sensor/setting (e.g., fixed parameter)]. *)
Theorem possible_role_constant_sensor (col : string) (s : Series) :
  possible_role col s = Some (first_match role_rules "unknown" col s)
  /\ (is_numeric_dtype s = true -> nunique s = 1%nat -> col <> "col_9" ->
      possible_role col s = Some "constant sensor/setting (e.g., fixed parameter)").
Proof.
  split; [apply possible_role_chain|].
  intros Hnum Hone Hcol. unfold possible_role.
  apply String.eqb_neq in Hcol. rewrite Hcol, Hnum, Hone. reflexivity.
Qed.

Lemma possible_role_constant_sensor_witness :
  is_numeric_dtype (Int64 [5; 5; 5; 5]) = true
  /\ nunique (Int64 [5; 5; 5; 5]) = 1%nat
  /\ "col_0" <> "col_9"
  /\ possible_role "col_0" (Int64 [5; 5; 5; 5])
     = Some "constant sensor/setting (e.g., fixed parameter)".
Proof.
  split; [reflexivity|]. split; [reflexivity|]. split; [discriminate|].
  apply (possible_role_constant_sensor "col_0" (Int64 [5; 5; 5; 5]));
    [reflexivity|reflexivity|discriminate].
Defined.

(** C1, as worded, fails on the text of the label: the role of the numeric
    column [5, 5, 5, 5] under the label [col_0] is not the text
    [constant sensor/setting (fixed parameter)]. *)
Lemma possible_role_constant_label_differs :
  is_numeric_dtype (Int64 [5; 5; 5; 5]) = true
  /\ nunique (Int64 [5; 5; 5; 5]) = 1%nat
  /\ "col_0" <> "col_9"
  /\ possible_role "col_0" (Int64 [5; 5; 5; 5])
     <> Some "constant sensor/setting (fixed parameter)".
Proof.
  split; [reflexivity|]. split; [reflexivity|]. split; discriminate.
Qed.

(** ** The constant hint *)

Lemma value_range_numeric (s : Series) :
  is_numeric_dtype s = true ->
  exists mx mn, float_ (series_max (dropna s)) = Some mx
    /\ float_ (series_min (dropna s)) = Some mn
    /\ value_range s = Some (f64_sub mx mn).
Proof.
  intros H. rewrite <- is_numeric_dropna in H.
  destruct (float_max_numeric _ H) as [mx Hmx].
  destruct (float_min_numeric _ H) as [mn Hmn].
  exists mx, mn. unfold value_range. rewrite Hmx, Hmn. auto.
Qed.


Lemma constant_hint_cases (s : Series) :
  has_values s -> (1 < nunique s)%nat ->
  _constant_hint s =
    Some (if near_constant_rule s then
            near_constant_str (nunique s) (default nan (value_range s))
          else if low_cardinality_rule s then low_cardinality_str (nunique s)
          else "varies").
Proof.
  unfold has_values. intros Hne Hn.
  unfold _constant_hint, near_constant_rule, low_cardinality_rule, range_within_half.
  rewrite Hne, nunique_dropna, is_numeric_dropna.
  assert (E1 : (nunique s =? 1)%nat = false) by (apply Nat.eqb_neq; lia).
  rewrite E1.
  destruct (is_numeric_dtype s) eqn:Hnum; simpl andb.
  - destruct (value_range_numeric s Hnum) as (mx & mn & -> & -> & ->). simpl.
    destruct (nunique s <=? 5)%nat; simpl; [|destruct (nunique s <=? 3)%nat; reflexivity].
    destruct (f64_leb (f64_sub mx mn) f64_0_5); [reflexivity|].
    destruct (nunique s <=? 3)%nat; reflexivity.
  - destruct (nunique s <=? 3)%nat; reflexivity.
Qed.



Example constant_hint_low_cardinality :
  _constant_hint (Int64 [0; 0; 7; 0; 3]) = Some "low_cardinality(nunique=3)".
Proof. vm_compute. reflexivity. Qed.

Example constant_hint_varies :
  _constant_hint (Float64 [f64_of_frac 1 10; f64_of_frac 2 10; f64_of_frac 3 10;
                           f64_of_frac 4 10; f64_of_frac 5 10; f64_of_frac 6 10])
  = Some "varies".
Proof. vm_compute. reflexivity. Qed.

Example constant_hint_text_low_cardinality :
  _constant_hint (Object [Some "a"; Some "b"; None; Some "a"])
  = Some "low_cardinality(nunique=2)".
Proof. vm_compute. reflexivity. Qed.

(** ** The zero fraction *)

Lemma append_assoc (a b c : string) : (a +:+ b) +:+ c = a +:+ b +:+ c.
Proof.
  induction a as [|x a IH]; [reflexivity|].
  change (String x ((a +:+ b) +:+ c) = String x (a +:+ b +:+ c)).
  rewrite IH. reflexivity.
Qed.

Lemma count_true_eq0 (s : Series) : count_true (eq0 s) = zeros_in s.
Proof.
  unfold count_true. destruct s as [xs|xs|xs]; simpl.
  - induction xs as [|x xs IH]; simpl; [reflexivity|].
    destruct (Z.eq_dec x 0) as [->|Hx]; simpl; [rewrite IH; reflexivity|].
    apply Z.eqb_neq in Hx. rewrite Hx. exact IH.
  - induction xs as [|x xs IH]; simpl; [reflexivity|].
    rewrite f64_eqb_zero. destruct (is_zero x); simpl; rewrite IH; reflexivity.
  - induction xs as [|x xs IH]; simpl; [reflexivity|exact IH].
Qed.

Lemma length_eq0 (s : Series) : length (eq0 s) = size s.
Proof. destruct s; simpl; apply length_map. Qed.

(** The mean of [s.eq(0)]: the zeros of [s] over all the rows of [s]. *)
Lemma mean_eq0 (s : Series) :
  mean (eq0 s)
  = f64_div (f64_of_int (Z.of_nat (zeros_in s))) (f64_of_int (Z.of_nat (size s))).
Proof. unfold mean. rewrite count_true_eq0, length_eq0. reflexivity. Qed.

Lemma is_digit_digit_char (d : Z) : 0 <= d <= 9 -> is_digit (digit_char d) = true.
Proof.
  intros H.
  assert (E : d = 0 \/ d = 1 \/ d = 2 \/ d = 3 \/ d = 4 \/ d = 5 \/ d = 6
              \/ d = 7 \/ d = 8 \/ d = 9) by lia.
  repeat (destruct E as [->|E]; [reflexivity|]). subst d. reflexivity.
Qed.

(** The format [.2f] writes a finite float with two decimals. *)
Lemma format_2f_two_decimals (x : float64) :
  is_finite x = true ->
  exists whole d1 d2,
    format_2f x = whole +:+ "." +:+ String d1 (String d2 "")
    /\ is_digit d1 = true /\ is_digit d2 = true.
Proof.
  destruct x as [s|s| |s m e]; simpl; try discriminate; intros _.
  - exists (sign_str s +:+ "0"), "0"%char, "0"%char.
    rewrite append_assoc. auto.
  - destruct (magnitude m e) as [p q].
    set (n := round_half_even (p * 100) q).
    exists (sign_str s +:+ digits_of (n / 100)),
           (digit_char (n mod 100 / 10)), (digit_char ((n mod 100) mod 10)).
    rewrite append_assoc. split; [reflexivity|].
    pose proof (Z.mod_pos_bound n 100 ltac:(lia)) as Hb.
    split; apply is_digit_digit_char.
    + split; [apply Z.div_pos; lia|].
      apply Z.lt_succ_r. apply Z.div_lt_upper_bound; lia.
    + pose proof (Z.mod_pos_bound (n mod 100) 10 ltac:(lia)). lia.
Qed.

Lemma zeros_in_le_size (s : Series) : (zeros_in s <= size s)%nat.
Proof.
  destruct s as [xs|xs|xs]; simpl.
  - apply count_occ_bound.
  - apply List.filter_length_le.
  - lia.
Qed.

(** The zero fraction of a column of fewer than 2^53 rows has two decimals. *)
Lemma zero_fraction_two_decimals (s : Series) :
  is_numeric_dtype s = true -> has_values s -> Z.of_nat (size s) < 2 ^ 53 ->
  exists whole d1 d2,
    _zero_fraction s = whole +:+ "." +:+ String d1 (String d2 "%")
    /\ is_digit d1 = true /\ is_digit d2 = true.
Proof.
  intros Hnum Hne Hsz.
  assert (Hpos : (0 < size (dropna s))%nat).
  { unfold has_values, empty in Hne. apply Nat.eqb_neq in Hne. lia. }
  pose proof (size_dropna s) as Hle.
  pose proof (zeros_in_le_size (dropna s)) as Hz.
  unfold _zero_fraction. rewrite Hne, is_numeric_dropna, Hnum, mean_eq0.
  destruct (format_2f_two_decimals
              (f64_mul (f64_div (f64_of_int (Z.of_nat (zeros_in (dropna s))))
                                (f64_of_int (Z.of_nat (size (dropna s)))))
                       f64_100))
    as (whole & d1 & d2 & E & H1 & H2).
  { apply percentage_finite; lia. }
  exists whole, d1, d2. simpl orb. cbv iota. rewrite E, append_assoc. auto.
Qed.

(** C7. The zero fraction of a numeric column with a value that is not
    missing is the number of its values equal to zero divided by the number
    of its values that are not missing, times 100 (in float64), written with
    the format [.2f] and followed by [%]: a text with exactly two decimals
    (for any column of fewer than 2^53 rows). The column
    [0,0,0,0,0,0,0,0,0,0,1] gives [90.91%]. *)
Theorem zero_fraction_percentage (s : Series) :
  (is_numeric_dtype s = true -> has_values s ->
   _zero_fraction s
   = format_2f
       (f64_mul (f64_div (f64_of_int (Z.of_nat (zeros_in (dropna s))))
                         (f64_of_int (Z.of_nat (size (dropna s)))))
                f64_100) +:+ "%"
   /\ (Z.of_nat (size s) < 2 ^ 53 ->
       exists whole d1 d2,
         _zero_fraction s = whole +:+ "." +:+ String d1 (String d2 "%")
         /\ is_digit d1 = true /\ is_digit d2 = true))
  /\ _zero_fraction (Int64 [0; 0; 0; 0; 0; 0; 0; 0; 0; 0; 1]) = "90.91%".
Proof.
  split.
  - intros Hnum Hne. split.
    + unfold has_values in Hne. unfold _zero_fraction.
      rewrite Hne, is_numeric_dropna, Hnum, mean_eq0. reflexivity.
    + intros Hsz. apply zero_fraction_two_decimals; assumption.
  - vm_compute. reflexivity.
Qed.

Lemma zero_fraction_percentage_witness :
  is_numeric_dtype (Float64 [S754_zero false; nan; f64_of_int 3; S754_zero true]) = true
  /\ has_values (Float64 [S754_zero false; nan; f64_of_int 3; S754_zero true])
  /\ Z.of_nat (size (Float64 [S754_zero false; nan; f64_of_int 3; S754_zero true])) < 2 ^ 53
  /\ _zero_fraction (Float64 [S754_zero false; nan; f64_of_int 3; S754_zero true])
     = "66.67%"
  /\ exists whole d1 d2,
       _zero_fraction (Float64 [S754_zero false; nan; f64_of_int 3; S754_zero true])
       = whole +:+ "." +:+ String d1 (String d2 "%")
       /\ is_digit d1 = true /\ is_digit d2 = true.
Proof.
  assert (Hs : Z.of_nat (size (Float64 [S754_zero false; nan; f64_of_int 3; S754_zero true]))
               < 2 ^ 53) by (simpl; lia).
  destruct (zero_fraction_percentage
              (Float64 [S754_zero false; nan; f64_of_int 3; S754_zero true]))
    as [H _].
  destruct (H eq_refl eq_refl) as [E Hshape].
  split; [reflexivity|]. split; [reflexivity|]. split; [exact Hs|].
  split; [rewrite E; vm_compute; reflexivity|exact (Hshape Hs)].
Defined.

Example zero_fraction_four_of_five :
  _zero_fraction (Int64 [0; 0; 0; 0; 1]) = "80.00%".
Proof. vm_compute. reflexivity. Qed.

(** ** The mostly-zeros rule *)

Lemma percent_not_na (t : string) : t +:+ "%" <> "n/a".
Proof.
  destruct t as [|c1 [|c2 [|c3 t]]]; cbv [String.append]; intros H.
  - discriminate H.
  - discriminate H.
  - injection H as _ _ H. discriminate H.
  - injection H as _ _ _ H. destruct t; discriminate H.
Qed.

Lemma zero_fraction_defined (s : Series) :
  is_numeric_dtype s = true -> has_values s -> _zero_fraction s <> "n/a".
Proof.
  unfold has_values, _zero_fraction. intros Hnum Hne.
  rewrite Hne, is_numeric_dropna, Hnum. apply percent_not_na.
Qed.

Lemma zero_fraction_undefined (s : Series) :
  all_missing s -> String.eqb (_zero_fraction s) "n/a" = true.
Proof. intros H. rewrite (all_missing_zero_fraction s H). reflexivity. Qed.

Lemma has_values_or_all_missing (s : Series) : has_values s \/ all_missing s.
Proof. unfold has_values, all_missing. destruct (empty (dropna s)); auto. Qed.

Lemma unique_by_incl {A : Type} (eqb : A -> A -> bool) (xs : list A) (y : A) :
  In y (unique_by eqb xs) -> In y xs.
Proof.
  induction xs as [|x xs IH]; simpl; [tauto|].
  intros [->|H]; [auto|]. apply filter_In in H. right. apply IH. tauto.
Qed.

Lemma unique_by_single {A : Type} (eqb : A -> A -> bool) (x : A) (rest : list A) :
  (forall y, In y rest -> eqb x y = true) -> unique_by eqb (x :: rest) = [x].
Proof.
  intros H. simpl. f_equal.
  assert (G : forall l : list A, (forall y, In y l -> In y rest) ->
              List.filter (fun y => negb (eqb x y)) l = []).
  { induction l as [|a l IH]; intros Hl; [reflexivity|]. simpl.
    rewrite (H a) by (apply Hl; left; reflexivity). simpl.
    apply IH. intros y Hy. apply Hl. right. exact Hy. }
  apply G. intros y Hy. eapply unique_by_incl. exact Hy.
Qed.

(** A column whose values are all zero, with at least one of them, has one
    distinct value. *)
Lemma all_zero_nunique (s : Series) :
  all_zero s -> has_values s -> nunique s = 1%nat.
Proof.
  unfold all_zero, has_values, nunique, empty.
  destruct (dropna s) as [[|x rest]|[|x rest]|xs]; simpl size;
    intros Hz Hne; try discriminate; try contradiction.
  - rewrite unique_by_single; [reflexivity|].
    rewrite List.Forall_forall in Hz. intros y Hy.
    rewrite (Hz x) by (left; reflexivity). rewrite (Hz y) by (right; exact Hy).
    reflexivity.
  - rewrite unique_by_single; [reflexivity|].
    rewrite List.Forall_forall in Hz. intros y Hy.
    unfold f64_eqb, SFeqb. rewrite SFcompare_zeros; [reflexivity| |].
    + apply Hz. left. reflexivity.
    + apply Hz. right. exact Hy.
Qed.

Lemma all_zero_count (s : Series) :
  all_zero s -> zeros_in (dropna s) = size (dropna s).
Proof.
  unfold all_zero. destruct (dropna s) as [xs|xs|xs]; simpl; intros H.
  - induction H as [|x xs Hx _ IH]; simpl; [reflexivity|].
    destruct (Z.eq_dec x 0); [rewrite IH; reflexivity|contradiction].
  - induction H as [|x xs Hx _ IH]; simpl; [reflexivity|].
    rewrite Hx. simpl. rewrite IH. reflexivity.
  - contradiction.
Qed.

(** A numeric column of zeros and missing entries reports 100 percent. *)
Lemma all_zero_zero_fraction (s : Series) :
  is_numeric_dtype s = true -> all_zero s -> has_values s ->
  Z.of_nat (size s) < 2 ^ 53 ->
  _zero_fraction s = "100.00%".
Proof.
  intros Hnum Hz Hne Hsz.
  assert (Hpos : (0 < size (dropna s))%nat).
  { unfold has_values, empty in Hne. apply Nat.eqb_neq in Hne. lia. }
  pose proof (size_dropna s) as Hle.
  unfold _zero_fraction. rewrite Hne, is_numeric_dropna, Hnum, mean_eq0.
  rewrite (all_zero_count s Hz).
  destruct (f64_of_int_finite (Z.of_nat (size (dropna s)))) as (m & e & ->); [lia|].
  rewrite f64_div_self. vm_compute. reflexivity.
Qed.

(** The role of a column that reaches the mostly-zeros rule. *)
Lemma possible_role_from_zeros_rule (col : string) (s : Series) :
  is_numeric_dtype s = true -> nunique s <> 1%nat -> near_constant_test s = false ->
  possible_role col s =
    if mostly_zeros_test s then Some "flag/status/unused channel (mostly zeros)"
    else if counter_test s then Some "counter or time-like variable (monotonic)"
    else Some "unknown".
Proof.
  intros Hnum Hn Hnear. unfold possible_role.
  apply Nat.eqb_neq in Hn. rewrite Hn, andb_false_r, Hnum.
  unfold near_constant_test in Hnear.
  assert (Hnd : is_numeric_dtype (dropna s) = true)
    by (rewrite is_numeric_dropna; exact Hnum).
  destruct (few_and_close_numeric (dropna s) Hnd) as [b Hb].
  rewrite Hb in Hnear |- *. subst b. reflexivity.
Qed.

(** C9. First part: for a numeric column that reaches the mostly-zeros
    rule, the role [flag/status/unused channel (mostly zeros)] is given
    exactly when the zero fraction is defined and the number of zeros
    divided by the number of all rows, missing ones included, is above 0.95.
    Second part: a numeric column whose values that are not missing are all
    zero and of which at least 5 percent of the rows are missing never has
    that role, although its zero fraction reads [100.00%] as soon as it has
    a value. *)
Theorem mostly_zeros_over_all_rows (col : string) (s : Series) :
  (is_numeric_dtype s = true -> nunique s <> 1%nat -> near_constant_test s = false ->
   (possible_role col s = Some "flag/status/unused channel (mostly zeros)"
    <-> has_values s
        /\ f64_ltb f64_0_95
             (f64_div (f64_of_int (Z.of_nat (zeros_in s)))
                      (f64_of_int (Z.of_nat (size s)))) = true))
  /\ (is_numeric_dtype s = true -> all_zero s ->
      (size s <= 20 * (size s - size (dropna s)))%nat ->
      possible_role col s <> Some "flag/status/unused channel (mostly zeros)"
      /\ (has_values s -> Z.of_nat (size s) < 2 ^ 53 ->
          _zero_fraction s = "100.00%")).
Proof.
  split.
  - intros Hnum Hn Hnear.
    rewrite (possible_role_from_zeros_rule col s Hnum Hn Hnear).
    unfold mostly_zeros_test. rewrite mean_eq0.
    destruct (has_values_or_all_missing s) as [Hv|Hm].
    + pose proof (zero_fraction_defined s Hnum Hv) as Hd.
      apply String.eqb_neq in Hd. rewrite Hd. simpl negb. simpl andb.
      destruct (f64_ltb f64_0_95 _); split.
      * auto.
      * reflexivity.
      * destruct (counter_test s); discriminate.
      * intros [_ H]. discriminate H.
    + rewrite (zero_fraction_undefined s Hm). simpl negb. simpl andb.
      split.
      * destruct (counter_test s); discriminate.
      * intros [Hv _]. unfold has_values, all_missing in *. congruence.
  - intros Hnum Hz _. split.
    + destruct (has_values_or_all_missing s) as [Hv|Hm].
      * unfold possible_role.
        rewrite (all_zero_nunique s Hz Hv), Hnum.
        destruct (String.eqb col "col_9"); simpl; discriminate.
      * rewrite (all_missing_possible_role col s Hm). discriminate.
    + intros Hv Hsz. apply all_zero_zero_fraction; assumption.
Qed.

Lemma mostly_zeros_over_all_rows_witness :
  is_numeric_dtype (Float64 [S754_zero false; nan; S754_zero false]) = true
  /\ all_zero (Float64 [S754_zero false; nan; S754_zero false])
  /\ (size (Float64 [S754_zero false; nan; S754_zero false])
      <= 20 * (size (Float64 [S754_zero false; nan; S754_zero false])
               - size (dropna (Float64 [S754_zero false; nan; S754_zero false]))))%nat
  /\ has_values (Float64 [S754_zero false; nan; S754_zero false])
  /\ Z.of_nat (size (Float64 [S754_zero false; nan; S754_zero false])) < 2 ^ 53
  /\ possible_role "col_4" (Float64 [S754_zero false; nan; S754_zero false])
     <> Some "flag/status/unused channel (mostly zeros)"
  /\ _zero_fraction (Float64 [S754_zero false; nan; S754_zero false]) = "100.00%".
Proof.
  assert (Hz : all_zero (Float64 [S754_zero false; nan; S754_zero false]))
    by (unfold all_zero; simpl; repeat constructor).
  assert (Hm : (size (Float64 [S754_zero false; nan; S754_zero false])
      <= 20 * (size (Float64 [S754_zero false; nan; S754_zero false])
               - size (dropna (Float64 [S754_zero false; nan; S754_zero false]))))%nat)
    by (simpl; lia).
  assert (Hs : Z.of_nat (size (Float64 [S754_zero false; nan; S754_zero false])) < 2 ^ 53)
    by (simpl; lia).
  destruct (mostly_zeros_over_all_rows "col_4"
              (Float64 [S754_zero false; nan; S754_zero false])) as [_ H].
  destruct (H eq_refl Hz Hm) as [Hr Hf].
  exact (conj eq_refl (conj Hz (conj Hm (conj eq_refl (conj Hs
          (conj Hr (Hf eq_refl Hs))))))).
Defined.

(** C5, at a column the program mishandles. The float column of 20 zeros,
    a one and two missing entries matches neither the constant nor the
    near-constant rule; its zero fraction is defined and, over the 21 values
    that are not missing, above 95 percent ([95.24%]); yet the role is not
    [flag/status/unused channel (mostly zeros)]: the test of the rule counts
    the two missing rows in its denominator. *)
Example mostly_zeros_missed_with_missing_rows :
  let s := Float64 (replicate 20 (S754_zero false) ++ [f64_of_int 1; nan; nan]) in
  is_numeric_dtype s = true
  /\ nunique s = 2%nat
  /\ near_constant_test s = false
  /\ _zero_fraction s = "95.24%"
  /\ (95 * size (dropna s) < 100 * zeros_in (dropna s))%nat
  /\ possible_role "col_3" s = Some "counter or time-like variable (monotonic)".
Proof. vm_compute. repeat split; lia. Qed.

(** ** The report *)

Lemma iloc0_nonempty (s : Series) : empty s = false -> exists v, iloc0 s = Some v.
Proof.
  destruct s as [[|x xs]|[|x xs]|[|[x|] xs]]; simpl; try discriminate; eauto.
Qed.

Lemma constant_hint_total (s : Series) : exists hint, _constant_hint s = Some hint.
Proof.
  unfold _constant_hint.
  destruct (empty (dropna s)) eqn:Hne; [eauto|].
  destruct (nunique (dropna s) =? 1)%nat.
  - destruct (iloc0_nonempty _ Hne) as [v ->]. simpl. eauto.
  - destruct (is_numeric_dtype (dropna s)) eqn:Hnum; simpl andb.
    + destruct (float_max_numeric _ Hnum) as [mx ->].
      destruct (float_min_numeric _ Hnum) as [mn ->].
      destruct (nunique (dropna s) <=? 5)%nat;
        destruct (f64_leb (f64_sub mx mn) f64_0_5);
        destruct (nunique (dropna s) <=? 3)%nat; eauto.
    + destruct (nunique (dropna s) <=? 3)%nat; eauto.
Qed.

Lemma numeric_cells_total (s : Series) :
  is_numeric_dtype s = true -> exists mm, numeric_cells s = Some mm.
Proof.
  intros Hnum. rewrite <- is_numeric_dropna in Hnum. unfold numeric_cells.
  destruct (empty (dropna s)); [eauto|].
  destruct (float_min_numeric _ Hnum) as [mn Hmn].
  destruct (float_max_numeric _ Hnum) as [mx Hmx].
  unfold format_scalar_4g. rewrite Hmn, Hmx. simpl. eauto.
Qed.

(** The loop body raises no exception, and the row it writes is the row of
    its column. *)
Lemma summarize_total (col : string) (s : Series) :
  exists r, summarize col s = Some r /\ cs_column r = col.
Proof.
  unfold summarize. rewrite possible_role_chain.
  destruct (constant_hint_total s) as [hint ->].
  destruct (is_numeric_dtype s) eqn:Hnum.
  - destruct (numeric_cells_total s Hnum) as [[mn mx] ->]. simpl. eauto.
  - eauto.
Qed.

Lemma filter_label_absent (col : string) (l : list (string * Series)) :
  ~ In col (map fst l) -> List.filter (has_label col) l = [].
Proof.
  induction l as [|[c s] l IH]; simpl; intros H; [reflexivity|].
  unfold has_label at 1. simpl.
  destruct (String.eqb_spec c col) as [->|_]; [tauto|]. apply IH. tauto.
Qed.

(** With labels that differ, a label selects its column. *)
Lemma getitem_unique_label (df : DataFrame) (col : string) (s : Series) :
  List.NoDup (columns df) -> In (col, s) (frame_columns df) ->
  getitem df col = Some s.
Proof.
  unfold getitem, columns. fold (has_label col).
  induction (frame_columns df) as [|[c s'] l IH]; simpl; intros Hnd Hin; [tauto|].
  inversion Hnd as [|? ? Hc Hl]; subst.
  unfold has_label at 1. simpl. destruct Hin as [E|Hin].
  - injection E as -> ->. rewrite String.eqb_refl.
    rewrite filter_label_absent by assumption. reflexivity.
  - destruct (String.eqb_spec c col) as [->|_].
    + exfalso. apply Hc. apply (in_map fst) in Hin. exact Hin.
    + apply IH; assumption.
Qed.

Lemma summary_loop_rows (df : DataFrame) (l : list (string * Series)) :
  (forall col s, In (col, s) l -> getitem df col = Some s) ->
  forall lines, exists rows,
    summary_loop df (map fst l) lines = Some (lines ++ map render_row rows)
    /\ Forall2 (fun cs r => summarize (fst cs) (snd cs) = Some r) l rows
    /\ map cs_column rows = map fst l.
Proof.
  induction l as [|[c s] l IH]; intros Hget lines.
  - exists []. simpl. rewrite app_nil_r. auto.
  - simpl. rewrite (Hget c s) by (left; reflexivity).
    destruct (summarize_total c s) as (r & Hr & Hc). rewrite Hr.
    destruct (IH (fun col s' H => Hget col s' (or_intror H)) (lines ++ [render_row r]))
      as (rows & Hloop & Hrows & Hcols).
    exists (r :: rows). rewrite Hloop. simpl. rewrite <- app_assoc. simpl.
    split; [reflexivity|]. split; [constructor; assumption|].
    rewrite Hc, Hcols. reflexivity.
Qed.

Lemma join_concat (sep : string) (parts : list string) :
  join sep parts = String.concat sep parts.
Proof.
  induction parts as [|x [|y rest] IH]; [reflexivity|reflexivity|].
  change (x +:+ sep +:+ join sep (y :: rest)
          = x +:+ sep +:+ String.concat sep (y :: rest)).
  rewrite IH. reflexivity.
Qed.

(** The text of a row: its nine cells between bars. *)
Lemma render_row_cells (r : ColumnSummary) :
  render_row r
  = "| " +:+ String.concat " | "
               [ cs_column r; cs_dtype r; str_nat (cs_nunique r); cs_min r; cs_max r;
                 cs_zero_fraction r; cs_monotonic r; cs_constant_hint r;
                 cs_possible_role r ] +:+ " |".
Proof.
  unfold render_row. cbn [String.concat].
  rewrite <- !append_assoc. reflexivity.
Qed.

(** The loop on the object reads the table and leaves the store alone. *)
Lemma summary_loop_on_run (σ : gmap loc DataFrame) (df : loc) (d : DataFrame)
    (cols : list string) :
  σ !! df = Some d ->
  forall lines,
    summary_loop_on df cols lines σ
    = option_map (fun ls => (ls, σ)) (summary_loop d cols lines).
Proof.
  intros Hdf. induction cols as [|col rest IH]; intros lines; [reflexivity|].
  simpl. unfold bind, getitem_of. rewrite Hdf.
  destruct (getitem d col) as [s|]; [|reflexivity]. simpl.
  destruct (summarize col s) as [r|]; [|reflexivity]. apply IH.
Qed.

Lemma build_schema_report_on_run (σ : gmap loc DataFrame) (df : loc) (d : DataFrame) :
  σ !! df = Some d ->
  build_schema_report_on df σ
  = option_map (fun text => (text, σ)) (build_schema_report d).
Proof.
  intros Hdf. unfold build_schema_report_on, build_schema_report, bind.
  unfold shape_of, columns_of. rewrite Hdf. cbn [option_map].
  rewrite Hdf. cbn [option_map].
  rewrite (summary_loop_on_run σ df d (columns d) Hdf).
  fold (report_header d).
  destruct (summary_loop d (columns d) (report_header d)); reflexivity.
Qed.

(** A label that names two columns selects no single column. *)
Lemma repeated_label_getitem (d : DataFrame) :
  ~ List.NoDup (columns d) ->
  exists col, In col (columns d) /\ getitem d col = None.
Proof.
  unfold columns, getitem. intros Hdup.
  assert (H : exists col x y rest,
            In col (map fst (frame_columns d))
            /\ List.filter (fun cs => String.eqb (fst cs) col) (frame_columns d)
               = x :: y :: rest).
  { induction (frame_columns d) as [|[c s] l IH]; [exfalso; apply Hdup; constructor|].
    destruct (in_dec string_dec c (map fst l)) as [Hin|Hnin].
    - apply in_map_iff in Hin. destruct Hin as ([c' s'] & E & Hin). simpl in E. subst c'.
      assert (Hf : In (c, s') (List.filter (fun cs => String.eqb (fst cs) c) l))
        by (apply filter_In; split; [exact Hin|apply String.eqb_refl]).
      destruct (List.filter (fun cs => String.eqb (fst cs) c) l) as [|y rest] eqn:Ef;
        [destruct Hf|].
      exists c, (c, s), y, rest. split; [left; reflexivity|].
      simpl. rewrite String.eqb_refl, Ef. reflexivity.
    - destruct IH as (col & x & y & rest & Hin & Hf).
      { intros Hnd. apply Hdup. simpl. constructor; assumption. }
      destruct (String.eqb c col) eqn:E.
      + exists col, (c, s), x, (y :: rest). split; [right; exact Hin|].
        simpl. rewrite E, Hf. reflexivity.
      + exists col, x, y, rest. split; [right; exact Hin|].
        simpl. rewrite E. exact Hf. }
  destruct H as (col & x & y & rest & Hin & Hf).
  exists col. split; [exact Hin|]. rewrite Hf. reflexivity.
Qed.

Lemma summary_loop_raises (d : DataFrame) (col : string) (cols : list string) :
  In col cols -> getitem d col = None ->
  forall lines, summary_loop d cols lines = None.
Proof.
  intros Hin Hget. induction cols as [|c rest IH]; intros lines; [destruct Hin|].
  simpl. destruct (string_dec c col) as [->|Hne].
  - rewrite Hget. reflexivity.
  - destruct (getitem d c) as [s|]; [|reflexivity].
    destruct (summarize c s) as [r|]; [|reflexivity].
    apply IH. destruct Hin as [E|Hin]; [congruence|exact Hin].
Qed.

(** The report of a table with distinct labels: the header, one row for
    each column in the order of the columns, and the notes. *)
Lemma report_rows (d : DataFrame) :
  List.NoDup (columns d) ->
  exists rows : list string,
    build_schema_report d
    = Some (String.concat newline (report_header d ++ rows ++ report_notes))
    /\ Forall2
         (fun cs row =>
            exists r : ColumnSummary,
              summarize (fst cs) (snd cs) = Some r
              /\ cs_column r = fst cs
              /\ row = "| " +:+ String.concat " | "
                                 [ cs_column r; cs_dtype r; str_nat (cs_nunique r);
                                   cs_min r; cs_max r; cs_zero_fraction r;
                                   cs_monotonic r; cs_constant_hint r;
                                   cs_possible_role r ] +:+ " |")
         (frame_columns d) rows.
Proof.
  intros Hnd.
  destruct (summary_loop_rows d (frame_columns d)
              (fun col s H => getitem_unique_label d col s Hnd H)
              (report_header d)) as (rows & Hloop & Hrows & Hcols).
  exists (map render_row rows). split.
  - unfold build_schema_report, columns. rewrite Hloop. cbn [option_map].
    rewrite <- List.app_assoc, join_concat. reflexivity.
  - clear Hloop. revert rows Hrows Hcols.
    induction (frame_columns d) as [|cs l IH]; intros rows Hrows Hcols;
      inversion Hrows as [|? r ? rows' Hr Hrest]; subst; [constructor|].
    simpl in Hcols. injection Hcols as Hc Hcols.
    constructor; [|apply IH; assumption].
    exists r. split; [exact Hr|]. split; [exact Hc|]. apply render_row_cells.
Qed.

(** C8, for tables with distinct labels. The builder run twice in a row
    on the same object returns the same text twice: it only reads the table
    and leaves the store as it was. On a table with distinct labels the
    text is made of the header, one row for each column in the order of the
    columns, each row holding the label and the cells of the summary of its
    column, and the closing notes. On a table in which a label names two
    columns the builder raises. *)
Theorem report_deterministic_in_column_order (σ : gmap loc DataFrame) (df : loc)
    (d : DataFrame) :
  σ !! df = Some d ->
  (forall (text : string) (σ1 : gmap loc DataFrame),
     build_schema_report_on df σ = Some (text, σ1) ->
     σ1 = σ
     /\ (do a <- build_schema_report_on df;
         do b <- build_schema_report_on df;
         ret (a, b)) σ
        = Some ((text, text), σ))
  /\ (List.NoDup (columns d) ->
      exists rows : list string,
        build_schema_report_on df σ
        = Some (String.concat newline (report_header d ++ rows ++ report_notes), σ)
        /\ Forall2
             (fun cs row =>
                exists r : ColumnSummary,
                  summarize (fst cs) (snd cs) = Some r
                  /\ cs_column r = fst cs
                  /\ row = "| " +:+ String.concat " | "
                                     [ cs_column r; cs_dtype r; str_nat (cs_nunique r);
                                       cs_min r; cs_max r; cs_zero_fraction r;
                                       cs_monotonic r; cs_constant_hint r;
                                       cs_possible_role r ] +:+ " |")
             (frame_columns d) rows)
  /\ (~ List.NoDup (columns d) -> build_schema_report_on df σ = None).
Proof.
  intros Hdf. rewrite (build_schema_report_on_run σ df d Hdf).
  split; [|split].
  - intros text σ1 H.
    destruct (build_schema_report d) as [t|] eqn:E; [|discriminate].
    injection H as <- <-. split; [reflexivity|].
    unfold bind. rewrite (build_schema_report_on_run σ df d Hdf), E.
    cbn [option_map]. rewrite (build_schema_report_on_run σ df d Hdf), E.
    reflexivity.
  - intros Hnd. destruct (report_rows d Hnd) as (rows & -> & Hrows).
    exists rows. split; [reflexivity|exact Hrows].
  - intros Hdup. destruct (repeated_label_getitem d Hdup) as (col & Hin & Hget).
    unfold build_schema_report.
    rewrite (summary_loop_raises d col (columns d) Hin Hget). reflexivity.
Qed.

Lemma sample_frame_labels : List.NoDup (columns sample_frame).
Proof.
  unfold columns, sample_frame. simpl.
  repeat constructor; simpl; intuition discriminate.
Qed.

Lemma repeated_frame_labels : ~ List.NoDup (columns repeated_frame).
Proof.
  intros H. inversion H as [|? ? Hin _]; subst. apply Hin. left. reflexivity.
Qed.

Lemma report_deterministic_in_column_order_witness :
  ({[ 1%positive := sample_frame ]} : gmap loc DataFrame) !! 1%positive
  = Some sample_frame
  /\ List.NoDup (columns sample_frame)
  /\ (exists rows : list string,
        build_schema_report_on 1%positive {[ 1%positive := sample_frame ]}
        = Some (String.concat newline
                  (report_header sample_frame ++ rows ++ report_notes),
                {[ 1%positive := sample_frame ]})
        /\ length rows = 3%nat
        /\ (do a <- build_schema_report_on 1%positive;
            do b <- build_schema_report_on 1%positive;
            ret (a, b)) {[ 1%positive := sample_frame ]}
           = Some ((String.concat newline
                      (report_header sample_frame ++ rows ++ report_notes),
                    String.concat newline
                      (report_header sample_frame ++ rows ++ report_notes)),
                   {[ 1%positive := sample_frame ]}))
  /\ ~ List.NoDup (columns repeated_frame)
  /\ build_schema_report_on 1%positive {[ 1%positive := repeated_frame ]} = None.
Proof.
  assert (H1 : ({[ 1%positive := sample_frame ]} : gmap loc DataFrame) !! 1%positive
               = Some sample_frame) by reflexivity.
  assert (H2 : ({[ 1%positive := repeated_frame ]} : gmap loc DataFrame) !! 1%positive
               = Some repeated_frame) by reflexivity.
  destruct (report_deterministic_in_column_order _ _ _ H1) as (Hdet & Hrows & _).
  destruct (report_deterministic_in_column_order _ _ _ H2) as (_ & _ & Hdup).
  destruct (Hrows sample_frame_labels) as (rows & Hrun & Hall).
  split; [exact H1|]. split; [exact sample_frame_labels|]. split.
  - exists rows. split; [exact Hrun|]. split.
    + apply Forall2_length in Hall. rewrite <- Hall. reflexivity.
    + exact (proj2 (Hdet _ _ Hrun)).
  - split; [exact repeated_frame_labels|]. exact (Hdup repeated_frame_labels).
Defined.

(** C8, as worded for every table, fails on a table in which a label is
    repeated: the builder returns no report for it. *)
Lemma report_of_repeated_label :
  ~ List.NoDup (columns repeated_frame)
  /\ build_schema_report repeated_frame = None
  /\ build_schema_report_on 1%positive {[ 1%positive := repeated_frame ]} = None.
Proof.
  split; [exact repeated_frame_labels|]. split; vm_compute; reflexivity.
Qed.

Example report_rows_of_sample_frame :
  option_map (fun lines => skipn 12 lines)
    (summary_loop sample_frame (columns sample_frame) (report_header sample_frame))
  = Some
      [ "| col_0 | int64 | 3 | 1 | 3 | 0.00% | monotonic_increasing | low_cardinality(nunique=3) | counter or time-like variable (monotonic) |";
        "| col_1 | float64 | 1 | 0.5 | 0.5 | 0.00% | not_monotonic | constant(0.5) | constant sensor/setting (e.g., fixed parameter) |";
        "| col_9 | object | 1 |  |  | n/a | n/a | constant(COSMIC) | label/type (constant category) |" ].
Proof. vm_compute. reflexivity. Qed.

(** ** Basic structural cleaning *)

Lemma lstrip_no_leading_space (s : string) : starts_with_space (lstrip s) = false.
Proof.
  induction s as [|c s IH]; simpl; [reflexivity|].
  destruct (is_space c) eqn:E; [exact IH|]. simpl. exact E.
Qed.

Lemma rstrip_no_trailing_space (s : string) : ends_with_space (rstrip s) = false.
Proof.
  induction s as [|c s IH]; simpl; [reflexivity|].
  destruct (rstrip s) as [|c' t] eqn:E.
  - destruct (is_space c) eqn:Ec; simpl; [reflexivity|exact Ec].
  - exact IH.
Qed.

Lemma rstrip_keeps_head (s : string) :
  starts_with_space s = false -> starts_with_space (rstrip s) = false.
Proof.
  destruct s as [|c s]; simpl; [reflexivity|]. intros Hc.
  destruct (rstrip s); [rewrite Hc|]; simpl; exact Hc.
Qed.

Lemma strip_stripped (s : string) : stripped (strip s).
Proof.
  unfold stripped, strip. split.
  - apply rstrip_keeps_head, lstrip_no_leading_space.
  - apply rstrip_no_trailing_space.
Qed.

Lemma lstrip_split (s : string) :
  exists l, s = l +:+ lstrip s /\ only_spaces l.
Proof.
  induction s as [|c s (l & E & Hl)].
  - exists "". split; [reflexivity|constructor].
  - simpl. destruct (is_space c) eqn:Ec.
    + exists (String c l). split.
      * change (String c s = String c (l +:+ lstrip s)). rewrite <- E. reflexivity.
      * constructor; assumption.
    + exists "". split; [reflexivity|constructor].
Qed.

Lemma rstrip_split (s : string) :
  exists r, s = rstrip s +:+ r /\ only_spaces r.
Proof.
  induction s as [|c s (r & E & Hr)].
  - exists "". split; [reflexivity|constructor].
  - simpl. destruct (rstrip s) as [|c' t] eqn:Es.
    + change ("" +:+ r) with r in E. subst r.
      destruct (is_space c) eqn:Ec.
      * exists (String c s). split; [reflexivity|]. constructor; assumption.
      * exists s. split; [reflexivity|assumption].
    + exists r. split; [|assumption].
      change (String c s = String c (String c' t +:+ r)). rewrite <- E. reflexivity.
Qed.

Lemma lstrip_fixed (s : string) : starts_with_space s = false -> lstrip s = s.
Proof. destruct s as [|c s]; simpl; [reflexivity|]. intros ->. reflexivity. Qed.

Lemma rstrip_fixed (s : string) : ends_with_space s = false -> rstrip s = s.
Proof.
  induction s as [|c s IH]; [reflexivity|].
  destruct s as [|c' s'].
  - simpl. intros ->. reflexivity.
  - intros H. change (ends_with_space (String c' s') = false) in H.
    change (rstrip (String c (String c' s')))
      with (match rstrip (String c' s') with
            | "" => if is_space c then "" else String c ""
            | t => String c t
            end).
    rewrite (IH H). reflexivity.
Qed.

Lemma strip_fixed (s : string) : stripped s -> strip s = s.
Proof.
  intros [Hl Hr]. unfold strip. rewrite (lstrip_fixed s Hl). apply rstrip_fixed, Hr.
Qed.

Lemma strip_stripped_of (t : string) : stripped_of t (strip t).
Proof.
  split; [apply strip_stripped|].
  destruct (lstrip_split t) as (l & El & Hl).
  destruct (rstrip_split (lstrip t)) as (r & Er & Hr).
  exists l, r. unfold strip. rewrite <- Er. auto.
Qed.

(** The column [s.astype(str).str.strip()]. *)
Lemma astype_strip_entries (na : nat -> option string) (s : Series) :
  exists ys : list (option string),
    str_strip (astype_str na s) = Some (Object ys)
    /\ stripped_entries na s (Object ys).
Proof.
  destruct s as [xs|xs|xs]; simpl; eexists; (split; [reflexivity|]);
    eexists; (split; [reflexivity|]);
    (split; [rewrite !length_map, ?length_imap; reflexivity|]);
    intros i Hi; simpl in Hi; apply lookup_lt_is_Some in Hi; destruct Hi as [x Hx];
    unfold value_at; rewrite Hx.
  - simpl. exists (strip (str_int x)). split; [|apply strip_stripped_of].
    change (map (option_map strip) (map (fun n => Some (str_int n)) xs))
      with (option_map strip <$> ((fun n => Some (str_int n)) <$> xs)).
    rewrite !list_lookup_fmap, Hx. reflexivity.
  - assert (E : map (option_map strip)
                  (imap (fun i x => if is_nan x then na i else Some (str_float x)) xs)
                !! i
                = Some (option_map strip
                          (if is_nan x then na i else Some (str_float x)))).
    { change (map (option_map strip) ?l) with (option_map strip <$> l).
      rewrite list_lookup_fmap, list_lookup_imap, Hx. reflexivity. }
    rewrite E. destruct (is_nan x).
    + destruct (na i) as [t|]; [|reflexivity].
      exists (strip t). split; [reflexivity|apply strip_stripped_of].
    + exists (strip (str_float x)). split; [reflexivity|apply strip_stripped_of].
  - assert (E : map (option_map strip)
                  (imap (fun i o => match o with
                                    | Some t => Some t
                                    | None => na i
                                    end) xs) !! i
                = Some (option_map strip
                          (match x with Some t => Some t | None => na i end))).
    { change (map (option_map strip) ?l) with (option_map strip <$> l).
      rewrite list_lookup_fmap, list_lookup_imap, Hx. reflexivity. }
    rewrite E. destruct x as [t|].
    + exists (strip t). split; [reflexivity|apply strip_stripped_of].
    + destruct (na i) as [t|]; [|reflexivity].
      exists (strip t). split; [reflexivity|apply strip_stripped_of].
Qed.

(** When [astype(str)] writes a text for every missing entry, the column
    is text without missing entry. *)
Lemma stripped_entries_text (na : nat -> option string) (s s' : Series) :
  (forall i, (i < size s)%nat -> value_at s i = None -> na i <> None) ->
  stripped_entries na s s' -> stripped_text s'.
Proof.
  intros Hna (ys & -> & Hlen & Hys).
  assert (H : forall i, (i < length ys)%nat ->
            exists y, ys !! i = Some (Some y) /\ stripped y).
  { intros i Hi. rewrite Hlen in Hi. specialize (Hys i Hi).
    destruct (value_at s i) as [v|] eqn:Ev.
    - destruct Hys as (y & Hy & Hs & _). eauto.
    - specialize (Hna i Hi Ev). destruct (na i) as [t|]; [|congruence].
      destruct Hys as (y & Hy & Hs & _). eauto. }
  clear Hys Hlen Hna.
  assert (E : exists ts, ys = map Some ts /\ Forall stripped ts).
  { induction ys as [|o ys IH]; [exists []; split; [reflexivity|constructor]|].
    destruct (H 0%nat) as (y & Hy & Hs); [simpl; lia|]. simpl in Hy.
    injection Hy as ->.
    destruct IH as (ts & -> & HF).
    { intros i Hi. apply (H (S i)). simpl. lia. }
    exists (y :: ts). split; [reflexivity|constructor; assumption]. }
  destruct E as (ts & -> & HF). exists ts. auto.
Qed.

Lemma all_ints_length (vs : list (option Z)) (ns : list Z) :
  all_ints vs = Some ns -> length ns = length vs.
Proof.
  revert ns. induction vs as [|v vs IH]; simpl; intros ns H.
  - injection H as <-. reflexivity.
  - destruct v; [|discriminate].
    destruct (all_ints vs) as [ns'|]; [|discriminate].
    injection H as <-. simpl. rewrite (IH ns') by reflexivity. reflexivity.
Qed.

Lemma all_ints_lookup (vs : list (option Z)) (ns : list Z) (i : nat) (v : option Z) :
  all_ints vs = Some ns -> vs !! i = Some v ->
  exists n, v = Some n /\ ns !! i = Some n.
Proof.
  revert ns i. induction vs as [|w vs IH]; intros ns i H Hi; [discriminate|].
  simpl in H. destruct w as [n|]; [|discriminate].
  destruct (all_ints vs) as [ns'|] eqn:E; [|discriminate].
  injection H as <-. destruct i as [|i]; simpl in *.
  - injection Hi as <-. eauto.
  - apply (IH ns' i eq_refl Hi).
Qed.

(** [to_numeric_by] has the contract of [pd.to_numeric]. *)
Lemma to_numeric_by_contract (read_number : string -> option reading) :
  to_numeric_contract read_number (to_numeric_by read_number).
Proof.
  intros s. unfold coerced. destruct s as [xs|xs|xs]; simpl; auto.
  destruct (all_ints (map (int_reading read_number) xs)) as [ns|] eqn:E; simpl.
  - split; [reflexivity|]. split.
    + rewrite (all_ints_length _ _ E). apply length_map.
    + intros i o Hi.
      assert (Hv : map (int_reading read_number) xs !! i
                   = Some (int_reading read_number o)).
      { change (map (int_reading read_number) xs)
          with (int_reading read_number <$> xs).
        rewrite list_lookup_fmap, Hi. reflexivity. }
      destruct (all_ints_lookup _ _ _ _ E Hv) as (n & Hn & Hns).
      unfold int_reading in Hn.
      destruct (read_entry read_number o) as [rd|]; [|discriminate].
      left. exists ns, n. auto.
  - split; [reflexivity|]. split; [apply length_map|].
    intros i o Hi.
    assert (Hv : map (float_reading read_number) xs !! i
                 = Some (float_reading read_number o)).
    { change (map (float_reading read_number) xs)
        with (float_reading read_number <$> xs).
      rewrite list_lookup_fmap, Hi. reflexivity. }
    unfold float_reading in Hv.
    destruct (read_entry read_number o) as [rd|]; eauto.
Qed.


Lemma replace_unique_label (c : string) (s v : Series)
    (prefix rest : list (string * Series)) :
  List.NoDup (map fst (prefix ++ (c, s) :: rest)) ->
  map (fun cs => if has_label c cs then (c, v) else cs) (prefix ++ (c, s) :: rest)
  = prefix ++ (c, v) :: rest.
Proof.
  intros Hnd.
  assert (Hother : forall l : list (string * Series), ~ In c (map fst l) ->
            map (fun cs => if has_label c cs then (c, v) else cs) l = l).
  { induction l as [|[c' s'] l IH]; simpl; intros H; [reflexivity|].
    unfold has_label at 1. simpl.
    destruct (String.eqb_spec c' c) as [->|_]; [tauto|].
    rewrite IH by tauto. reflexivity. }
  rewrite map_app in Hnd. simpl in Hnd.
  pose proof (List.NoDup_remove_2 _ _ _ Hnd) as Hc.
  rewrite map_app. simpl. unfold has_label at 2. simpl.
  rewrite String.eqb_refl.
  rewrite !Hother; [reflexivity| |]; intros H; apply Hc; apply in_or_app; auto.
Qed.

Lemma existsb_has_label (c : string) (s : Series) (prefix rest : list (string * Series)) :
  existsb (has_label c) (prefix ++ (c, s) :: rest) = true.
Proof.
  apply existsb_exists. exists (c, s). split.
  - apply in_or_app. right. left. reflexivity.
  - unfold has_label. simpl. apply String.eqb_refl.
Qed.

(** One turn of the loop replaces the column under [c] in the object
    [out], and nothing else in the store. *)
Lemma clean_step_spec (to_numeric : Series -> Series) (na : nat -> option string)
    (out : loc) (σ : gmap loc DataFrame) (n : nat) (c : string) (s : Series)
    (prefix rest : list (string * Series)) :
  σ !! out = Some (mkFrame n (prefix ++ (c, s) :: rest)) ->
  List.NoDup (map fst (prefix ++ (c, s) :: rest)) ->
  clean_step to_numeric na out c σ
  = Some (tt, <[out := mkFrame n (prefix ++ clean_entry to_numeric na (c, s) :: rest)]> σ).
Proof.
  intros Hout Hnd. unfold clean_step, bind, getitem_of. rewrite Hout.
  rewrite (getitem_unique_label _ c s);
    [|exact Hnd|simpl; apply in_or_app; right; left; reflexivity].
  simpl option_map. cbv iota beta.
  assert (Hset : forall v, setitem out c v σ
            = Some (tt, <[out := mkFrame n (prefix ++ (c, v) :: rest)]> σ)).
  { intros v. unfold setitem. rewrite Hout. unfold set_column. simpl.
    rewrite existsb_has_label, replace_unique_label by exact Hnd. reflexivity. }
  unfold clean_entry, clean_column. simpl fst. simpl snd.
  destruct (String.eqb c "col_9").
  - destruct (astype_strip_entries na s) as (ys & -> & _). apply Hset.
  - apply Hset.
Qed.

Lemma clean_loop_spec (to_numeric : Series -> Series) (na : nat -> option string)
    (out : loc) (n : nat) (rest : list (string * Series)) :
  forall (prefix : list (string * Series)) (σ : gmap loc DataFrame),
    σ !! out = Some (mkFrame n (prefix ++ rest)) ->
    List.NoDup (map fst (prefix ++ rest)) ->
    clean_loop to_numeric na out (map fst rest) σ
    = Some (tt, <[out := mkFrame n (prefix ++ map (clean_entry to_numeric na) rest)]> σ).
Proof.
  induction rest as [|[c s] rest IH]; intros prefix σ Hout Hnd.
  - simpl. unfold ret. rewrite insert_id by exact Hout. reflexivity.
  - simpl. unfold bind.
    rewrite (clean_step_spec to_numeric na out σ n c s prefix rest Hout Hnd).
    rewrite (IH (prefix ++ [clean_entry to_numeric na (c, s)])).
    + rewrite insert_insert_eq, <- List.app_assoc. reflexivity.
    + rewrite lookup_insert_eq, <- List.app_assoc. reflexivity.
    + rewrite <- List.app_assoc. simpl.
      rewrite map_app in Hnd |- *. exact Hnd.
Qed.

(** The run of [basic_structural_clean]: a new object holding the cleaned
    table, in a store that is otherwise the one before the call. *)
Lemma basic_structural_clean_run (to_numeric : Series -> Series)
    (na : nat -> option string)
    (σ : gmap loc DataFrame) (df : loc) (d : DataFrame) :
  σ !! df = Some d -> List.NoDup (columns d) ->
  basic_structural_clean to_numeric na df σ
  = Some (fresh (dom σ), <[fresh (dom σ) := clean_frame to_numeric na d]> σ).
Proof.
  intros Hdf Hnd. unfold basic_structural_clean, bind, copy, columns_of.
  rewrite Hdf. rewrite lookup_insert_eq. simpl option_map. cbv iota beta.
  destruct d as [n cols]. unfold columns in *. simpl in *.
  rewrite (clean_loop_spec to_numeric na (fresh (dom σ)) n cols []).
  - rewrite insert_insert_eq. reflexivity.
  - rewrite lookup_insert_eq. reflexivity.
  - exact Hnd.
Qed.

Lemma fresh_object (σ : gmap loc DataFrame) : σ !! fresh (dom σ) = None.
Proof. apply not_elem_of_dom. apply is_fresh. Qed.

Lemma clean_frame_labels (to_numeric : Series -> Series) (na : nat -> option string)
    (d : DataFrame) :
  columns (clean_frame to_numeric na d) = columns d.
Proof.
  unfold columns, clean_frame. simpl. rewrite map_map. reflexivity.
Qed.


Lemma raw_frame_labels : List.NoDup (columns raw_frame).
Proof.
  unfold columns, raw_frame. simpl.
  repeat constructor; simpl; intuition discriminate.
Qed.


Example clean_raw_frame :
  option_map (fun r => (snd r !! fst r, snd r !! 1%positive))
    (basic_structural_clean (to_numeric_by sample_read) nan_text 1%positive
       {[ 1%positive := raw_frame ]})
  = Some
      (Some (mkFrame 2
               [ ("col_0", Float64 [f64_of_int 7; nan]);
                 ("col_9", Object [Some "COSMIC"; Some "nan"]) ]),
       Some raw_frame).
Proof. vm_compute. reflexivity. Qed.


(** ** The run-time model on examples *)

Example format_4g_examples :
  map format_4g
    [ f64_of_frac 4 10; f64_sub (f64_of_frac 14 10) (f64_of_int 1);
      f64_of_frac 1 100000; f64_of_int 123456; f64_of_frac 19999 2;
      f64_of_int 5; S754_zero true; S754_infinity false ]
  = [ "0.4"; "0.4"; "1e-05"; "1.235e+05"; "1e+04"; "5"; "-0"; "inf" ].
Proof. vm_compute. reflexivity. Qed.

Example format_2f_examples :
  map format_2f
    [ f64_of_frac 1 8; f64_of_frac 5 1000; f64_of_frac 99999 1000;
      f64_of_int 100; S754_zero false ]
  = [ "0.12"; "0.01"; "100.00"; "100.00"; "0.00" ].
Proof. vm_compute. reflexivity. Qed.

Example str_float_examples :
  map str_float
    [ f64_of_frac 1 10; f64_of_frac 1 3; f64_of_int 5;
      f64_of_int 10000000000000000; f64_of_frac 1 10000;
      f64_sub (f64_of_frac 14 10) (f64_of_int 1); nan;
      S754_finite false 4503599627370496 (-76); S754_finite false 1 (-1074) ]
  = [ "0.1"; "0.3333333333333333"; "5.0"; "1e+16"; "0.0001";
      "0.3999999999999999"; "nan"; "5.960464477539063e-08"; "5e-324" ].
Proof. vm_compute. reflexivity. Qed.

Example signed_zeros_min_max :
  numeric_cells (Float64 [S754_zero true; S754_zero false]) = Some ("0", "0")
  /\ numeric_cells (Float64 [f64_of_int 2; f64_of_int (-3); nan]) = Some ("-3", "2").
Proof. vm_compute. split; reflexivity. Qed.

Example literals_are_correctly_rounded :
  f64_0_5 = f64_of_frac 1 2 /\ f64_0_95 = f64_of_frac 95 100.
Proof. vm_compute. split; reflexivity. Qed.

(** * Further properties *)

(** ** More on the monotonicity hint *)

Lemma SFcompare_antisym (a b : float64) :
  SFcompare b a = option_map CompOpp (SFcompare a b).
Proof.
  destruct a as [s|s| |s m e], b as [s'|s'| |s' m' e']; simpl;
    try reflexivity;
    try (destruct s; reflexivity); try (destruct s'; reflexivity);
    try (destruct s, s'; reflexivity).
  rewrite (Z.compare_antisym e e').
  change (Pos.compare_cont Eq m' m) with (Pos.compare_cont (CompOpp Eq) m' m).
  rewrite <- (Pos.compare_cont_antisym m m' Eq).
  destruct s, s'; simpl; try reflexivity;
    destruct (e ?= e'); simpl; try reflexivity;
    destruct (Pos.compare_cont Eq m m'); reflexivity.
Qed.

Lemma f64_leb_antisym (a b : float64) :
  f64_leb a b = true -> f64_leb b a = true -> f64_eqb b a = true.
Proof.
  unfold f64_leb, f64_eqb, SFleb, SFeqb. rewrite (SFcompare_antisym a b).
  destruct (SFcompare a b) as [[]|]; simpl; intros; congruence.
Qed.

Lemma f64_eqb_trans (a b c : float64) :
  f64_eqb c b = true -> f64_eqb b a = true -> f64_eqb c a = true.
Proof.
  unfold f64_eqb, SFeqb. intros Hcb Hba.
  destruct (SFcompare c b) as [[]|] eqn:Ecb; try discriminate.
  destruct (SFcompare b a) as [[]|] eqn:Eba; try discriminate.
  destruct (SFcompare_Eq_inv _ _ Ecb) as [[Zc Zb]| ->].
  - destruct (SFcompare_Eq_inv _ _ Eba) as [[_ Za]| <-].
    + rewrite SFcompare_zeros; auto.
    + rewrite SFcompare_zeros; auto.
  - rewrite Eba. reflexivity.
Qed.

Lemma both_ways_related {A : Type} (leb : A -> A -> bool) (R : A -> A -> Prop) :
  (forall a b, leb a b = true -> leb b a = true -> R b a) ->
  (forall a b c, R c b -> R b a -> R c a) ->
  forall (x : A) (rest : list A),
    ascending leb (x :: rest) = true ->
    ascending (fun a b => leb b a) (x :: rest) = true ->
    Forall (fun y => R y x) rest.
Proof.
  intros Hanti Htrans x rest. revert x.
  induction rest as [|y rest IH]; intros x Hup Hdown; [constructor|].
  change (leb x y && ascending leb (y :: rest) = true) in Hup.
  change (leb y x && ascending (fun a b => leb b a) (y :: rest) = true) in Hdown.
  apply andb_prop in Hup. apply andb_prop in Hdown.
  destruct Hup as [Hxy Hup]. destruct Hdown as [Hyx Hdown].
  pose proof (Hanti x y Hxy Hyx) as Ryx.
  constructor; [exact Ryx|].
  pose proof (IH y Hup Hdown) as Hrest.
  eapply List.Forall_impl; [|exact Hrest]. intros z Rzy. simpl in *.
  eapply Htrans; eassumption.
Qed.

(** A numeric column that is non-decreasing and non-increasing is constant. *)
Lemma both_ways_constant (s : Series) :
  is_numeric_dtype s = true -> has_values s ->
  is_monotonic_increasing (dropna s) = true ->
  is_monotonic_decreasing (dropna s) = true ->
  constant_values s.
Proof.
  unfold has_values, constant_values, empty.
  destruct (dropna s) as [[|x rest]|[|x rest]|xs] eqn:E; simpl;
    intros Hnum Hne Hinc Hdec; try discriminate.
  - apply (both_ways_related Z.leb (fun y x => y = x)); auto.
    + intros a b Hab Hba. apply Z.leb_le in Hab, Hba. lia.
    + intros; congruence.
  - apply andb_prop in Hinc, Hdec. destruct Hinc as [_ Hinc], Hdec as [_ Hdec].
    apply (both_ways_related f64_leb (fun y x => f64_eqb y x = true)); auto.
    + apply f64_leb_antisym.
    + apply f64_eqb_trans.
  - destruct s; discriminate.
Qed.

(** X1. A numeric column whose values that are not missing never decrease
    has the hint [monotonic_increasing], unless these values are all equal,
    in which case the hint is [not_monotonic]. *)
Theorem monotonic_hint_non_decreasing (s : Series) :
  is_numeric_dtype s = true -> has_values s ->
  is_monotonic_increasing (dropna s) = true ->
  (constant_values s -> _monotonic_hint s = "not_monotonic")
  /\ (~ constant_values s -> _monotonic_hint s = "monotonic_increasing").
Proof.
  intros Hnum Hne Hinc. unfold _monotonic_hint.
  unfold has_values in Hne. rewrite Hne, is_numeric_dropna, Hnum, Hinc.
  split.
  - intros Hc. destruct (constant_both_ways s Hnum Hc) as (_ & _ & ->). reflexivity.
  - intros Hc. destruct (is_monotonic_decreasing (dropna s)) eqn:Hdec; [|reflexivity].
    exfalso. apply Hc. apply both_ways_constant; assumption.
Qed.

Lemma monotonic_hint_non_decreasing_witness :
  is_numeric_dtype (Float64 [f64_of_int 1; nan; f64_of_int 1; f64_of_int 4]) = true
  /\ has_values (Float64 [f64_of_int 1; nan; f64_of_int 1; f64_of_int 4])
  /\ is_monotonic_increasing
       (dropna (Float64 [f64_of_int 1; nan; f64_of_int 1; f64_of_int 4])) = true
  /\ ~ constant_values (Float64 [f64_of_int 1; nan; f64_of_int 1; f64_of_int 4])
  /\ _monotonic_hint (Float64 [f64_of_int 1; nan; f64_of_int 1; f64_of_int 4])
     = "monotonic_increasing".
Proof.
  assert (Hc : ~ constant_values
                 (Float64 [f64_of_int 1; nan; f64_of_int 1; f64_of_int 4])).
  { unfold constant_values. simpl. intros H.
    inversion H as [|? ? _ H']. inversion H' as [|? ? H4 _]. discriminate H4. }
  destruct (monotonic_hint_non_decreasing
              (Float64 [f64_of_int 1; nan; f64_of_int 1; f64_of_int 4])
              eq_refl eq_refl eq_refl) as [_ H].
  exact (conj eq_refl (conj eq_refl (conj eq_refl (conj Hc (H Hc))))).
Defined.

Lemma ascending_snoc {A : Type} (leb : A -> A -> bool) (xs : list A) (x y : A) :
  ascending leb ((xs ++ [x]) ++ [y]) = ascending leb (xs ++ [x]) && leb x y.
Proof.
  induction xs as [|a xs IH].
  - simpl. rewrite andb_true_r. reflexivity.
  - destruct xs as [|b xs].
    + simpl. destruct (leb a x), (leb x y); reflexivity.
    + change (leb a b && ascending leb (((b :: xs) ++ [x]) ++ [y])
              = leb a b && ascending leb ((b :: xs) ++ [x]) && leb x y).
      rewrite IH. rewrite andb_assoc. reflexivity.
Qed.

Lemma ascending_rev {A : Type} (leb : A -> A -> bool) (xs : list A) :
  ascending leb (rev xs) = ascending (fun a b => leb b a) xs.
Proof.
  induction xs as [|x xs IH]; [reflexivity|].
  destruct xs as [|y xs]; [reflexivity|].
  change (ascending leb ((rev xs ++ [y]) ++ [x])
          = leb y x && ascending (fun a b => leb b a) (y :: xs)).
  rewrite ascending_snoc. change (rev xs ++ [y]) with (rev (y :: xs)).
  rewrite IH. apply andb_comm.
Qed.

Lemma filter_rev_list {A : Type} (f : A -> bool) (xs : list A) :
  List.filter f (rev xs) = rev (List.filter f xs).
Proof.
  induction xs as [|x xs IH]; [reflexivity|]. simpl.
  rewrite List.filter_app, IH. simpl. destruct (f x); simpl;
    [reflexivity|apply app_nil_r].
Qed.

Lemma dropna_reverse (s : Series) : dropna (reverse s) = reverse (dropna s).
Proof. destruct s; simpl; try rewrite filter_rev_list; reflexivity. Qed.

Lemma forallb_rev {A : Type} (f : A -> bool) (xs : list A) :
  forallb f (rev xs) = forallb f xs.
Proof.
  induction xs as [|x xs IH]; [reflexivity|]. simpl.
  rewrite forallb_app, IH. simpl. rewrite andb_true_r. apply andb_comm.
Qed.

Lemma monotonic_reverse (s : Series) :
  is_monotonic_increasing (reverse s) = is_monotonic_decreasing s
  /\ is_monotonic_decreasing (reverse s) = is_monotonic_increasing s.
Proof.
  destruct s as [xs|xs|xs]; simpl; unfold no_nan;
    rewrite ?forallb_rev, !ascending_rev; auto.
Qed.

(** X2. Reading a column backwards exchanges the hints
    [monotonic_increasing] and [monotonic_decreasing] and keeps every other
    hint. *)
Theorem monotonic_hint_reverse (s : Series) :
  _monotonic_hint (reverse s) = mirror_hint (_monotonic_hint s).
Proof.
  unfold _monotonic_hint. rewrite dropna_reverse.
  destruct (monotonic_reverse (dropna s)) as [-> ->].
  replace (empty (reverse (dropna s))) with (empty (dropna s))
    by (destruct (dropna s); unfold empty; simpl; rewrite length_rev; reflexivity).
  replace (is_numeric_dtype (reverse (dropna s))) with (is_numeric_dtype (dropna s))
    by (destruct (dropna s); reflexivity).
  destruct (empty (dropna s)); [reflexivity|].
  destruct (is_numeric_dtype (dropna s)); [|reflexivity]. simpl negb. cbv iota.
  destruct (is_monotonic_increasing (dropna s)),
           (is_monotonic_decreasing (dropna s)); reflexivity.
Qed.

(** ** More on the zero fraction and the roles *)

Lemma zeros_in_dropna (s : Series) : zeros_in (dropna s) = zeros_in s.
Proof.
  destruct s as [xs|xs|xs]; simpl; try reflexivity.
  induction xs as [|x xs IH]; [reflexivity|]. simpl.
  destruct x as [b|b| |b m e]; simpl; rewrite IH; reflexivity.
Qed.

(** X3. A numeric column with a value that is not missing and without any
    zero (fewer than 2^53 rows) has the zero fraction [0.00%]. *)
Theorem zero_fraction_without_zero (s : Series) :
  is_numeric_dtype s = true -> has_values s -> zeros_in s = 0%nat ->
  Z.of_nat (size s) < 2 ^ 53 ->
  _zero_fraction s = "0.00%".
Proof.
  intros Hnum Hne Hz Hsz.
  assert (Hpos : (0 < size (dropna s))%nat).
  { unfold has_values, empty in Hne. apply Nat.eqb_neq in Hne. lia. }
  pose proof (size_dropna s) as Hle.
  unfold _zero_fraction. rewrite Hne, is_numeric_dropna, Hnum, mean_eq0.
  rewrite zeros_in_dropna, Hz.
  destruct (f64_of_int_finite (Z.of_nat (size (dropna s)))) as (m & e & ->); [lia|].
  reflexivity.
Qed.

Lemma zero_fraction_without_zero_witness :
  is_numeric_dtype (Float64 [f64_of_int 3; nan; f64_of_frac 1 2]) = true
  /\ has_values (Float64 [f64_of_int 3; nan; f64_of_frac 1 2])
  /\ zeros_in (Float64 [f64_of_int 3; nan; f64_of_frac 1 2]) = 0%nat
  /\ Z.of_nat (size (Float64 [f64_of_int 3; nan; f64_of_frac 1 2])) < 2 ^ 53
  /\ _zero_fraction (Float64 [f64_of_int 3; nan; f64_of_frac 1 2]) = "0.00%".
Proof.
  assert (Hs : Z.of_nat (size (Float64 [f64_of_int 3; nan; f64_of_frac 1 2])) < 2 ^ 53)
    by (simpl; lia).
  exact (conj eq_refl (conj eq_refl (conj eq_refl (conj Hs
    (zero_fraction_without_zero (Float64 [f64_of_int 3; nan; f64_of_frac 1 2])
       eq_refl eq_refl eq_refl Hs))))).
Defined.

(** X4. The three hints read the values that are not missing only:
    removing the missing entries of a column changes none of them. *)
Theorem hints_ignore_missing_entries (s : Series) :
  _monotonic_hint (dropna s) = _monotonic_hint s
  /\ _zero_fraction (dropna s) = _zero_fraction s
  /\ _constant_hint (dropna s) = _constant_hint s.
Proof.
  unfold _monotonic_hint, _zero_fraction, _constant_hint.
  rewrite !dropna_idem. auto.
Qed.

Lemma few_and_close_rule (s : Series) :
  is_numeric_dtype s = true ->
  few_and_close (dropna s) = Some ((nunique s <=? 5)%nat && range_within_half s).
Proof.
  intros Hnum. unfold few_and_close, range_within_half.
  rewrite nunique_dropna.
  destruct (value_range_numeric s Hnum) as (mx & mn & Hmx & Hmn & ->).
  rewrite Hmx, Hmn. destruct (nunique s <=? 5)%nat; reflexivity.
Qed.

Lemma near_constant_str_head (n : nat) (rng : float64) :
  exists tail, near_constant_str n rng = String "n" (String "e" tail).
Proof. unfold near_constant_str. eexists. reflexivity. Qed.

(** X5. The constant hint and the role agree on what is near-constant: for
    a numeric column that does not have exactly one distinct value, the role
    is [near-constant reading (low variation)] exactly when the constant
    hint is a [near_constant(...)] text. *)
Theorem near_constant_hint_and_role_agree (col : string) (s : Series) :
  is_numeric_dtype s = true -> nunique s <> 1%nat ->
  (possible_role col s = Some "near-constant reading (low variation)"
   <-> exists rng, _constant_hint s = Some (near_constant_str (nunique s) rng)).
Proof.
  intros Hnum Hn.
  assert (Hrole : possible_role col s
                  = if (nunique s <=? 5)%nat && range_within_half s
                    then Some "near-constant reading (low variation)"
                    else if mostly_zeros_test s
                         then Some "flag/status/unused channel (mostly zeros)"
                         else if counter_test s
                              then Some "counter or time-like variable (monotonic)"
                              else Some "unknown").
  { unfold possible_role. pose proof Hn as Hn'. apply Nat.eqb_neq in Hn'.
    rewrite Hn', andb_false_r, Hnum, (few_and_close_rule s Hnum).
    destruct ((nunique s <=? 5)%nat && range_within_half s); reflexivity. }
  rewrite Hrole.
  destruct (has_values_or_all_missing s) as [Hv|Hm].
  - assert (H1 : (1 < nunique s)%nat).
    { destruct (nunique s) as [|[|k]] eqn:E; [|congruence|lia].
      exfalso. unfold has_values, empty in Hv. unfold nunique in E.
      destruct (dropna s) as [[|x xs]|[|x xs]|[|x xs]]; simpl in *; discriminate. }
    rewrite (constant_hint_cases s Hv H1). unfold near_constant_rule. rewrite Hnum.
    simpl andb.
    destruct ((nunique s <=? 5)%nat && range_within_half s).
    + split; eauto.
    + split.
      * destruct (mostly_zeros_test s); [discriminate|].
        destruct (counter_test s); discriminate.
      * intros [rng H]. destruct (near_constant_str_head (nunique s) rng) as [tail E].
        rewrite E in H. unfold low_cardinality_rule, low_cardinality_str in H.
        destruct (nunique s <=? 3)%nat; discriminate H.
  - assert (Hr : range_within_half s = false).
    { unfold range_within_half, value_range, series_max, series_min.
      rewrite dropna_idem.
      destruct (empty_dropna_cases s Hm) as [E|[E|E]]; rewrite E; reflexivity. }
    rewrite Hr, andb_false_r. unfold _constant_hint. rewrite Hm. split.
    + destruct (mostly_zeros_test s); [discriminate|].
      destruct (counter_test s); discriminate.
    + intros [rng H]. destruct (near_constant_str_head (nunique s) rng) as [tail E].
      rewrite E in H. discriminate H.
Qed.

Lemma near_constant_hint_and_role_agree_witness :
  is_numeric_dtype (Float64 [f64_of_int 1; f64_of_frac 14 10; nan; f64_of_frac 12 10]) = true
  /\ nunique (Float64 [f64_of_int 1; f64_of_frac 14 10; nan; f64_of_frac 12 10]) <> 1%nat
  /\ _constant_hint (Float64 [f64_of_int 1; f64_of_frac 14 10; nan; f64_of_frac 12 10])
     = Some "near_constant(nunique=3, range=0.4)"
  /\ possible_role "col_2" (Float64 [f64_of_int 1; f64_of_frac 14 10; nan; f64_of_frac 12 10])
     = Some "near-constant reading (low variation)".
Proof.
  assert (Hn : nunique (Float64 [f64_of_int 1; f64_of_frac 14 10; nan; f64_of_frac 12 10])
               <> 1%nat) by (vm_compute; discriminate).
  assert (Hc : _constant_hint (Float64 [f64_of_int 1; f64_of_frac 14 10; nan; f64_of_frac 12 10])
               = Some "near_constant(nunique=3, range=0.4)") by (vm_compute; reflexivity).
  split; [reflexivity|]. split; [exact Hn|]. split; [exact Hc|].
  apply (near_constant_hint_and_role_agree "col_2"
           (Float64 [f64_of_int 1; f64_of_frac 14 10; nan; f64_of_frac 12 10])
           eq_refl Hn).
  exists (f64_sub (f64_of_frac 14 10) (f64_of_int 1)). rewrite Hc.
  vm_compute. reflexivity.
Defined.

(** X6. When no entry of a numeric column is missing, the mostly-zeros rule
    tests the very quotient that the zero fraction reports: such a column,
    once past the constant and near-constant rules, has the role
    [flag/status/unused channel (mostly zeros)] exactly when it has a value
    and the zeros divided by the values that are not missing exceed 0.95. *)
Theorem mostly_zeros_without_missing (col : string) (s : Series) :
  is_numeric_dtype s = true -> size (dropna s) = size s ->
  nunique s <> 1%nat -> near_constant_test s = false ->
  (possible_role col s = Some "flag/status/unused channel (mostly zeros)"
   <-> has_values s
       /\ f64_ltb f64_0_95
            (f64_div (f64_of_int (Z.of_nat (zeros_in (dropna s))))
                     (f64_of_int (Z.of_nat (size (dropna s))))) = true).
Proof.
  intros Hnum Hsz Hn Hnear.
  rewrite (possible_role_from_zeros_rule col s Hnum Hn Hnear).
  unfold mostly_zeros_test. rewrite mean_eq0, zeros_in_dropna, Hsz.
  destruct (has_values_or_all_missing s) as [Hv|Hm].
  - pose proof (zero_fraction_defined s Hnum Hv) as Hd.
    apply String.eqb_neq in Hd. rewrite Hd. simpl negb. simpl andb.
    destruct (f64_ltb f64_0_95 _); split; auto.
    + destruct (counter_test s); discriminate.
    + intros [_ H]. discriminate H.
  - rewrite (zero_fraction_undefined s Hm). simpl negb. simpl andb. split.
    + destruct (counter_test s); discriminate.
    + intros [Hv _]. unfold has_values, all_missing in *. congruence.
Qed.

Lemma mostly_zeros_without_missing_witness :
  is_numeric_dtype (Int64 (replicate 39 0 ++ [7])) = true
  /\ size (dropna (Int64 (replicate 39 0 ++ [7]))) = size (Int64 (replicate 39 0 ++ [7]))
  /\ nunique (Int64 (replicate 39 0 ++ [7])) <> 1%nat
  /\ near_constant_test (Int64 (replicate 39 0 ++ [7])) = false
  /\ possible_role "col_5" (Int64 (replicate 39 0 ++ [7]))
     = Some "flag/status/unused channel (mostly zeros)".
Proof.
  assert (Hn : nunique (Int64 (replicate 39 0 ++ [7])) <> 1%nat)
    by (vm_compute; discriminate).
  assert (Ht : near_constant_test (Int64 (replicate 39 0 ++ [7])) = false)
    by (vm_compute; reflexivity).
  split; [reflexivity|]. split; [reflexivity|]. split; [exact Hn|].
  split; [exact Ht|].
  apply (mostly_zeros_without_missing "col_5" (Int64 (replicate 39 0 ++ [7]))
           eq_refl eq_refl Hn Ht).
  split; vm_compute; reflexivity.
Defined.

(** X7. The role [label/type (constant category)] is given to the column
    [col_9] with exactly one distinct value and to no other column, and a
    text column has no other role than this one and [unknown]. *)
Theorem label_role_only_for_trailing_column (col : string) (s : Series) :
  (possible_role col s = Some "label/type (constant category)"
   <-> col = "col_9" /\ nunique s = 1%nat)
  /\ (is_numeric_dtype s = false ->
      possible_role col s = Some "label/type (constant category)"
      \/ possible_role col s = Some "unknown").
Proof.
  unfold possible_role.
  destruct (String.eqb_spec col "col_9") as [->|Hc];
    destruct (Nat.eqb_spec (nunique s) 1) as [Hn|Hn]; simpl andb; cbv iota.
  - split; [split; auto|auto].
  - split; [|destruct (is_numeric_dtype s); [discriminate|auto]].
    split; [|intros [_ H]; contradiction].
    destruct (is_numeric_dtype s) eqn:Hnum; [|discriminate].
    assert (Hnd : is_numeric_dtype (dropna s) = true)
      by (rewrite is_numeric_dropna; exact Hnum).
    destruct (few_and_close_numeric _ Hnd) as [[|] ->]; [discriminate|].
    repeat match goal with |- context [if ?b then _ else _] => destruct b end;
      discriminate.
  - split; [|destruct (is_numeric_dtype s); [discriminate|auto]].
    split; [|intros [H _]; contradiction].
    destruct (is_numeric_dtype s); discriminate.
  - split; [|destruct (is_numeric_dtype s); [discriminate|auto]].
    split; [|intros [H _]; contradiction].
    destruct (is_numeric_dtype s) eqn:Hnum; [|discriminate].
    assert (Hnd : is_numeric_dtype (dropna s) = true)
      by (rewrite is_numeric_dropna; exact Hnum).
    destruct (few_and_close_numeric _ Hnd) as [[|] ->]; [discriminate|].
    repeat match goal with |- context [if ?b then _ else _] => destruct b end;
      discriminate.
Qed.

Lemma label_role_only_for_trailing_column_witness :
  is_numeric_dtype (Object [Some "COSMIC"; Some "COSMIC"]) = false
  /\ possible_role "col_9" (Object [Some "COSMIC"; Some "COSMIC"])
     = Some "label/type (constant category)"
  /\ (possible_role "col_3" (Object [Some "COSMIC"; Some "COSMIC"])
      = Some "label/type (constant category)"
      \/ possible_role "col_3" (Object [Some "COSMIC"; Some "COSMIC"])
         = Some "unknown").
Proof.
  split; [reflexivity|]. split.
  - apply (label_role_only_for_trailing_column "col_9"
             (Object [Some "COSMIC"; Some "COSMIC"])).
    split; reflexivity.
  - apply (label_role_only_for_trailing_column "col_3"
             (Object [Some "COSMIC"; Some "COSMIC"])).
    reflexivity.
Defined.

(** X8. In the report, the cells of a column of object dtype are written
    without the helpers: minimum and maximum are empty and the zero fraction
    and the monotonicity hint are [n/a], also for a column whose values are
    all missing, for which [_monotonic_hint] itself returns [empty]. The
    cells of a numeric column are the results of the helpers. *)
Theorem report_cells_by_dtype (col : string) (s : Series) :
  exists r : ColumnSummary,
    summarize col s = Some r
    /\ cs_nunique r = nunique s
    /\ (is_numeric_dtype s = false ->
        cs_min r = "" /\ cs_max r = "" /\ cs_zero_fraction r = "n/a"
        /\ cs_monotonic r = "n/a"
        /\ (all_missing s ->
            _monotonic_hint s = "empty" /\ cs_monotonic r <> _monotonic_hint s))
    /\ (is_numeric_dtype s = true ->
        cs_zero_fraction r = _zero_fraction s
        /\ cs_monotonic r = _monotonic_hint s).
Proof.
  unfold summarize. rewrite possible_role_chain, nunique_dropna.
  destruct (constant_hint_total s) as [hint ->].
  destruct (is_numeric_dtype s) eqn:Hnum.
  - destruct (numeric_cells_total s Hnum) as [[mn mx] ->]. simpl.
    eexists. split; [reflexivity|]. simpl. split; [reflexivity|].
    split; [discriminate|auto].
  - eexists. split; [reflexivity|]. simpl. split; [reflexivity|].
    split; [|discriminate]. intros _. repeat split; try reflexivity.
    + apply all_missing_monotonic_hint. assumption.
    + rewrite all_missing_monotonic_hint by assumption. discriminate.
Qed.

Lemma report_cells_by_dtype_witness :
  is_numeric_dtype (Object [None; None]) = false
  /\ all_missing (Object [None; None])
  /\ exists r : ColumnSummary,
       summarize "col_3" (Object [None; None]) = Some r
       /\ cs_monotonic r = "n/a"
       /\ _monotonic_hint (Object [None; None]) = "empty".
Proof.
  split; [reflexivity|]. split; [reflexivity|].
  destruct (report_cells_by_dtype "col_3" (Object [None; None]))
    as (r & Hr & _ & Hobj & _).
  destruct (Hobj eq_refl) as (_ & _ & _ & Hm & Hall).
  destruct (Hall eq_refl) as [He _].
  exists r. auto.
Defined.

(** ** More on the structural cleaning *)

(** X9. [strip] removes white space at both ends and nothing else: the
    text is its stripped text between two runs of white space, the stripped
    text neither starts nor ends with white space, and a text without white
    space at its ends is left as it is (so stripping twice is stripping
    once). *)
Theorem strip_removes_outer_spaces (t : string) :
  (exists l r, t = l +:+ strip t +:+ r /\ only_spaces l /\ only_spaces r)
  /\ stripped (strip t)
  /\ (stripped t -> strip t = t)
  /\ strip (strip t) = strip t.
Proof.
  split; [|split; [apply strip_stripped|split; [apply strip_fixed|]]].
  - destruct (lstrip_split t) as (l & El & Hl).
    destruct (rstrip_split (lstrip t)) as (r & Er & Hr).
    exists l, r. unfold strip. rewrite <- Er. auto.
  - apply strip_fixed, strip_stripped.
Qed.

Lemma strip_removes_outer_spaces_witness :
  stripped "COSMIC ray"
  /\ strip "COSMIC ray" = "COSMIC ray"
  /\ strip "  COSMIC ray " = "COSMIC ray".
Proof.
  assert (H : stripped "COSMIC ray") by (split; reflexivity).
  split; [exact H|]. split; [|reflexivity].
  destruct (strip_removes_outer_spaces "COSMIC ray") as (_ & _ & Hfix & _).
  exact (Hfix H).
Defined.

Lemma to_numeric_idem (read_number : string -> option reading)
    (to_numeric : Series -> Series) (s : Series) :
  to_numeric_contract read_number to_numeric ->
  to_numeric (to_numeric s) = to_numeric s.
Proof.
  intros H. destruct (H s) as (Hn & _). destruct (H (to_numeric s)) as (_ & _ & E).
  destruct (to_numeric s); [exact E|exact E|discriminate].
Qed.

(** A row left missing by [astype(str)] is a row for which no text is
    written. *)
Lemma astype_missing_row (na : nat -> option string) (s : Series)
    (es : list (option string)) (i : nat) :
  astype_str na s = Object es -> es !! i = Some None -> na i = None.
Proof.
  destruct s as [xs|xs|xs]; simpl; intros E; injection E as <-.
  - change (map (fun n => Some (str_int n)) xs)
      with ((fun n => Some (str_int n)) <$> xs).
    rewrite list_lookup_fmap. destruct (xs !! i); discriminate.
  - rewrite list_lookup_imap. destruct (xs !! i) as [x|]; simpl; [|discriminate].
    destruct (is_nan x); congruence.
  - rewrite list_lookup_imap. destruct (xs !! i) as [[t|]|]; simpl; congruence.
Qed.

Lemma strip_text_idem (na : nat -> option string) (s v : Series) :
  str_strip (astype_str na s) = Some v ->
  str_strip (astype_str na v) = Some v.
Proof.
  destruct (astype_str na s) as [es|es|es] eqn:Es; simpl; try discriminate.
  intros H. injection H as <-. simpl. do 2 f_equal.
  apply list_eq. intros i.
  change (map (option_map strip) ?l) with (option_map strip <$> l).
  rewrite !list_lookup_fmap, list_lookup_imap, list_lookup_fmap.
  destruct (es !! i) as [[t|]|] eqn:Ei; simpl; [| |reflexivity].
  - rewrite (strip_fixed (strip t)) by apply strip_stripped. reflexivity.
  - rewrite (astype_missing_row na s es i Es Ei). reflexivity.
Qed.

Lemma clean_column_idem (read_number : string -> option reading)
    (to_numeric : Series -> Series) (na : nat -> option string)
    (c : string) (s : Series) :
  to_numeric_contract read_number to_numeric ->
  clean_column to_numeric na c (clean_column to_numeric na c s)
  = clean_column to_numeric na c s.
Proof.
  intros Hnum. unfold clean_column. destruct (String.eqb c "col_9").
  - destruct (astype_strip_entries na s) as (ys & E & _). rewrite E.
    rewrite (strip_text_idem na s _ E). reflexivity.
  - apply (to_numeric_idem read_number), Hnum.
Qed.

Lemma clean_frame_idem (read_number : string -> option reading)
    (to_numeric : Series -> Series) (na : nat -> option string) (d : DataFrame) :
  to_numeric_contract read_number to_numeric ->
  clean_frame to_numeric na (clean_frame to_numeric na d) = clean_frame to_numeric na d.
Proof.
  intros Hnum. unfold clean_frame. simpl. f_equal. rewrite map_map.
  apply map_ext. intros [c s]. unfold clean_entry. simpl.
  rewrite (clean_column_idem read_number) by exact Hnum. reflexivity.
Qed.

(** X10. Cleaning is idempotent: [basic_structural_clean] applied to the
    table it returned gives one more new object, with the same contents. *)
Theorem clean_twice (read_number : string -> option reading)
    (to_numeric : Series -> Series) (str_missing : nat -> option string)
    (σ : gmap loc DataFrame) (df : loc) (d : DataFrame) :
  to_numeric_contract read_number to_numeric ->
  σ !! df = Some d ->
  List.NoDup (columns d) ->
  exists (out1 out2 : loc) (σ1 σ2 : gmap loc DataFrame) (d' : DataFrame),
    basic_structural_clean to_numeric str_missing df σ = Some (out1, σ1)
    /\ basic_structural_clean to_numeric str_missing out1 σ1 = Some (out2, σ2)
    /\ out2 <> out1 /\ out2 <> df
    /\ σ2 !! out1 = Some d' /\ σ2 !! out2 = Some d' /\ σ2 !! df = Some d.
Proof.
  intros Hnum Hdf Hnd.
  set (out1 := fresh (dom σ)).
  set (σ1 := <[out1 := clean_frame to_numeric str_missing d]> σ).
  assert (H1 : σ1 !! out1 = Some (clean_frame to_numeric str_missing d))
    by apply lookup_insert_eq.
  assert (Hnd1 : List.NoDup (columns (clean_frame to_numeric str_missing d)))
    by (rewrite clean_frame_labels; exact Hnd).
  assert (Hne1 : out1 <> df).
  { intros E. pose proof (fresh_object σ) as F. fold out1 in F.
    rewrite E in F. congruence. }
  assert (Hdf1 : σ1 !! df = Some d)
    by (unfold σ1; rewrite lookup_insert_ne by exact Hne1; exact Hdf).
  set (out2 := fresh (dom σ1)).
  pose proof (fresh_object σ1) as F2. fold out2 in F2.
  assert (Hne2 : out2 <> out1) by (intros E; rewrite E in F2; congruence).
  assert (Hne3 : out2 <> df) by (intros E; rewrite E in F2; congruence).
  exists out1, out2, σ1,
         (<[out2 := clean_frame to_numeric str_missing
                      (clean_frame to_numeric str_missing d)]> σ1),
         (clean_frame to_numeric str_missing d).
  split; [apply basic_structural_clean_run; assumption|].
  split; [apply basic_structural_clean_run; assumption|].
  split; [exact Hne2|]. split; [exact Hne3|].
  split; [rewrite lookup_insert_ne by exact Hne2; exact H1|].
  split; [rewrite lookup_insert_eq, (clean_frame_idem read_number) by exact Hnum;
          reflexivity|].
  rewrite lookup_insert_ne by exact Hne3. exact Hdf1.
Qed.

Lemma clean_twice_witness :
  to_numeric_contract sample_read (to_numeric_by sample_read)
  /\ ({[ 1%positive := raw_frame ]} : gmap loc DataFrame) !! 1%positive = Some raw_frame
  /\ List.NoDup (columns raw_frame)
  /\ exists (out1 out2 : loc) (σ1 σ2 : gmap loc DataFrame) (d' : DataFrame),
       basic_structural_clean (to_numeric_by sample_read) stays_missing 1%positive
         {[ 1%positive := raw_frame ]}
       = Some (out1, σ1)
       /\ basic_structural_clean (to_numeric_by sample_read) stays_missing out1 σ1
          = Some (out2, σ2)
       /\ out2 <> out1 /\ out2 <> 1%positive
       /\ σ2 !! out1 = Some d' /\ σ2 !! out2 = Some d'
       /\ σ2 !! 1%positive = Some raw_frame.
Proof.
  split; [apply to_numeric_by_contract|]. split; [reflexivity|].
  split; [exact raw_frame_labels|].
  apply (clean_twice sample_read (to_numeric_by sample_read) stays_missing
           {[ 1%positive := raw_frame ]} 1%positive raw_frame).
  - apply to_numeric_by_contract.
  - reflexivity.
  - exact raw_frame_labels.
Defined.

Lemma replicate_nunique (n : nat) (t : string) :
  nunique (Object (replicate (S n) (Some t))) = 1%nat.
Proof.
  unfold nunique.
  assert (E : dropna (Object (replicate (S n) (Some t)))
              = Object (Some t :: replicate n (Some t))).
  { simpl. f_equal. f_equal. induction n as [|n IH]; [reflexivity|]. simpl.
    rewrite IH. reflexivity. }
  rewrite E. rewrite unique_by_single; [reflexivity|].
  intros y Hy. apply list_elem_of_In, elem_of_replicate in Hy.
  destruct Hy as [-> _]. simpl. apply String.eqb_refl.
Qed.

Lemma filter_nil {A : Type} (f : A -> bool) (l : list A) (i : nat) (x : A) :
  List.filter f l = [] -> l !! i = Some x -> f x = false.
Proof.
  revert i. induction l as [|a l IH]; intros i H Hi; [discriminate|].
  simpl in H. destruct (f a) eqn:E; [discriminate|].
  destruct i as [|i]; simpl in Hi; [congruence|]. apply (IH i H Hi).
Qed.

(** [astype(str)] of a column whose entries are all missing. *)
Lemma all_missing_astype_str (na : nat -> option string) (o : option string)
    (s : Series) :
  all_missing s -> (forall i, (i < size s)%nat -> na i = o) ->
  astype_str na s = Object (replicate (size s) o).
Proof.
  unfold all_missing, empty. destruct s as [xs|xs|xs]; simpl; intros H Hna.
  - apply Nat.eqb_eq in H. destruct xs; [reflexivity|discriminate].
  - apply Nat.eqb_eq, length_zero_iff_nil in H.
    f_equal. apply list_eq. intros i. rewrite list_lookup_imap.
    destruct (xs !! i) as [x|] eqn:Ei; simpl.
    + pose proof (filter_nil _ _ _ _ H Ei) as Hx. apply negb_false_iff in Hx.
      rewrite Hx. apply lookup_lt_Some in Ei.
      rewrite lookup_replicate_2 by exact Ei. rewrite (Hna i Ei). reflexivity.
    + apply lookup_ge_None in Ei. symmetry. apply lookup_ge_None.
      rewrite length_replicate. exact Ei.
  - apply Nat.eqb_eq, length_zero_iff_nil in H.
    f_equal. apply list_eq. intros i. rewrite list_lookup_imap.
    destruct (xs !! i) as [x|] eqn:Ei; simpl.
    + pose proof (filter_nil _ _ _ _ H Ei) as Hx.
      destruct x as [t|]; [discriminate Hx|].
      apply lookup_lt_Some in Ei.
      rewrite lookup_replicate_2 by exact Ei. rewrite (Hna i Ei). reflexivity.
    + apply lookup_ge_None in Ei. symmetry. apply lookup_ge_None.
      rewrite length_replicate. exact Ei.
Qed.

Lemma strip_replicate (n : nat) (o : option string) :
  map (option_map strip) (replicate n o) = replicate n (option_map strip o).
Proof. induction n as [|n IH]; [reflexivity|]. simpl. rewrite IH. reflexivity. Qed.

Lemma all_missing_replicate (n : nat) : all_missing (Object (replicate n None)).
Proof.
  unfold all_missing. simpl.
  induction n as [|n IH]; [reflexivity|exact IH].
Qed.

(** X13. What the cleaning makes of a column [col_9] that is entirely
    missing depends on [astype(str)]. Where it writes a text for a missing
    entry (pandas 2), every entry becomes this text, stripped, and the
    profile takes the column for a constant label: the constant hint is
    [constant(...)] and the role [label/type (constant category)]. Where it
    leaves the entry missing (pandas 3), the column stays entirely missing:
    the constant hint is [empty] and the role [unknown]. *)
Theorem missing_label_column_after_cleaning (to_numeric : Series -> Series)
    (str_missing : nat -> option string) (s : Series) :
  all_missing s -> (0 < size s)%nat ->
  (forall t : string,
     (forall i, (i < size s)%nat -> str_missing i = Some t) ->
     clean_column to_numeric str_missing "col_9" s
     = Object (replicate (size s) (Some (strip t)))
     /\ _constant_hint (clean_column to_numeric str_missing "col_9" s)
        = Some ("constant(" +:+ strip t +:+ ")")
     /\ possible_role "col_9" (clean_column to_numeric str_missing "col_9" s)
        = Some "label/type (constant category)")
  /\ ((forall i, (i < size s)%nat -> str_missing i = None) ->
      clean_column to_numeric str_missing "col_9" s = Object (replicate (size s) None)
      /\ _constant_hint (clean_column to_numeric str_missing "col_9" s) = Some "empty"
      /\ possible_role "col_9" (clean_column to_numeric str_missing "col_9" s)
         = Some "unknown").
Proof.
  intros Hm Hpos. split.
  - intros t Hna.
    assert (E : clean_column to_numeric str_missing "col_9" s
                = Object (replicate (size s) (Some (strip t)))).
    { unfold clean_column. simpl String.eqb. cbv iota.
      rewrite (all_missing_astype_str str_missing (Some t) s Hm Hna). simpl.
      rewrite strip_replicate. reflexivity. }
    rewrite E. destruct (size s) as [|n]; [lia|].
    pose proof (replicate_nunique n (strip t)) as Hn.
    split; [reflexivity|]. split.
    + unfold _constant_hint. rewrite nunique_dropna, Hn. reflexivity.
    + unfold possible_role. rewrite Hn. reflexivity.
  - intros Hna.
    assert (E : clean_column to_numeric str_missing "col_9" s
                = Object (replicate (size s) None)).
    { unfold clean_column. simpl String.eqb. cbv iota.
      rewrite (all_missing_astype_str str_missing None s Hm Hna). simpl.
      rewrite strip_replicate. reflexivity. }
    rewrite E. pose proof (all_missing_replicate (size s)) as Hall.
    split; [reflexivity|]. split.
    + unfold _constant_hint. rewrite Hall. reflexivity.
    + apply all_missing_possible_role, Hall.
Qed.

Lemma missing_label_column_after_cleaning_witness :
  all_missing (Float64 [nan; nan]) /\ (0 < size (Float64 [nan; nan]))%nat
  /\ clean_column (to_numeric_by sample_read) nan_text "col_9" (Float64 [nan; nan])
     = Object [Some "nan"; Some "nan"]
  /\ possible_role "col_9"
       (clean_column (to_numeric_by sample_read) nan_text "col_9" (Float64 [nan; nan]))
     = Some "label/type (constant category)"
  /\ clean_column (to_numeric_by sample_read) stays_missing "col_9" (Float64 [nan; nan])
     = Object [None; None]
  /\ possible_role "col_9"
       (clean_column (to_numeric_by sample_read) stays_missing "col_9"
          (Float64 [nan; nan]))
     = Some "unknown".
Proof.
  assert (Hp : (0 < size (Float64 [nan; nan]))%nat) by (simpl; lia).
  destruct (missing_label_column_after_cleaning (to_numeric_by sample_read) nan_text
              (Float64 [nan; nan]) eq_refl Hp) as [Htext _].
  destruct (Htext "nan" (fun _ _ => eq_refl)) as (E & _ & R).
  destruct (missing_label_column_after_cleaning (to_numeric_by sample_read)
              stays_missing (Float64 [nan; nan]) eq_refl Hp) as [_ Hnone].
  destruct (Hnone (fun _ _ => eq_refl)) as (E' & _ & R').
  exact (conj eq_refl (conj Hp (conj E (conj R (conj E' R'))))).
Defined.

(** ** Loading the raw file *)

Lemma neutral_names_value :
  neutral_names
  = ["col_0"; "col_1"; "col_2"; "col_3"; "col_4"; "col_5"; "col_6"; "col_7";
     "col_8"; "col_9"].
Proof. reflexivity. Qed.

Lemma neutral_names_distinct : List.NoDup neutral_names.
Proof.
  rewrite neutral_names_value.
  repeat constructor; simpl; intuition discriminate.
Qed.

Lemma dropna_all_columns (t : RawTable) :
  length (raw_columns (dropna_all t)) = length (raw_columns t).
Proof. unfold dropna_all. simpl. apply length_map. Qed.

Lemma combine_fst {A B : Type} (l : list A) (l' : list B) :
  length l = length l' -> map fst (combine l l') = l.
Proof.
  revert l'. induction l as [|a l IH]; intros [|b l'] H; simpl in *;
    try discriminate; [reflexivity|]. rewrite IH by lia. reflexivity.
Qed.

Lemma combine_snd {A B : Type} (l : list A) (l' : list B) :
  length l = length l' -> map snd (combine l l') = l'.
Proof.
  revert l'. induction l as [|a l IH]; intros [|b l'] H; simpl in *;
    try discriminate; [reflexivity|]. rewrite IH by lia. reflexivity.
Qed.

(** What a successful call returns. *)
Lemma load_success (file : RawFile) (df : DataFrame) :
  load_munra_raw file = inr df ->
  exists t, file = Readable t /\ length (raw_columns t) = 10%nat
    /\ index_len df = raw_index_len (dropna_all t)
    /\ columns df = neutral_names
    /\ map snd (frame_columns df) = raw_columns (dropna_all t).
Proof.
  unfold load_munra_raw. destruct file as [| |t]; [discriminate|discriminate|].
  destruct (Nat.eqb_spec (length (raw_columns (dropna_all t))) 10) as [E|E];
    cbn [negb]; [|discriminate].
  intros H.
  assert (Hdf : df = mkFrame (raw_index_len (dropna_all t))
                             (combine neutral_names (raw_columns (dropna_all t))))
    by congruence.
  subst df. exists t. rewrite dropna_all_columns in E.
  split; [reflexivity|]. split; [exact E|]. split; [reflexivity|].
  unfold columns. cbn [frame_columns].
  rewrite combine_fst, combine_snd
    by (rewrite dropna_all_columns, E; reflexivity). auto.
Qed.

(** X15. The table that [load_munra_raw] returns has exactly the labels
    [col_0] to [col_9], in this order and pairwise different, over the
    columns of the file in their order. *)
Theorem load_neutral_labels (file : RawFile) (df : DataFrame) :
  load_munra_raw file = inr df ->
  columns df
  = ["col_0"; "col_1"; "col_2"; "col_3"; "col_4"; "col_5"; "col_6"; "col_7";
     "col_8"; "col_9"]
  /\ List.NoDup (columns df)
  /\ snd (shape df) = 10%nat
  /\ exists t, file = Readable t
       /\ map snd (frame_columns df) = map (select_series (rows_with_value t)) (raw_columns t).
Proof.
  intros H. destruct (load_success file df H) as (t & -> & Hn & _ & Hc & Hs).
  split; [rewrite Hc; apply neutral_names_value|].
  split; [rewrite Hc; apply neutral_names_distinct|].
  split.
  - unfold shape. simpl. rewrite <- (length_map snd), Hs, dropna_all_columns. exact Hn.
  - exists t. split; [reflexivity|]. exact Hs.
Qed.

Lemma load_neutral_labels_witness :
  load_munra_raw (Readable (mkRaw 2 (replicate 10 (Float64 [nan; f64_of_int 1]))))
  = inr (mkFrame 1 (combine neutral_names (replicate 10 (Float64 [f64_of_int 1]))))
  /\ columns (mkFrame 1 (combine neutral_names (replicate 10 (Float64 [f64_of_int 1]))))
     = ["col_0"; "col_1"; "col_2"; "col_3"; "col_4"; "col_5"; "col_6"; "col_7";
        "col_8"; "col_9"].
Proof.
  assert (H : load_munra_raw
                (Readable (mkRaw 2 (replicate 10 (Float64 [nan; f64_of_int 1]))))
              = inr (mkFrame 1 (combine neutral_names
                                        (replicate 10 (Float64 [f64_of_int 1])))))
    by reflexivity.
  split; [exact H|].
  exact (proj1 (load_neutral_labels _ _ H)).
Defined.

Lemma zip_with_nil_r {A B C : Type} (f : A -> B -> C) (l : list A) :
  zip_with f l [] = [].
Proof. destruct l; reflexivity. Qed.

Lemma select_rows_zip (mask a b : list bool) :
  select_rows mask (zip_with orb a b)
  = zip_with orb (select_rows mask a) (select_rows mask b).
Proof.
  revert a b. induction mask as [|m mask IH]; intros a b; [reflexivity|].
  destruct a as [|x a]; [reflexivity|].
  destruct b as [|y b]; [simpl; rewrite zip_with_nil_r; reflexivity|].
  simpl. destruct m; simpl; rewrite IH; reflexivity.
Qed.

Lemma select_rows_map {A B : Type} (f : A -> B) (mask : list bool) (xs : list A) :
  select_rows mask (map f xs) = map f (select_rows mask xs).
Proof.
  revert xs. induction mask as [|m mask IH]; intros [|x xs]; simpl; try reflexivity.
  destruct m; simpl; rewrite IH; reflexivity.
Qed.

Lemma notna_select (mask : list bool) (s : Series) :
  notna (select_series mask s) = select_rows mask (notna s).
Proof. destruct s; simpl; rewrite select_rows_map; reflexivity. Qed.

Lemma select_rows_fold (mask : list bool) (cols : list Series) (acc : list bool) :
  fold_left (fun m s => zip_with orb m (notna s))
            (map (select_series mask) cols) (select_rows mask acc)
  = select_rows mask (fold_left (fun m s => zip_with orb m (notna s)) cols acc).
Proof.
  revert acc. induction cols as [|s cols IH]; intros acc; [reflexivity|].
  simpl. rewrite notna_select, <- select_rows_zip. apply IH.
Qed.

Lemma fold_mask_length (cols : list Series) (acc : list bool) :
  (length (fold_left (fun m s => zip_with orb m (notna s)) cols acc) <= length acc)%nat.
Proof.
  revert acc. induction cols as [|s cols IH]; intros acc; simpl; [lia|].
  etransitivity; [apply IH|]. rewrite length_zip_with. lia.
Qed.

Lemma rows_with_value_length (t : RawTable) :
  (length (rows_with_value t) <= raw_index_len t)%nat.
Proof.
  unfold rows_with_value. etransitivity; [apply fold_mask_length|].
  rewrite length_replicate. lia.
Qed.

Lemma select_rows_false (mask : list bool) (n : nat) :
  (length mask <= n)%nat ->
  select_rows mask (replicate n false) = replicate (count_true mask) false.
Proof.
  revert n. induction mask as [|m mask IH]; intros n H; [reflexivity|].
  destruct n as [|n]; simpl in H; [lia|]. simpl.
  destruct m; unfold count_true; simpl; rewrite IH by lia; reflexivity.
Qed.

Lemma select_rows_self (mask : list bool) :
  select_rows mask mask = replicate (count_true mask) true.
Proof.
  induction mask as [|m mask IH]; [reflexivity|].
  simpl. destruct m; unfold count_true in *; simpl; rewrite IH; reflexivity.
Qed.

Lemma select_rows_length {A : Type} (mask : list bool) (xs : list A) :
  length xs = length mask -> length (select_rows mask xs) = count_true mask.
Proof.
  revert xs. induction mask as [|m mask IH]; intros [|x xs] H; simpl in *;
    try discriminate; [reflexivity|].
  destruct m; unfold count_true in *; simpl; rewrite IH by lia; reflexivity.
Qed.

Lemma select_rows_all {A : Type} (xs : list A) :
  select_rows (replicate (length xs) true) xs = xs.
Proof. induction xs as [|x xs IH]; [reflexivity|]. simpl. rewrite IH. reflexivity. Qed.

(** No row of [df.dropna(how="all")] is entirely missing. *)
Lemma dropna_all_rows (t : RawTable) :
  rows_with_value (dropna_all t) = replicate (raw_index_len (dropna_all t)) true.
Proof.
  unfold rows_with_value at 1. unfold dropna_all at 1 2. simpl.
  rewrite <- (select_rows_false (rows_with_value t) (raw_index_len t))
    by apply rows_with_value_length.
  rewrite select_rows_fold. fold (rows_with_value t). apply select_rows_self.
Qed.

Lemma size_select_series (mask : list bool) (s : Series) :
  size s = length mask -> size (select_series mask s) = count_true mask.
Proof. destruct s; simpl; apply select_rows_length. Qed.

Lemma select_series_all (s : Series) :
  select_series (replicate (size s) true) s = s.
Proof. destruct s; simpl; rewrite select_rows_all; reflexivity. Qed.

Lemma count_true_replicate (n : nat) : count_true (replicate n true) = n.
Proof.
  unfold count_true. induction n as [|n IH]; [reflexivity|]. simpl. rewrite IH.
  reflexivity.
Qed.

Lemma fold_mask_length_eq (cols : list Series) (acc : list bool) :
  Forall (fun s => size s = length acc) cols ->
  length (fold_left (fun m s => zip_with orb m (notna s)) cols acc) = length acc.
Proof.
  revert acc. induction cols as [|s cols IH]; intros acc H; [reflexivity|].
  inversion H as [|? ? Hs Hrest]; subst. simpl.
  assert (Hz : length (zip_with orb acc (notna s)) = length acc).
  { rewrite length_zip_with. destruct s; simpl in *; rewrite length_map; lia. }
  rewrite IH; [exact Hz|].
  eapply List.Forall_impl; [|exact Hrest]. intros s' Hs'. simpl in *. lia.
Qed.

Lemma rows_with_value_length_eq (t : RawTable) :
  raw_well_formed t -> length (rows_with_value t) = raw_index_len t.
Proof.
  intros H. unfold rows_with_value. rewrite fold_mask_length_eq.
  - apply length_replicate.
  - rewrite length_replicate. exact H.
Qed.

Lemma notna_lookup (s : Series) (i : nat) :
  (i < size s)%nat ->
  notna s !! i = Some (bool_decide (is_Some (value_at s i))).
Proof.
  intros Hi. destruct s as [xs|xs|xs]; simpl in *;
    apply lookup_lt_is_Some in Hi; destruct Hi as [x Hx];
    change (map ?f xs) with (f <$> xs); rewrite list_lookup_fmap, Hx; simpl.
  - reflexivity.
  - destruct (is_nan x); reflexivity.
  - destruct x; reflexivity.
Qed.

(** The mask of [dropna(how="all")], row by row. *)
Lemma fold_mask_lookup (n : nat) (cols : list Series) (i : nat) :
  Forall (fun s => size s = n) cols -> (i < n)%nat ->
  forall (acc : list bool) (b : bool),
    length acc = n -> acc !! i = Some b ->
    fold_left (fun m s => zip_with orb m (notna s)) cols acc !! i
    = Some (b || existsb (fun s => bool_decide (is_Some (value_at s i))) cols).
Proof.
  intros Hcols Hi. induction Hcols as [|s cols Hs _ IH]; intros acc b Hlen Hb.
  - simpl. rewrite orb_false_r. exact Hb.
  - simpl. rewrite (IH _ (b || bool_decide (is_Some (value_at s i)))).
    + rewrite orb_assoc. reflexivity.
    + rewrite length_zip_with.
      assert (length (notna s) = n)
        by (destruct s; simpl in *; rewrite length_map; exact Hs).
      lia.
    + rewrite lookup_zip_with, Hb. simpl.
      rewrite notna_lookup by (rewrite Hs; exact Hi). reflexivity.
Qed.

Lemma rows_with_value_lookup (t : RawTable) (i : nat) :
  raw_well_formed t -> (i < raw_index_len t)%nat ->
  rows_with_value t !! i = Some (row_has_value t i).
Proof.
  intros Hwf Hi. unfold rows_with_value, row_has_value.
  rewrite (fold_mask_lookup (raw_index_len t) _ i Hwf Hi _ false).
  - reflexivity.
  - apply length_replicate.
  - apply lookup_replicate_2, Hi.
Qed.

Lemma filter_seq_ge (p : nat -> bool) (a n k i : nat) :
  List.filter p (seq a n) !! k = Some i -> (a <= i)%nat.
Proof.
  intros H. apply list_elem_of_lookup_2, list_elem_of_In, filter_In in H.
  destruct H as [H _]. apply in_seq in H. lia.
Qed.

(** The rows that a mask keeps are the rows at the indices it marks. *)
Lemma select_rows_kept {A : Type} (p : nat -> bool) (xs : list A) :
  forall (mask : list bool) (a : nat),
    length mask = length xs ->
    (forall j, (j < length xs)%nat -> mask !! j = Some (p (a + j)%nat)) ->
    forall k i, List.filter p (seq a (length xs)) !! k = Some i ->
      select_rows mask xs !! k = xs !! (i - a)%nat.
Proof.
  induction xs as [|x xs IH]; intros mask a Hlen Hmask k i Hk; [discriminate|].
  destruct mask as [|b mask]; [discriminate|].
  assert (Hb : b = p a).
  { specialize (Hmask 0%nat). simpl in Hmask. rewrite Nat.add_0_r in Hmask.
    assert (Some b = Some (p a)) by (apply Hmask; lia). congruence. }
  assert (Hrest : forall j, (j < length xs)%nat -> mask !! j = Some (p (S a + j)%nat)).
  { intros j Hj. specialize (Hmask (S j)). simpl in Hmask.
    rewrite Nat.add_succ_r in Hmask. apply Hmask. lia. }
  simpl in Hlen. injection Hlen as Hlen.
  simpl in Hk. rewrite <- Hb in Hk. simpl. destruct b.
  - destruct k as [|k]; simpl in Hk.
    + injection Hk as <-. rewrite Nat.sub_diag. reflexivity.
    + pose proof (filter_seq_ge _ _ _ _ _ Hk) as Hge.
      simpl. rewrite (IH mask (S a) Hlen Hrest k i Hk).
      replace (i - a)%nat with (S (i - S a)) by lia. reflexivity.
  - pose proof (filter_seq_ge _ _ _ _ _ Hk) as Hge.
    rewrite (IH mask (S a) Hlen Hrest k i Hk).
    replace (i - a)%nat with (S (i - S a)) by lia. reflexivity.
Qed.

Lemma count_true_filter (p : nat -> bool) (mask : list bool) :
  forall a : nat,
    (forall j, (j < length mask)%nat -> mask !! j = Some (p (a + j)%nat)) ->
    count_true mask = length (List.filter p (seq a (length mask))).
Proof.
  induction mask as [|b mask IH]; intros a Hmask; [reflexivity|].
  assert (Hb : b = p a).
  { specialize (Hmask 0%nat). simpl in Hmask. rewrite Nat.add_0_r in Hmask.
    assert (Some b = Some (p a)) by (apply Hmask; lia). congruence. }
  assert (Hrest : forall j, (j < length mask)%nat -> mask !! j = Some (p (S a + j)%nat)).
  { intros j Hj. specialize (Hmask (S j)). simpl in Hmask.
    rewrite Nat.add_succ_r in Hmask. apply Hmask. lia. }
  simpl. rewrite <- Hb. unfold count_true in *. simpl.
  destruct b; simpl; rewrite (IH (S a) Hrest); reflexivity.
Qed.

Lemma Forall2_map_self {A B : Type} (R : A -> B -> Prop) (f : A -> B) (l : list A) :
  (forall x, In x l -> R x (f x)) -> Forall2 R l (map f l).
Proof.
  induction l as [|x l IH]; intros H; simpl; constructor.
  - apply H. left. reflexivity.
  - apply IH. intros y Hy. apply H. right. exact Hy.
Qed.

Lemma value_at_select (t : RawTable) (s : Series) (k i : nat) :
  raw_well_formed t -> size s = raw_index_len t ->
  rows_kept t !! k = Some i ->
  value_at (select_series (rows_with_value t) s) k = value_at s i.
Proof.
  intros Hwf Hs Hk. unfold rows_kept in Hk.
  pose proof (rows_with_value_length_eq t Hwf) as Hlen.
  assert (Hsel : forall (A : Type) (xs : list A), length xs = raw_index_len t ->
            select_rows (rows_with_value t) xs !! k = xs !! i).
  { intros A xs Hxs.
    rewrite (select_rows_kept (row_has_value t) xs (rows_with_value t) 0%nat) with (i := i).
    - rewrite Nat.sub_0_r. reflexivity.
    - congruence.
    - intros j Hj. apply rows_with_value_lookup; [exact Hwf|lia].
    - rewrite Hxs. exact Hk. }
  destruct s as [xs|xs|xs]; simpl in *; rewrite Hsel by exact Hs; reflexivity.
Qed.

(** X16. The rows of the table that [load_munra_raw] returns are the rows
    of the file that hold a value in one column at least, in their order:
    the table has as many rows as the file has of these, every column keeps
    its dtype and holds in its row [k] the entry of the [k]-th such row of
    the file, and no row of the table is missing in every column. A file in
    which every row holds a value is returned with all its rows. *)
Theorem load_keeps_rows_with_value (t : RawTable) (df : DataFrame) :
  raw_well_formed t ->
  load_munra_raw (Readable t) = inr df ->
  index_len df = length (rows_kept t)
  /\ Forall2 (fun s s' =>
                dtype s' = dtype s /\ size s' = index_len df
                /\ forall k i, rows_kept t !! k = Some i ->
                               value_at s' k = value_at s i)
             (raw_columns t) (map snd (frame_columns df))
  /\ (forall k, (k < index_len df)%nat ->
        exists s', In s' (map snd (frame_columns df)) /\ is_Some (value_at s' k))
  /\ ((forall i, (i < raw_index_len t)%nat -> row_has_value t i = true) ->
      index_len df = raw_index_len t
      /\ map snd (frame_columns df) = raw_columns t).
Proof.
  intros Hwf H. destruct (load_success _ _ H) as (t' & Et & Hn & Hi & _ & Hs).
  injection Et as <-.
  pose proof (rows_with_value_length_eq t Hwf) as Hlen.
  assert (Hcount : index_len df = length (rows_kept t)).
  { rewrite Hi. unfold dropna_all, rows_kept. simpl.
    rewrite (count_true_filter (row_has_value t) (rows_with_value t) 0%nat).
    - rewrite Hlen. reflexivity.
    - intros j Hj. apply rows_with_value_lookup; [exact Hwf|lia]. }
  assert (Hcols : Forall2 (fun s s' =>
                    dtype s' = dtype s /\ size s' = index_len df
                    /\ forall k i, rows_kept t !! k = Some i ->
                                   value_at s' k = value_at s i)
                    (raw_columns t) (map snd (frame_columns df))).
  { rewrite Hs. unfold dropna_all. simpl. apply Forall2_map_self.
    intros s Hin. pose proof Hwf as Hsz. unfold raw_well_formed in Hsz.
    rewrite List.Forall_forall in Hsz. specialize (Hsz s Hin).
    split; [destruct s; reflexivity|]. split.
    - rewrite Hi. unfold dropna_all. simpl. apply size_select_series. congruence.
    - intros k i Hk. apply value_at_select; assumption. }
  split; [exact Hcount|]. split; [exact Hcols|]. split.
  - intros k Hk. rewrite Hcount in Hk.
    apply lookup_lt_is_Some in Hk. destruct Hk as [i Hk].
    pose proof Hk as Hp. unfold rows_kept in Hp.
    apply list_elem_of_lookup_2, list_elem_of_In, filter_In in Hp.
    destruct Hp as [_ Hp]. unfold row_has_value in Hp.
    apply existsb_exists in Hp. destruct Hp as (s & Hin & Hv).
    apply bool_decide_eq_true in Hv.
    exists (select_series (rows_with_value t) s). split.
    + rewrite Hs. unfold dropna_all. simpl. apply in_map. exact Hin.
    + rewrite (value_at_select t s k i Hwf); [exact Hv| |exact Hk].
      unfold raw_well_formed in Hwf. rewrite List.Forall_forall in Hwf.
      apply Hwf, Hin.
  - intros Hall.
    assert (Hmask : rows_with_value t = replicate (raw_index_len t) true).
    { apply list_eq. intros i. destruct (Nat.lt_ge_cases i (raw_index_len t)) as [Hlt|Hge].
      - rewrite rows_with_value_lookup, Hall by assumption.
        symmetry. apply lookup_replicate_2, Hlt.
      - rewrite !(proj2 (lookup_ge_None _ _)); [reflexivity| |].
        + rewrite length_replicate. exact Hge.
        + rewrite Hlen. exact Hge. }
    rewrite Hi, Hs. unfold dropna_all. simpl.
    rewrite Hmask, count_true_replicate. split; [reflexivity|].
    unfold raw_well_formed in Hwf. rewrite List.Forall_forall in Hwf.
    rewrite <- (map_id (raw_columns t)) at 2. apply map_ext_in.
    intros s Hin. rewrite <- (Hwf s Hin). apply select_series_all.
Qed.

Lemma load_keeps_rows_with_value_witness :
  raw_well_formed (mkRaw 3 (replicate 10 (Float64 [nan; f64_of_int 1; nan])))
  /\ load_munra_raw
       (Readable (mkRaw 3 (replicate 10 (Float64 [nan; f64_of_int 1; nan]))))
     = inr (mkFrame 1 (combine neutral_names (replicate 10 (Float64 [f64_of_int 1]))))
  /\ rows_kept (mkRaw 3 (replicate 10 (Float64 [nan; f64_of_int 1; nan]))) = [1%nat]
  /\ index_len (mkFrame 1 (combine neutral_names (replicate 10 (Float64 [f64_of_int 1]))))
     = length (rows_kept (mkRaw 3 (replicate 10 (Float64 [nan; f64_of_int 1; nan])))).
Proof.
  assert (H : load_munra_raw
                (Readable (mkRaw 3 (replicate 10 (Float64 [nan; f64_of_int 1; nan]))))
              = inr (mkFrame 1 (combine neutral_names
                                        (replicate 10 (Float64 [f64_of_int 1])))))
    by reflexivity.
  assert (Hwf : raw_well_formed
                  (mkRaw 3 (replicate 10 (Float64 [nan; f64_of_int 1; nan]))))
    by (unfold raw_well_formed; simpl; repeat constructor).
  destruct (load_keeps_rows_with_value _ _ Hwf H) as (Hlen & _).
  exact (conj Hwf (conj H (conj eq_refl Hlen))).
Defined.

(** ** From the file to the report *)

Lemma monotonic_hint_numeric (s : Series) :
  is_numeric_dtype s = true -> _monotonic_hint s <> "n/a".
Proof.
  intros H. unfold _monotonic_hint. rewrite is_numeric_dropna, H. simpl.
  destruct (empty (dropna s)); [discriminate|].
  destruct (is_monotonic_increasing (dropna s) && negb (is_monotonic_decreasing (dropna s)));
    [discriminate|].
  destruct (is_monotonic_decreasing (dropna s) && negb (is_monotonic_increasing (dropna s)));
    discriminate.
Qed.

(** A summary row tells a text column from a numeric one. *)
Lemma summarize_kind (c : string) (s : Series) (r : ColumnSummary) :
  summarize c s = Some r ->
  if is_numeric_dtype s then cs_monotonic r <> "n/a"
  else cs_min r = "" /\ cs_max r = "" /\ cs_zero_fraction r = "n/a"
       /\ cs_monotonic r = "n/a".
Proof.
  unfold summarize. pose proof (monotonic_hint_numeric s) as Hm.
  destruct (is_numeric_dtype s);
    [destruct (numeric_cells s) as [[mn mx]|]|];
    destruct (_constant_hint s) as [hint|];
    destruct (possible_role c s) as [role|]; simpl;
    try discriminate; intros H; injection H as <-; simpl; auto.
Qed.

Lemma clean_column_kind (read_number : string -> option reading)
    (to_numeric : Series -> Series) (na : nat -> option string)
    (c : string) (s : Series) :
  to_numeric_contract read_number to_numeric ->
  is_numeric_dtype (clean_column to_numeric na c s) = negb (String.eqb c "col_9").
Proof.
  intros Hnum. unfold clean_column. destruct (String.eqb c "col_9").
  - destruct (astype_strip_entries na s) as (ys & -> & _). reflexivity.
  - destruct (Hnum s) as (H & _). exact H.
Qed.

Lemma cleaned_rows (read_number : string -> option reading)
    (to_numeric : Series -> Series) (na : nat -> option string)
    (l : list (string * Series)) (rows : list string) :
  to_numeric_contract read_number to_numeric ->
  Forall2
    (fun cs row =>
       exists r : ColumnSummary,
         summarize (fst cs) (snd cs) = Some r
         /\ cs_column r = fst cs
         /\ row = "| " +:+ String.concat " | "
                            [ cs_column r; cs_dtype r; str_nat (cs_nunique r);
                              cs_min r; cs_max r; cs_zero_fraction r;
                              cs_monotonic r; cs_constant_hint r;
                              cs_possible_role r ] +:+ " |")
    (map (clean_entry to_numeric na) l) rows ->
  Forall2
    (fun label row =>
       exists r : ColumnSummary,
         cs_column r = label
         /\ row = "| " +:+ String.concat " | "
                            [ cs_column r; cs_dtype r; str_nat (cs_nunique r);
                              cs_min r; cs_max r; cs_zero_fraction r;
                              cs_monotonic r; cs_constant_hint r;
                              cs_possible_role r ] +:+ " |"
         /\ if String.eqb label "col_9"
            then cs_min r = "" /\ cs_max r = "" /\ cs_zero_fraction r = "n/a"
                 /\ cs_monotonic r = "n/a"
            else cs_monotonic r <> "n/a")
    (map fst l) rows.
Proof.
  intros Hnum. revert rows. induction l as [|[c s] l IH]; intros rows H;
    inversion H as [|? row ? rows' Hr Hrest]; subst; constructor.
  - destruct Hr as (r & Hr & Hc & Hrow). unfold clean_entry in Hr, Hc. simpl in *.
    exists r. split; [exact Hc|]. split; [exact Hrow|].
    pose proof (summarize_kind _ _ _ Hr) as Hk.
    rewrite (clean_column_kind read_number to_numeric na c s Hnum) in Hk.
    destruct (String.eqb c "col_9"); exact Hk.
  - apply IH. exact Hrest.
Qed.

(** X17. The three stages of [main] fit together without an exception:
    every table that [load_munra_raw] returns is accepted by
    [basic_structural_clean], and the cleaned table by
    [build_schema_report]. The report has ten rows, for [col_0] to [col_9]
    in this order; the row of [col_9] is the row of a text column (no
    minimum, no maximum, [n/a] for the zero fraction and the monotonicity
    hint) and every other row is the row of a numeric column (its
    monotonicity hint is not [n/a]). The loaded table is left as it was. *)
Theorem load_clean_report (read_number : string -> option reading)
    (to_numeric : Series -> Series) (str_missing : nat -> option string)
    (file : RawFile) (df : DataFrame)
    (σ : gmap loc DataFrame) (l : loc) :
  to_numeric_contract read_number to_numeric ->
  load_munra_raw file = inr df ->
  σ !! l = Some df ->
  exists (out : loc) (σ' : gmap loc DataFrame) (d' : DataFrame) (rows : list string),
    basic_structural_clean to_numeric str_missing l σ = Some (out, σ')
    /\ σ' !! out = Some d' /\ σ' !! l = Some df
    /\ index_len d' = index_len df
    /\ build_schema_report_on out σ'
       = Some (String.concat newline (report_header d' ++ rows ++ report_notes), σ')
    /\ Forall2
         (fun label row =>
            exists r : ColumnSummary,
              cs_column r = label
              /\ row = "| " +:+ String.concat " | "
                                 [ cs_column r; cs_dtype r; str_nat (cs_nunique r);
                                   cs_min r; cs_max r; cs_zero_fraction r;
                                   cs_monotonic r; cs_constant_hint r;
                                   cs_possible_role r ] +:+ " |"
              /\ if String.eqb label "col_9"
                 then cs_min r = "" /\ cs_max r = "" /\ cs_zero_fraction r = "n/a"
                      /\ cs_monotonic r = "n/a"
                 else cs_monotonic r <> "n/a")
         ["col_0"; "col_1"; "col_2"; "col_3"; "col_4"; "col_5"; "col_6"; "col_7";
          "col_8"; "col_9"]
         rows.
Proof.
  intros Hnum Hload Hl.
  destruct (load_success file df Hload) as (t & _ & _ & _ & Hcols & _).
  assert (Hnd : List.NoDup (columns df))
    by (rewrite Hcols; apply neutral_names_distinct).
  pose proof (fresh_object σ) as Hfresh.
  assert (Hne : fresh (dom σ) <> l) by (intros E; rewrite E in Hfresh; congruence).
  assert (Hnd' : List.NoDup (columns (clean_frame to_numeric str_missing df)))
    by (rewrite clean_frame_labels; exact Hnd).
  destruct (report_rows (clean_frame to_numeric str_missing df) Hnd')
    as (rows & Hreport & Hrows).
  exists (fresh (dom σ)), (<[fresh (dom σ) := clean_frame to_numeric str_missing df]> σ),
         (clean_frame to_numeric str_missing df), rows.
  split; [apply basic_structural_clean_run; assumption|].
  split; [apply lookup_insert_eq|].
  split; [rewrite lookup_insert_ne by exact Hne; exact Hl|].
  split; [reflexivity|]. split.
  - rewrite (build_schema_report_on_run _ _ (clean_frame to_numeric str_missing df))
      by apply lookup_insert_eq.
    rewrite Hreport. reflexivity.
  - rewrite <- neutral_names_value, <- Hcols. unfold columns.
    apply (cleaned_rows read_number to_numeric str_missing); [exact Hnum|].
    exact Hrows.
Qed.

Lemma load_clean_report_witness :
  to_numeric_contract sample_read (to_numeric_by sample_read)
  /\ load_munra_raw (Readable sample_raw_table) = inr sample_loaded
  /\ ({[ 1%positive := sample_loaded ]} : gmap loc DataFrame) !! 1%positive
     = Some sample_loaded
  /\ exists (out : loc) (σ' : gmap loc DataFrame) (d' : DataFrame) (rows : list string),
       basic_structural_clean (to_numeric_by sample_read) stays_missing 1%positive
         {[ 1%positive := sample_loaded ]}
       = Some (out, σ')
       /\ σ' !! out = Some d' /\ σ' !! 1%positive = Some sample_loaded
       /\ build_schema_report_on out σ'
          = Some (String.concat newline (report_header d' ++ rows ++ report_notes), σ')
       /\ length rows = 10%nat.
Proof.
  assert (H : load_munra_raw (Readable sample_raw_table) = inr sample_loaded)
    by reflexivity.
  assert (H1 : ({[ 1%positive := sample_loaded ]} : gmap loc DataFrame) !! 1%positive
               = Some sample_loaded) by reflexivity.
  split; [apply to_numeric_by_contract|]. split; [exact H|]. split; [exact H1|].
  destruct (load_clean_report sample_read (to_numeric_by sample_read) stays_missing
              (Readable sample_raw_table) sample_loaded
              {[ 1%positive := sample_loaded ]} 1%positive
              (to_numeric_by_contract sample_read) H H1)
    as (out & σ' & d' & rows & Hrun & Hout & Hl & _ & Hrep & Hrows).
  exists out, σ', d', rows.
  split; [exact Hrun|]. split; [exact Hout|]. split; [exact Hl|].
  split; [exact Hrep|].
  apply Forall2_length in Hrows. rewrite <- Hrows. reflexivity.
Defined.

(** ** Cleaning the air-quality table *)

Lemma air_filter_absent (col : string) (l : list (string * Column)) :
  ~ In col (map fst l) -> List.filter (fun cs => String.eqb (fst cs) col) l = [].
Proof.
  induction l as [|[c v] l IH]; simpl; intros H; [reflexivity|].
  destruct (String.eqb_spec c col) as [->|_]; [tauto|]. apply IH. tauto.
Qed.

Lemma air_getitem_absent (df : AirFrame) (col : string) :
  ~ In col (air_labels df) -> air_getitem df col = None.
Proof.
  intros H. unfold air_getitem. rewrite air_filter_absent by exact H. reflexivity.
Qed.

Lemma air_getitem_unique (df : AirFrame) (col : string) (v : Column) :
  List.NoDup (air_labels df) -> In (col, v) (air_columns df) ->
  air_getitem df col = Some v.
Proof.
  unfold air_getitem, air_labels.
  induction (air_columns df) as [|[c v'] l IH]; simpl; intros Hnd Hin; [tauto|].
  inversion Hnd as [|? ? Hc Hl]; subst. destruct Hin as [E|Hin].
  - injection E as -> ->. rewrite String.eqb_refl.
    rewrite air_filter_absent by assumption. reflexivity.
  - destruct (String.eqb_spec c col) as [->|_].
    + exfalso. apply Hc. apply (in_map fst) in Hin. exact Hin.
    + apply IH; assumption.
Qed.

(** The table in which each column [s] under [c] of [l] is [g c s]. *)
Lemma air_labels_map (n : nat) (g : string -> Series -> Column)
    (l : list (string * Series)) :
  air_labels (mkAir n (map (fun cs => (fst cs, g (fst cs) (snd cs))) l)) = map fst l.
Proof. unfold air_labels. simpl. rewrite map_map. reflexivity. Qed.

Lemma unique_label_entry (l : list (string * Series)) (c : string) (s s' : Series) :
  List.NoDup (map fst l) -> In (c, s) l -> In (c, s') l -> s' = s.
Proof.
  induction l as [|[c0 s0] l IH]; simpl; intros Hnd H1 H2; [tauto|].
  inversion Hnd as [|? ? Hc Hl]; subst.
  destruct H1 as [E1|H1], H2 as [E2|H2].
  - congruence.
  - injection E1 as -> ->. exfalso. apply Hc. apply (in_map fst) in H2. exact H2.
  - injection E2 as -> ->. exfalso. apply Hc. apply (in_map fst) in H1. exact H1.
  - apply IH; assumption.
Qed.

(** One assignment [df[c] = h(df[c])] on such a table. *)
Lemma air_step (n : nat) (g : string -> Series -> Column) (h : Column -> Column)
    (l : list (string * Series)) (c : string) (s : Series) :
  List.NoDup (map fst l) -> In (c, s) l ->
  air_getitem (mkAir n (map (fun cs => (fst cs, g (fst cs) (snd cs))) l)) c
  = Some (g c s)
  /\ air_setitem (mkAir n (map (fun cs => (fst cs, g (fst cs) (snd cs))) l)) c
                 (h (g c s))
     = mkAir n (map (fun cs => (fst cs,
                                if String.eqb (fst cs) c then h (g (fst cs) (snd cs))
                                else g (fst cs) (snd cs))) l).
Proof.
  intros Hnd Hin. split.
  - apply air_getitem_unique.
    + rewrite air_labels_map. exact Hnd.
    + simpl. apply (in_map (fun cs => (fst cs, g (fst cs) (snd cs)))) in Hin.
      exact Hin.
  - unfold air_setitem. simpl. f_equal. rewrite map_map. apply map_ext_in.
    intros [c' s'] Hin'. simpl.
    destruct (String.eqb_spec c' c) as [->|_]; [|reflexivity].
    rewrite (unique_label_entry l c s s' Hnd Hin Hin'). reflexivity.
Qed.

Lemma missing_ratio_none (c : Column) :
  missing_count c = 0%nat -> kept_column c = true.
Proof.
  unfold kept_column, missing_ratio, mean, missing_count. intros ->.
  change (f64_of_int (Z.of_nat 0)) with (S754_zero false).
  destruct (f64_of_int (Z.of_nat (length (isna c)))) as [b|b| |b m e];
    try reflexivity; destruct b; reflexivity.
Qed.

Lemma isna_length (c : Column) : length (isna c) = column_size c.
Proof.
  destruct c as [[xs|xs|xs]|xs]; simpl; rewrite ?length_map; reflexivity.
Qed.

Lemma missing_ratio_all (c : Column) :
  missing_count c = column_size c -> (0 < column_size c)%nat ->
  Z.of_nat (column_size c) < 2 ^ 53 ->
  kept_column c = false.
Proof.
  unfold kept_column, missing_ratio, mean, missing_count. intros Hc Hpos Hsz.
  rewrite isna_length, Hc.
  destruct (f64_of_int_finite (Z.of_nat (column_size c))) as (m & e & ->); [lia|].
  rewrite f64_div_self. reflexivity.
Qed.

Lemma stripped_text_kept (v : Series) : stripped_text v -> kept_column (Plain v) = true.
Proof.
  intros (ts & -> & _). apply missing_ratio_none.
  unfold missing_count, count_true. simpl. rewrite !map_map. simpl.
  induction ts as [|t ts IH]; [reflexivity|exact IH].
Qed.

Lemma existsb_label (c : string) (l : list (string * Column))
    (p : string * Column -> bool) :
  existsb (String.eqb c) (map fst (List.filter p l)) = true
  <-> exists v, In (c, v) l /\ p (c, v) = true.
Proof.
  rewrite existsb_exists. split.
  - intros (c' & Hin & E). apply String.eqb_eq in E. subst c'.
    apply in_map_iff in Hin. destruct Hin as ([c' v] & Ec & Hin). simpl in Ec.
    subst c'. apply filter_In in Hin. destruct Hin as [Hin Hp]. eauto.
  - intros (v & Hin & Hp). exists c. split; [|apply String.eqb_refl].
    apply in_map_iff. exists (c, v). split; [reflexivity|].
    apply filter_In. auto.
Qed.

Lemma unique_label_column (l : list (string * Column)) (c : string) (v v' : Column) :
  List.NoDup (map fst l) -> In (c, v) l -> In (c, v') l -> v' = v.
Proof.
  induction l as [|[c0 v0] l IH]; simpl; intros Hnd H1 H2; [tauto|].
  inversion Hnd as [|? ? Hc Hl]; subst.
  destruct H1 as [E1|H1], H2 as [E2|H2].
  - congruence.
  - injection E1 as -> ->. exfalso. apply Hc. apply (in_map fst) in H2. exact H2.
  - injection E2 as -> ->. exfalso. apply Hc. apply (in_map fst) in H1. exact H1.
  - apply IH; assumption.
Qed.

(** With labels that differ, dropping by label drops the columns whose own
    ratio is above the threshold. *)
Lemma drop_by_ratio (df : AirFrame) :
  List.NoDup (air_labels df) ->
  match cols_to_drop df with
  | [] => df
  | _ :: _ => air_drop df (cols_to_drop df)
  end
  = mkAir (air_index_len df)
          (List.filter (fun cs => kept_column (snd cs)) (air_columns df)).
Proof.
  intros Hnd.
  assert (E : air_drop df (cols_to_drop df)
              = mkAir (air_index_len df)
                      (List.filter (fun cs => kept_column (snd cs)) (air_columns df))).
  { unfold air_drop, cols_to_drop. f_equal. apply filter_ext_in.
    intros [c v] Hin. simpl. unfold kept_column. f_equal.
    destruct (f64_ltb f64_0_6 (missing_ratio v)) eqn:Ev.
    - apply existsb_label. exists v. auto.
    - apply not_true_is_false. intros H. apply existsb_label in H.
      destruct H as (v' & Hin' & Hp). simpl in Hp.
      rewrite (unique_label_column _ c v v' Hnd Hin Hin') in Hp. congruence. }
  destruct (cols_to_drop df) as [|c0 rest] eqn:Ed; [|exact E].
  rewrite <- E. unfold air_drop. simpl. destruct df as [n cols]. simpl. f_equal.
  clear. induction cols as [|cs cols IH]; [reflexivity|]. simpl. rewrite <- IH.
  reflexivity.
Qed.

Lemma air_clean_steps (td : Series -> list (option Z)) (ts : option Z -> string)
    (sm : string -> nat -> option string) (c : string) (s : Series) :
  (if String.eqb c "AQI_Bucket"
   then Plain (default (Int64 [])
                 (str_strip (column_astype_str ts (sm "AQI_Bucket")
                    (if String.eqb c "City"
                     then Plain (default (Int64 [])
                                   (str_strip (column_astype_str ts (sm "City")
                                      (if String.eqb c "Date"
                                       then column_to_datetime td (Plain s)
                                       else Plain s))))
                     else if String.eqb c "Date"
                          then column_to_datetime td (Plain s) else Plain s))))
   else if String.eqb c "City"
        then Plain (default (Int64 [])
                      (str_strip (column_astype_str ts (sm "City")
                         (if String.eqb c "Date"
                          then column_to_datetime td (Plain s) else Plain s))))
        else if String.eqb c "Date"
             then column_to_datetime td (Plain s) else Plain s)
  = air_clean_column td sm c s.
Proof.
  unfold air_clean_column.
  destruct (String.eqb_spec c "AQI_Bucket") as [->|_].
  - simpl. destruct (astype_strip_entries (sm "AQI_Bucket") s) as (v & -> & _).
    reflexivity.
  - destruct (String.eqb_spec c "City") as [->|_].
    + simpl. destruct (astype_strip_entries (sm "City") s) as (v & -> & _).
      reflexivity.
    + rewrite orb_false_r. destruct (String.eqb c "Date"); reflexivity.
Qed.

(** The run of [basic_clean] on a table with distinct labels that has the
    three columns the function reads. *)
Lemma basic_clean_run (td : Series -> list (option Z)) (ts : option Z -> string)
    (sm : string -> nat -> option string) (df : DataFrame) :
  List.NoDup (columns df) ->
  In "Date" (columns df) -> In "City" (columns df) -> In "AQI_Bucket" (columns df) ->
  basic_clean td ts sm df
  = Some (mkAir (index_len df)
            (List.filter (fun cs => kept_column (snd cs))
               (map (fun cs => (fst cs, air_clean_column td sm (fst cs) (snd cs)))
                    (frame_columns df)))).
Proof.
  unfold columns. intros Hnd Hdate Hcity Haqi.
  apply in_map_iff in Hdate, Hcity, Haqi.
  destruct Hdate as ([c1 s1] & E1 & H1), Hcity as ([c2 s2] & E2 & H2),
           Haqi as ([c3 s3] & E3 & H3). simpl in E1, E2, E3. subst c1 c2 c3.
  unfold basic_clean, air_of_frame, strip_text_column.
  pose proof (air_step (index_len df) (fun _ s => Plain s) (column_to_datetime td)
                (frame_columns df) "Date" s1 Hnd H1) as [G1 S1].
  cbv beta in G1, S1. rewrite G1, S1. clear G1 S1.
  pose proof (air_step (index_len df)
                (fun c s => if String.eqb c "Date"
                            then column_to_datetime td (Plain s) else Plain s)
                (fun v => Plain (default (Int64 [])
                                   (str_strip (column_astype_str ts (sm "City") v))))
                (frame_columns df) "City" s2 Hnd H2) as [G2 S2].
  cbv beta in G2, S2. rewrite G2.
  change (String.eqb "City" "Date") with false in S2 |- *. cbv iota in S2 |- *.
  change (column_astype_str ts (sm "City") (Plain s2))
    with (astype_str (sm "City") s2) in S2 |- *.
  destruct (astype_strip_entries (sm "City") s2) as (v2 & Hv2 & _).
  rewrite Hv2 in S2 |- *.
  change (default (Int64 []) (Some (Object v2))) with (Object v2) in S2.
  rewrite S2. clear G2 S2.
  pose proof (air_step (index_len df)
                (fun c s =>
                   if String.eqb c "City"
                   then Plain (default (Int64 [])
                                 (str_strip (column_astype_str ts (sm "City")
                                    (if String.eqb c "Date"
                                     then column_to_datetime td (Plain s)
                                     else Plain s))))
                   else if String.eqb c "Date"
                        then column_to_datetime td (Plain s) else Plain s)
                (fun v => Plain (default (Int64 [])
                                   (str_strip (column_astype_str ts (sm "AQI_Bucket") v))))
                (frame_columns df) "AQI_Bucket" s3 Hnd H3) as [G3 S3].
  cbv beta in G3, S3. rewrite G3.
  change (String.eqb "AQI_Bucket" "City") with false in S3 |- *.
  change (String.eqb "AQI_Bucket" "Date") with false in S3 |- *.
  cbv iota in S3 |- *.
  change (column_astype_str ts (sm "AQI_Bucket") (Plain s3))
    with (astype_str (sm "AQI_Bucket") s3) in S3 |- *.
  destruct (astype_strip_entries (sm "AQI_Bucket") s3) as (v3 & Hv3 & _).
  rewrite Hv3 in S3 |- *.
  change (default (Int64 []) (Some (Object v3))) with (Object v3) in S3.
  rewrite S3. clear G3 S3.
  cbv zeta.
  match goal with
  | |- match cols_to_drop ?F with _ => _ end = _ =>
      transitivity (Some (match cols_to_drop F with
                          | [] => F
                          | _ :: _ => air_drop F (cols_to_drop F)
                          end));
        [destruct (cols_to_drop F); reflexivity|]
  end.
  rewrite drop_by_ratio
    by (unfold air_labels; cbn [air_columns]; rewrite map_map; exact Hnd).
  cbn [air_index_len air_columns]. do 3 f_equal.
  apply map_ext. intros [c s]. cbn [fst snd]. f_equal. apply air_clean_steps.
Qed.

Lemma air_setitem_labels (df : AirFrame) (col : string) (v : Column) :
  air_labels (air_setitem df col v) = air_labels df.
Proof.
  unfold air_labels, air_setitem. simpl. rewrite map_map. apply map_ext.
  intros [c v']. simpl. destruct (String.eqb_spec c col) as [->|_]; reflexivity.
Qed.

Lemma strip_text_column_absent (ts : option Z -> string)
    (sm : string -> nat -> option string) (df : AirFrame) (col : string) :
  ~ In col (air_labels df) -> strip_text_column ts sm df col = None.
Proof.
  intros H. unfold strip_text_column. rewrite air_getitem_absent by exact H.
  reflexivity.
Qed.

Lemma strip_text_column_labels (ts : option Z -> string)
    (sm : string -> nat -> option string) (df df' : AirFrame) (col : string) :
  strip_text_column ts sm df col = Some df' -> air_labels df' = air_labels df.
Proof.
  unfold strip_text_column. destruct (air_getitem df col) as [c|]; [|discriminate].
  destruct (str_strip (column_astype_str ts (sm col) c)) as [v|]; [|discriminate].
  intros H. injection H as <-. apply air_setitem_labels.
Qed.

Lemma air_of_frame_labels (df : DataFrame) : air_labels (air_of_frame df) = columns df.
Proof. unfold air_labels, air_of_frame, columns. simpl. apply map_map. Qed.

(** X18. [basic_clean] reads the columns [Date], [City] and [AQI_Bucket]:
    it raises when the table lacks one of them, and it returns a table when
    the labels of the table are pairwise different and the three are
    there. *)
Theorem basic_clean_needs_three_columns (td : Series -> list (option Z))
    (ts : option Z -> string) (sm : string -> nat -> option string) (df : DataFrame) :
  (~ In "Date" (columns df) \/ ~ In "City" (columns df)
   \/ ~ In "AQI_Bucket" (columns df) ->
   basic_clean td ts sm df = None)
  /\ (List.NoDup (columns df) ->
      In "Date" (columns df) -> In "City" (columns df) ->
      In "AQI_Bucket" (columns df) ->
      exists r, basic_clean td ts sm df = Some r).
Proof.
  split.
  - intros H. unfold basic_clean.
    destruct (air_getitem (air_of_frame df) "Date") as [date|] eqn:Ed; [|reflexivity].
    set (df1 := air_setitem (air_of_frame df) "Date" (column_to_datetime td date)).
    assert (L1 : air_labels df1 = columns df)
      by (unfold df1; rewrite air_setitem_labels; apply air_of_frame_labels).
    destruct H as [H|[H|H]].
    + rewrite air_getitem_absent in Ed; [discriminate|].
      rewrite air_of_frame_labels. exact H.
    + rewrite strip_text_column_absent by (rewrite L1; exact H). reflexivity.
    + destruct (strip_text_column ts sm df1 "City") as [df2|] eqn:E2; [|reflexivity].
      rewrite strip_text_column_absent; [reflexivity|].
      rewrite (strip_text_column_labels ts sm df1 df2 "City" E2), L1. exact H.
  - intros Hnd H1 H2 H3. rewrite (basic_clean_run td ts sm df Hnd H1 H2 H3). eauto.
Qed.

Lemma basic_clean_needs_three_columns_witness :
  List.NoDup (columns sample_air_frame)
  /\ In "Date" (columns sample_air_frame) /\ In "City" (columns sample_air_frame)
  /\ In "AQI_Bucket" (columns sample_air_frame)
  /\ (exists r, basic_clean sample_to_datetime sample_str_timestamp
                  (fun _ => stays_missing) sample_air_frame
                = Some r)
  /\ ~ In "Date" (columns sample_frame)
  /\ basic_clean sample_to_datetime sample_str_timestamp (fun _ => stays_missing)
       sample_frame = None.
Proof.
  assert (Hnd : List.NoDup (columns sample_air_frame)).
  { unfold columns, sample_air_frame. simpl.
    repeat constructor; simpl; intuition discriminate. }
  assert (H1 : In "Date" (columns sample_air_frame)) by (simpl; tauto).
  assert (H2 : In "City" (columns sample_air_frame)) by (simpl; tauto).
  assert (H3 : In "AQI_Bucket" (columns sample_air_frame)) by (simpl; tauto).
  assert (H4 : ~ In "Date" (columns sample_frame))
    by (simpl; intuition discriminate).
  destruct (basic_clean_needs_three_columns sample_to_datetime sample_str_timestamp
              (fun _ => stays_missing) sample_air_frame) as [_ Hok].
  destruct (basic_clean_needs_three_columns sample_to_datetime sample_str_timestamp
              (fun _ => stays_missing) sample_frame) as [Hfail _].
  exact (conj Hnd (conj H1 (conj H2 (conj H3 (conj (Hok Hnd H1 H2 H3)
          (conj H4 (Hfail (or_introl H4)))))))).
Defined.

Lemma NoDup_filter_labels (p : string * Column -> bool) (l : list (string * Column)) :
  List.NoDup (map fst l) -> List.NoDup (map fst (List.filter p l)).
Proof.
  induction l as [|[c v] l IH]; simpl; intros H; [constructor|].
  inversion H as [|? ? Hc Hl]; subst.
  destruct (p (c, v)); simpl; [|apply IH; exact Hl].
  constructor; [|apply IH; exact Hl].
  intros Hin. apply Hc. apply in_map_iff in Hin.
  destruct Hin as ([c' v'] & E & Hin). simpl in E. subst c'.
  apply filter_In in Hin. destruct Hin as [Hin _].
  apply (in_map fst) in Hin. exact Hin.
Qed.

(** Where a column of the argument ends up. *)
Lemma basic_clean_column (td : Series -> list (option Z)) (ts : option Z -> string)
    (sm : string -> nat -> option string) (df : DataFrame) (c : string) (s : Series) :
  List.NoDup (columns df) ->
  In "Date" (columns df) -> In "City" (columns df) -> In "AQI_Bucket" (columns df) ->
  In (c, s) (frame_columns df) ->
  exists r, basic_clean td ts sm df = Some r
    /\ air_index_len r = index_len df
    /\ air_columns r
       = List.filter (fun cs => kept_column (snd cs))
           (map (fun cs => (fst cs, air_clean_column td sm (fst cs) (snd cs)))
                (frame_columns df))
    /\ (kept_column (air_clean_column td sm c s) = true ->
        air_getitem r c = Some (air_clean_column td sm c s))
    /\ (kept_column (air_clean_column td sm c s) = false -> ~ In c (air_labels r)).
Proof.
  intros Hnd H1 H2 H3 Hin. eexists. split; [apply basic_clean_run; assumption|].
  split; [reflexivity|]. split; [reflexivity|].
  set (cleaned := map (fun cs => (fst cs, air_clean_column td sm (fst cs) (snd cs)))
                      (frame_columns df)).
  assert (Hnd' : List.NoDup (map fst cleaned))
    by (unfold cleaned; rewrite map_map; exact Hnd).
  assert (Hin' : In (c, air_clean_column td sm c s) cleaned).
  { unfold cleaned.
    apply (in_map (fun cs => (fst cs, air_clean_column td sm (fst cs) (snd cs)))) in Hin.
    exact Hin. }
  split.
  - intros Hk. apply air_getitem_unique.
    + unfold air_labels. simpl. apply NoDup_filter_labels, Hnd'.
    + simpl. apply filter_In. auto.
  - intros Hk Hc. unfold air_labels in Hc. simpl in Hc. apply in_map_iff in Hc.
    destruct Hc as ([c' v] & E & Hf). simpl in E. subst c'.
    apply filter_In in Hf. destruct Hf as [Hv Hkv]. simpl in Hkv.
    rewrite (unique_label_column cleaned c _ v Hnd' Hin' Hv) in Hkv. congruence.
Qed.

(** X19. On a table with distinct labels that has the three columns it
    reads, [basic_clean] keeps the number of rows and the order of the
    columns, converts [Date] to timestamps and [City] and [AQI_Bucket] to
    stripped text, and then drops a column exactly when the ratio of its
    missing entries, as a float, is above 0.60: a column that is kept is
    found under its label, the label of a column that is dropped is gone.
    The ratio is that of the converted column: whether a missing entry of
    [City] or [AQI_Bucket] still counts depends on [astype(str)]. *)
Theorem basic_clean_keeps_and_drops (td : Series -> list (option Z))
    (ts : option Z -> string) (sm : string -> nat -> option string) (df : DataFrame) :
  List.NoDup (columns df) ->
  In "Date" (columns df) -> In "City" (columns df) -> In "AQI_Bucket" (columns df) ->
  exists r, basic_clean td ts sm df = Some r
    /\ air_index_len r = index_len df
    /\ air_columns r
       = List.filter (fun cs => negb (f64_ltb f64_0_6 (missing_ratio (snd cs))))
           (map (fun cs => (fst cs, air_clean_column td sm (fst cs) (snd cs)))
                (frame_columns df))
    /\ forall (c : string) (s : Series),
         In (c, s) (frame_columns df) ->
         if f64_ltb f64_0_6 (missing_ratio (air_clean_column td sm c s))
         then ~ In c (air_labels r)
         else air_getitem r c = Some (air_clean_column td sm c s).
Proof.
  intros Hnd H1 H2 H3. eexists. split; [apply basic_clean_run; assumption|].
  split; [reflexivity|]. split; [reflexivity|].
  intros c s Hin.
  destruct (basic_clean_column td ts sm df c s Hnd H1 H2 H3 Hin)
    as (r & Hr & _ & _ & Hk & Hd).
  rewrite (basic_clean_run td ts sm df Hnd H1 H2 H3) in Hr. injection Hr as <-.
  unfold kept_column in Hk, Hd.
  destruct (f64_ltb f64_0_6 (missing_ratio (air_clean_column td sm c s))).
  - apply Hd. reflexivity.
  - apply Hk. reflexivity.
Qed.

Lemma sample_air_frame_labels : List.NoDup (columns sample_air_frame).
Proof.
  unfold columns, sample_air_frame. simpl.
  repeat constructor; simpl; intuition discriminate.
Qed.

Lemma basic_clean_keeps_and_drops_witness :
  List.NoDup (columns sample_air_frame)
  /\ In "Date" (columns sample_air_frame) /\ In "City" (columns sample_air_frame)
  /\ In "AQI_Bucket" (columns sample_air_frame)
  /\ (exists r, basic_clean sample_to_datetime sample_str_timestamp (fun _ => nan_text)
                  sample_air_frame = Some r
        /\ air_index_len r = index_len sample_air_frame
        /\ air_labels r = ["City"; "Date"; "NO"; "AQI_Bucket"])
  /\ (exists r, basic_clean sample_to_datetime sample_str_timestamp
                  (fun _ => stays_missing) sample_air_frame = Some r
        /\ air_index_len r = index_len sample_air_frame
        /\ air_labels r = ["City"; "Date"; "NO"]).
Proof.
  assert (H1 : In "Date" (columns sample_air_frame)) by (simpl; tauto).
  assert (H2 : In "City" (columns sample_air_frame)) by (simpl; tauto).
  assert (H3 : In "AQI_Bucket" (columns sample_air_frame)) by (simpl; tauto).
  destruct (basic_clean_keeps_and_drops sample_to_datetime sample_str_timestamp
              (fun _ => nan_text) sample_air_frame sample_air_frame_labels H1 H2 H3)
    as (r & Hr & Hn & Hc & _).
  destruct (basic_clean_keeps_and_drops sample_to_datetime sample_str_timestamp
              (fun _ => stays_missing) sample_air_frame sample_air_frame_labels
              H1 H2 H3)
    as (r' & Hr' & Hn' & Hc' & _).
  split; [exact sample_air_frame_labels|].
  split; [exact H1|]. split; [exact H2|]. split; [exact H3|]. split.
  - exists r. split; [exact Hr|]. split; [exact Hn|].
    unfold air_labels. rewrite Hc. vm_compute. reflexivity.
  - exists r'. split; [exact Hr'|]. split; [exact Hn'|].
    unfold air_labels. rewrite Hc'. vm_compute. reflexivity.
Defined.

Lemma air_clean_text (td : Series -> list (option Z))
    (sm : string -> nat -> option string) (c : string) (s : Series) :
  c = "City" \/ c = "AQI_Bucket" ->
  exists v, air_clean_column td sm c s = Plain v /\ stripped_entries (sm c) s v.
Proof.
  intros H. unfold air_clean_column.
  assert (E : String.eqb c "Date" = false) by (destruct H as [->| ->]; reflexivity).
  assert (E' : String.eqb c "City" || String.eqb c "AQI_Bucket" = true)
    by (destruct H as [->| ->]; reflexivity).
  rewrite E, E'. destruct (astype_strip_entries (sm c) s) as (ys & -> & Hys).
  eexists. split; [reflexivity|exact Hys].
Qed.

(** X20. [basic_clean] turns the columns [City] and [AQI_Bucket] into
    stripped text, entry by entry: an entry with a value becomes the
    stripped text of this value, a missing entry the stripped text that
    [astype(str)] writes for it, if it writes one. The column is then kept
    or dropped by the ratio of the entries that are still missing. Where
    [astype(str)] writes a text for each missing entry (pandas 2), the
    column is text without missing entry and it is kept; where it leaves
    them missing (pandas 3), the column can be dropped. *)
Theorem basic_clean_text_columns (td : Series -> list (option Z))
    (ts : option Z -> string) (sm : string -> nat -> option string)
    (df : DataFrame) (c : string) (s : Series) :
  List.NoDup (columns df) ->
  In "Date" (columns df) -> In "City" (columns df) -> In "AQI_Bucket" (columns df) ->
  c = "City" \/ c = "AQI_Bucket" ->
  In (c, s) (frame_columns df) ->
  exists r v, basic_clean td ts sm df = Some r
    /\ stripped_entries (sm c) s v
    /\ (if f64_ltb f64_0_6 (missing_ratio (Plain v))
        then ~ In c (air_labels r)
        else air_getitem r c = Some (Plain v))
    /\ ((forall i, (i < size s)%nat -> value_at s i = None -> sm c i <> None) ->
        stripped_text v /\ air_getitem r c = Some (Plain v)).
Proof.
  intros Hnd H1 H2 H3 Hc Hin.
  destruct (basic_clean_column td ts sm df c s Hnd H1 H2 H3 Hin)
    as (r & Hr & _ & _ & Hk & Hd).
  destruct (air_clean_text td sm c s Hc) as (v & Ev & Hv).
  exists r, v. split; [exact Hr|]. split; [exact Hv|].
  rewrite Ev in Hk, Hd. unfold kept_column in Hk, Hd. split.
  - destruct (f64_ltb f64_0_6 (missing_ratio (Plain v)));
      [apply Hd|apply Hk]; reflexivity.
  - intros Hna. pose proof (stripped_entries_text _ _ _ Hna Hv) as Ht.
    split; [exact Ht|]. pose proof (stripped_text_kept v Ht) as Hkept.
    unfold kept_column in Hkept.
    destruct (f64_ltb f64_0_6 (missing_ratio (Plain v))); [discriminate|].
    apply Hk. reflexivity.
Qed.

Lemma basic_clean_text_columns_witness :
  List.NoDup (columns sample_air_frame)
  /\ In "Date" (columns sample_air_frame) /\ In "City" (columns sample_air_frame)
  /\ In "AQI_Bucket" (columns sample_air_frame)
  /\ In ("AQI_Bucket", Object [Some "Poor"; None; None]) (frame_columns sample_air_frame)
  /\ (exists r v, basic_clean sample_to_datetime sample_str_timestamp
                    (fun _ => nan_text) sample_air_frame = Some r
        /\ stripped_text v /\ air_getitem r "AQI_Bucket" = Some (Plain v))
  /\ (exists r, basic_clean sample_to_datetime sample_str_timestamp
                  (fun _ => stays_missing) sample_air_frame = Some r
        /\ ~ In "AQI_Bucket" (air_labels r)).
Proof.
  assert (H1 : In "Date" (columns sample_air_frame)) by (simpl; tauto).
  assert (H2 : In "City" (columns sample_air_frame)) by (simpl; tauto).
  assert (H3 : In "AQI_Bucket" (columns sample_air_frame)) by (simpl; tauto).
  assert (H4 : In ("AQI_Bucket", Object [Some "Poor"; None; None])
                  (frame_columns sample_air_frame)) by (simpl; tauto).
  destruct (basic_clean_text_columns sample_to_datetime sample_str_timestamp
              (fun _ => nan_text) sample_air_frame "AQI_Bucket"
              (Object [Some "Poor"; None; None])
              sample_air_frame_labels H1 H2 H3 (or_intror eq_refl) H4)
    as (r & v & Hr & _ & _ & Htext).
  destruct (basic_clean_text_columns sample_to_datetime sample_str_timestamp
              (fun _ => stays_missing) sample_air_frame "AQI_Bucket"
              (Object [Some "Poor"; None; None])
              sample_air_frame_labels H1 H2 H3 (or_intror eq_refl) H4)
    as (r' & v' & Hr' & Hv' & Hdrop & _).
  split; [exact sample_air_frame_labels|].
  split; [exact H1|]. split; [exact H2|]. split; [exact H3|]. split; [exact H4|].
  split.
  - exists r, v. split; [exact Hr|]. apply Htext. intros i _ _. discriminate.
  - exists r'. split; [exact Hr'|].
    assert (E : basic_clean sample_to_datetime sample_str_timestamp
                  (fun _ => stays_missing) sample_air_frame
                = Some (mkAir 3
                          [ ("City", Plain (Object [Some "Delhi"; Some "Delhi"; None]));
                            ("Date", Datetime64 [Some 10; None; Some 10]);
                            ("NO", Plain (Float64 [f64_of_int 7; nan; f64_of_int 9])) ]))
      by (vm_compute; reflexivity).
    rewrite E in Hr'. injection Hr' as <-.
    simpl. intuition discriminate.
Defined.

(** X21. Among the other columns (neither [Date], [City] nor
    [AQI_Bucket]), [basic_clean] returns unchanged a column without missing
    entry, and drops a column of which every entry is missing (a table with
    rows, fewer than 2^53). *)
Theorem basic_clean_full_and_empty_columns (td : Series -> list (option Z))
    (ts : option Z -> string) (sm : string -> nat -> option string)
    (df : DataFrame) (c : string) (s : Series) :
  List.NoDup (columns df) ->
  In "Date" (columns df) -> In "City" (columns df) -> In "AQI_Bucket" (columns df) ->
  In (c, s) (frame_columns df) ->
  c <> "Date" -> c <> "City" -> c <> "AQI_Bucket" ->
  exists r, basic_clean td ts sm df = Some r
    /\ (missing_count (Plain s) = 0%nat -> air_getitem r c = Some (Plain s))
    /\ (missing_count (Plain s) = size s -> (0 < size s)%nat ->
        Z.of_nat (size s) < 2 ^ 53 -> ~ In c (air_labels r)).
Proof.
  intros Hnd H1 H2 H3 Hin Hd Hc Ha.
  destruct (basic_clean_column td ts sm df c s Hnd H1 H2 H3 Hin)
    as (r & Hr & _ & _ & Hk & Hdrop).
  assert (E : air_clean_column td sm c s = Plain s).
  { unfold air_clean_column. apply String.eqb_neq in Hd, Hc, Ha.
    rewrite Hd, Hc, Ha. reflexivity. }
  rewrite E in Hk, Hdrop. exists r. split; [exact Hr|]. split.
  - intros H0. apply Hk, missing_ratio_none, H0.
  - intros Hall Hpos Hsz. apply Hdrop. apply missing_ratio_all; assumption.
Qed.

Lemma basic_clean_full_and_empty_columns_witness :
  exists r, basic_clean sample_to_datetime sample_str_timestamp (fun _ => stays_missing)
              sample_gas_frame
            = Some r
    /\ air_getitem r "CO" = Some (Plain (Float64 [f64_of_int 1; f64_of_int 2]))
    /\ ~ In "Xylene" (air_labels r).
Proof.
  assert (Hnd : List.NoDup (columns sample_gas_frame)).
  { unfold columns, sample_gas_frame. simpl.
    repeat constructor; simpl; intuition discriminate. }
  assert (H1 : In "Date" (columns sample_gas_frame)) by (simpl; tauto).
  assert (H2 : In "City" (columns sample_gas_frame)) by (simpl; tauto).
  assert (H3 : In "AQI_Bucket" (columns sample_gas_frame)) by (simpl; tauto).
  destruct (basic_clean_full_and_empty_columns sample_to_datetime sample_str_timestamp
              (fun _ => stays_missing) sample_gas_frame "CO"
              (Float64 [f64_of_int 1; f64_of_int 2]) Hnd H1 H2 H3)
    as (r & Hr & Hfull & _); [simpl; tauto|discriminate|discriminate|discriminate|].
  destruct (basic_clean_full_and_empty_columns sample_to_datetime sample_str_timestamp
              (fun _ => stays_missing) sample_gas_frame "Xylene"
              (Float64 [nan; nan]) Hnd H1 H2 H3)
    as (r' & Hr' & _ & Hempty); [simpl; tauto|discriminate|discriminate|discriminate|].
  assert (r' = r) by congruence. subst r'.
  exists r. split; [exact Hr|]. split; [apply Hfull; reflexivity|].
  apply Hempty; [reflexivity|simpl; lia|simpl; lia].
Defined.
